(** * NeoDB / Takahe federation core: a shallow embedding and its properties

    The definitions below embed [takahe/models.py] and [takahe/utils.py]:
    the Snowflake id generator, the row types of the Takahe tables, a small
    state-and-exception monad over the database, the model class methods
    ([Identity.fetch_webfinger], [Identity.by_username_and_domain],
    [Post.calculate_stats], [Block.maybe_get]) and the [Takahe] facade.

    Python [int] is [Z]; [float] is an IEEE 754 binary64 number, a
    [spec_float] with 53 bits of precision; [str] is [string]; a nullable
    column is an [option];
    a table is the list of its rows in storage order; a raised exception is
    the [Raise] result of the monad. *)

From Stdlib Require Import SpecFloat.
From Stdlib Require Import ZArith QArith Qround List String Ascii Bool Lia.
From Stdlib Require Import DecimalString Lqa Qpower.
Import ListNotations.
Open Scope string_scope.
Open Scope Z_scope.

Set Implicit Arguments.

(** ** Exceptions and results *)

(** The model classes, to tell [Follow.DoesNotExist] from
    [Identity.DoesNotExist] in an [except] clause. *)
Inductive model : Type :=
| MDomain | MIdentity | MFollow | MBlock | MPost | MPostInteraction.

Definition model_eqb (a b : model) : bool :=
  match a, b with
  | MDomain, MDomain | MIdentity, MIdentity | MFollow, MFollow
  | MBlock, MBlock | MPost, MPost | MPostInteraction, MPostInteraction => true
  | _, _ => false
  end.

Inductive exn : Type :=
| DoesNotExist (m : model)
| MultipleObjectsReturned (m : model)
| IntegrityError
| FieldError (keyword : string)
| IndexError
| KeyError (key : string)
| TypeError
| AttributeError
| SSLCertVerificationError
| OverflowError
| ZeroDivisionError
| ValueError (msg : string) (payload : option string).

Inductive result (A : Type) : Type :=
| Ok (a : A)
| Raise (e : exn).

Arguments Ok {A} a.
Arguments Raise {A} e.

(** ** Snowflake ids ([models.py], class [Snowflake]) *)

Module Snowflake.

Definition EPOCH : Z := 1641020400.

Definition TYPE_POST : Z := 0.
Definition TYPE_POST_INTERACTION : Z := 1.
Definition TYPE_IDENTITY : Z := 2.
Definition TYPE_REPORT : Z := 3.
Definition TYPE_FOLLOW : Z := 4.

(** A Python [float] is an IEEE 754 binary64 number: 53 bits of precision,
    exponents below 1024. *)
Definition prec : Z := 53.
Definition emax : Z := 1024.
Definition float : Type := spec_float.

(** The rational number a finite float stands for. *)
Definition F2Q (x : float) : Q :=
  match x with
  | S754_finite s m e => inject_Z (cond_Zopp s (Z.pos m)) * 2 ^ e
  | _ => 0
  end.

(** The [int] operand of a mixed [float]/[int] operation, converted to
    [float] (to the nearest, ties to even). *)
Definition float_of_int (n : Z) : float := binary_normalize prec emax n 0 false.

(** A Python [int] as an unrounded operand of true division. *)
Definition int_operand (n : Z) : float :=
  match n with
  | Z0 => S754_zero false
  | Zpos p => S754_finite false p 0
  | Zneg p => S754_finite true p 0
  end.

(** [a / b] on two [int]s: the quotient rounded once to the nearest float. *)
Definition int_truediv (a b : Z) : result float :=
  if b =? 0 then Raise ZeroDivisionError
  else match SFdiv prec emax (int_operand a) (int_operand b) with
       | S754_infinity _ => Raise OverflowError
       | q => Ok q
       end.

(** Python's [int(x)] on a float: truncation toward zero. *)
Definition py_int (x : float) : result Z :=
  match x with
  | S754_zero _ => Ok 0
  | S754_finite s m e =>
      Ok (cond_Zopp s (if 0 <=? e then Z.pos m * 2 ^ e else Z.pos m / 2 ^ (- e)))
  | S754_infinity _ => Raise OverflowError
  | S754_nan => Raise (ValueError "cannot convert float NaN to integer" None)
  end.

(** [int((time.time() - cls.EPOCH) * 1000)], [t] being the clock reading:
    a float subtraction, a float multiplication, each rounded, then the
    truncation. *)
Definition now_ms (t : float) : result Z :=
  py_int (SFmul prec emax (SFsub prec emax t (float_of_int EPOCH)) (float_of_int 1000)).

(** [(now << 22) | (rand_seq << 3) | type_id] *)
Definition pack (now rand_seq type_id : Z) : Z :=
  Z.lor (Z.lor (Z.shiftl now 22) (Z.shiftl rand_seq 3)) type_id.

(** [generate]: the clock reading and the [secrets.randbits(19)] draw are
    the two inputs the environment supplies. *)
Definition generate (t : float) (rand_seq : Z) (type_id : Z) : result Z :=
  match now_ms t with
  | Ok now => Ok (pack now rand_seq type_id)
  | Raise e => Raise e
  end.

Definition get_type (snowflake : Z) : result Z :=
  if snowflake <? Z.shiftl 1 22
  then Raise (ValueError "Not a valid Snowflake ID" None)
  else Ok (Z.land snowflake 7).

(** [((snowflake >> 22) / 1000) + cls.EPOCH]: a true division of ints,
    then a float addition. *)
Definition get_time (snowflake : Z) : result float :=
  if snowflake <? Z.shiftl 1 22
  then Raise (ValueError "Not a valid Snowflake ID" None)
  else match int_truediv (Z.shiftr snowflake 22) 1000 with
       | Ok q => Ok (SFadd prec emax q (float_of_int EPOCH))
       | Raise e => Raise e
       end.

Definition generate_post t r := generate t r TYPE_POST.
Definition generate_post_interaction t r := generate t r TYPE_POST_INTERACTION.
Definition generate_identity t r := generate t r TYPE_IDENTITY.
Definition generate_report t r := generate t r TYPE_REPORT.
Definition generate_follow t r := generate t r TYPE_FOLLOW.

End Snowflake.

(** ** Strings *)

(** [s.split(sep)] for a one-character separator. *)
Fixpoint split_on (sep : ascii) (s : string) : list string :=
  match s with
  | EmptyString => [EmptyString]
  | String c rest =>
      if Ascii.eqb c sep then EmptyString :: split_on sep rest
      else match split_on sep rest with
           | [] => [String c EmptyString]
           | h :: t => String c h :: t
           end
  end.

(** [s[n:]] *)
Fixpoint drop_chars (n : nat) (s : string) : string :=
  match n, s with
  | O, _ => s
  | S n', String _ rest => drop_chars n' rest
  | S _, EmptyString => EmptyString
  end.

(** [needle in s] *)
Definition contains (needle s : string) : bool :=
  match index 0 needle s with
  | Some _ => true
  | None => false
  end.

(** [bytes.lower()]: ASCII letters only. *)
Definition byte_lower (c : ascii) : ascii :=
  let n := nat_of_ascii c in
  if (Nat.leb 65 n && Nat.leb n 90)%bool then ascii_of_nat (n + 32) else c.

Fixpoint bytes_lower (s : string) : string :=
  match s with
  | EmptyString => EmptyString
  | String c rest => String (byte_lower c) (bytes_lower rest)
  end.

(** [str(n)] for an integer. *)
Definition str_of_Z (n : Z) : string :=
  DecimalString.NilZero.string_of_int (Z.to_int n).

Definition opt_string_eqb (a b : option string) : bool :=
  match a, b with
  | Some x, Some y => String.eqb x y
  | None, None => true
  | _, _ => false
  end.

(** Truthiness of an optional string: [None] and the empty string are false. *)
Definition truthy (s : option string) : bool :=
  match s with
  | None | Some EmptyString => false
  | Some _ => true
  end.

(** ** Rows of the tables

    Each record keeps the columns the embedded methods read or write;
    timestamps, notes and the display columns are left out. *)

Record Domain : Type := {
  domain_domain : string;                  (* primary key *)
  domain_service_domain : option string;
  domain_local : bool
}.

Record Identity : Type := {
  identity_id : Z;                         (* primary key, a Snowflake *)
  identity_actor_uri : string;             (* unique *)
  identity_local : bool;
  identity_username : option string;
  identity_domain_id : option string       (* unique together with username *)
}.

Record Follow : Type := {
  follow_id : Z;                           (* primary key, a Snowflake *)
  follow_source_id : Z;
  follow_target_id : Z;                    (* unique together with source *)
  follow_boosts : bool;
  follow_uri : option string;
  follow_state : string
}.

Record Block : Type := {
  block_id : Z;                            (* primary key, auto-increment *)
  block_state : string;
  block_source_id : Z;
  block_target_id : Z;
  block_uri : option string;
  block_mute : bool
}.

(** The [stats] JSON object: keys in insertion order. *)
Definition stats_dict : Type := list (string * Z).

Record Post : Type := {
  post_id : Z;                             (* primary key, a Snowflake *)
  post_author_id : Z;
  post_state : string;
  post_local : bool;
  post_object_uri : option string;
  post_in_reply_to : option string;
  post_stats : option stats_dict
}.

Record PostInteraction : Type := {
  interaction_id : Z;                      (* primary key, a Snowflake *)
  interaction_state : string;
  interaction_type : string;
  interaction_identity_id : Z;
  interaction_post_id : Z
}.

Record DB : Type := {
  domains : list Domain;
  identities : list Identity;
  follows : list Follow;
  blocks : list Block;
  posts : list Post;
  interactions : list PostInteraction
}.

Definition empty_db : DB :=
  {| domains := []; identities := []; follows := []; blocks := [];
     posts := []; interactions := [] |}.

Definition with_domains (db : DB) (l : list Domain) : DB :=
  {| domains := l; identities := identities db; follows := follows db;
     blocks := blocks db; posts := posts db; interactions := interactions db |}.

Definition with_identities (db : DB) (l : list Identity) : DB :=
  {| domains := domains db; identities := l; follows := follows db;
     blocks := blocks db; posts := posts db; interactions := interactions db |}.

Definition with_follows (db : DB) (l : list Follow) : DB :=
  {| domains := domains db; identities := identities db; follows := l;
     blocks := blocks db; posts := posts db; interactions := interactions db |}.

Definition with_blocks (db : DB) (l : list Block) : DB :=
  {| domains := domains db; identities := identities db; follows := follows db;
     blocks := l; posts := posts db; interactions := interactions db |}.

Definition with_posts (db : DB) (l : list Post) : DB :=
  {| domains := domains db; identities := identities db; follows := follows db;
     blocks := blocks db; posts := l; interactions := interactions db |}.

Definition with_interactions (db : DB) (l : list PostInteraction) : DB :=
  {| domains := domains db; identities := identities db; follows := follows db;
     blocks := blocks db; posts := posts db; interactions := l |}.

(** ** The database monad: state passing with exceptions *)

Definition M (A : Type) : Type := DB -> DB * result A.

Definition ret {A} (a : A) : M A := fun db => (db, Ok a).

Definition raise {A} (e : exn) : M A := fun db => (db, Raise e).

Definition bind {A B} (m : M A) (k : A -> M B) : M B :=
  fun db =>
    match m db with
    | (db', Ok a) => k a db'
    | (db', Raise e) => (db', Raise e)
    end.

Notation "x <- m ;; k" := (bind m (fun x => k))
  (at level 61, m at next level, right associativity).
Notation "m ;;; k" := (bind m (fun _ => k))
  (at level 61, right associativity).

(** [try: m except <model>.DoesNotExist: handler]; what [m] wrote before it
    raised stays written. *)
Definition except_DoesNotExist {A} (md : model) (m : M A) (handler : M A) : M A :=
  fun db =>
    match m db with
    | (db', Raise (DoesNotExist md')) =>
        if model_eqb md md' then handler db' else (db', Raise (DoesNotExist md'))
    | r => r
    end.

(** [with transaction.atomic(): m]: an exception leaving the block rolls the
    database back to what it was on entry. *)
Definition atomic {A} (m : M A) : M A :=
  fun db =>
    match m db with
    | (db', Ok a) => (db', Ok a)
    | (_, Raise e) => (db, Raise e)
    end.

(** Reading the database. *)
Definition gets {A} (f : DB -> A) : M A := fun db => (db, Ok (f db)).

Definition lift {A} (f : DB -> result A) : M A := fun db => (db, f db).

(** ** Query sets *)

(** [qs.get()]: exactly one row, or [DoesNotExist], or
    [MultipleObjectsReturned]. *)
Definition qs_get {R} (md : model) (rows : list R) : result R :=
  match rows with
  | [] => Raise (DoesNotExist md)
  | [r] => Ok r
  | _ => Raise (MultipleObjectsReturned md)
  end.

(** [qs.first()] on a query set without ordering: ordered by primary key. *)
Fixpoint qs_first {R} (pk : R -> Z) (rows : list R) : option R :=
  match rows with
  | [] => None
  | r :: rest =>
      match qs_first pk rest with
      | Some r' => if pk r' <? pk r then Some r' else Some r
      | None => Some r
      end
  end.

(** [obj.save()]: update the row with this primary key, insert when there is
    none. *)
Definition save_row {R} (pk : R -> Z) (r : R) (rows : list R) : list R :=
  if existsb (fun x => pk x =? pk r) rows
  then map (fun x => if pk x =? pk r then r else x) rows
  else rows ++ [r].

Definition has_pk {R} (pk : R -> Z) (k : Z) (rows : list R) : bool :=
  existsb (fun x => pk x =? k) rows.

(** ** The outside world

    What the resolver reads from the network and from the Python and Django
    libraries is gathered in one record, so that the methods stay functions. *)

Inductive http_outcome : Type :=
| ConnectError                                  (* an [httpx.RequestError] *)
| CertError                                     (* [ssl.SSLCertVerificationError] *)
| Response (status_code : Z) (content : string).

Inductive xml_outcome : Type :=
| XmlParseError                                 (* [etree.ParseError] *)
| XmlTemplate (template : string).

#[warnings="-register-all"]
Inductive json : Type :=
| JNull
| JBool (b : bool)
| JNum (n : Z)
| JStr (s : string)
| JArr (items : list json)
| JObj (fields : list (string * json)).         (* the items of the dict *)

Record Env : Type := {
  (* [str.lower()] *)
  str_lower : string -> string;
  (* the [__iexact] lookup of the database *)
  iexact : string -> string -> bool;
  (* [client.get(url, follow_redirects=True, ...)] *)
  http_get : string -> http_outcome;
  (* whether [response.raise_for_status()] raises [httpx.HTTPStatusError] *)
  raises_for_status : Z -> bool;
  (* [etree.fromstring(content)] followed by the [Link rel='lrdd'] XPath *)
  xpath_lrdd_template : string -> xml_outcome;
  (* [template.format(uri=...)] *)
  format_uri : string -> string -> string;
  (* [response.json()]; [None] when it raises [ValueError] *)
  json_loads : string -> option json;
  (* [str(value)], which a [CharField] applies to a value that is no string *)
  py_str : json -> string
}.

(** ** Domain *)

Definition Domain_create (d : Domain) : M Domain :=
  fun db =>
    if existsb (fun x => domain_domain x =? domain_domain d)%string (domains db)
    then (db, Raise IntegrityError)
    else (with_domains db (domains db ++ [d]), Ok d).

(** [cls.objects.get_or_create(domain=domain.lower(), local=False)[0]]: a
    failed insert is followed by a second [get], which finds nothing either,
    and the [IntegrityError] is raised again. *)
Definition get_remote_domain (env : Env) (domain : string) : M Domain :=
  let name := str_lower env domain in
  except_DoesNotExist MDomain
    (lift (fun db =>
       qs_get MDomain
         (filter (fun d => (domain_domain d =? name)%string && negb (domain_local d))
                 (domains db))))
    (Domain_create {| domain_domain := name;
                      domain_service_domain := None;
                      domain_local := false |}).

(** ** Identity *)

Definition Identity_handle (i : Identity) : string :=
  match identity_username i with
  | None => "(unknown user)"
  | Some u =>
      if truthy (identity_domain_id i)
      then match identity_domain_id i with
           | Some d => u ++ "@" ++ d
           | None => u
           end
      else u ++ "@(unknown server)"
  end.

(** [Identity.__str__] *)
Definition Identity_str (i : Identity) : string :=
  if truthy (identity_username i)
     && match identity_domain_id i with Some _ => true | None => false end
  then Identity_handle i
  else identity_actor_uri i.

Definition is_space (c : ascii) : bool :=
  let n := nat_of_ascii c in
  (Nat.eqb n 32 || (Nat.leb 9 n && Nat.leb n 13))%bool.

(** [response.content.strip()] taken as a condition. *)
Fixpoint has_non_space (s : string) : bool :=
  match s with
  | EmptyString => false
  | String c rest => negb (is_space c) || has_non_space rest
  end.

Definition default_webfinger_url (domain : string) : string :=
  "https://" ++ domain ++ "/.well-known/webfinger?resource={uri}".

Definition fetch_webfinger_url (env : Env) (domain : string) : result string :=
  match http_get env ("https://" ++ domain ++ "/.well-known/host-meta") with
  | ConnectError => Ok (default_webfinger_url domain)
  | CertError => Raise SSLCertVerificationError
  | Response status_code content =>
      if (status_code =? 200) && has_non_space content then
        match xpath_lrdd_template env content with
        | XmlParseError => Ok (default_webfinger_url domain)
        | XmlTemplate EmptyString => Ok (default_webfinger_url domain)
        | XmlTemplate template => Ok template
        end
      else Ok (default_webfinger_url domain)
  end.

Fixpoint assoc {V} (key : string) (fields : list (string * V)) : option V :=
  match fields with
  | [] => None
  | (k, v) :: rest => if (k =? key)%string then Some v else assoc key rest
  end.

(** [link.get(key) == text] *)
Definition get_equals (fields : list (string * json)) (key text : string) : bool :=
  match assoc key fields with
  | Some (JStr s) => (s =? text)%string
  | _ => false
  end.

(** The loop over [data["links"]]; a missing ["href"] is the [KeyError] the
    method swallows. *)
Fixpoint find_self_link (links : list json) (subject : string)
  : result (option (json * string)) :=
  match links with
  | [] => Ok None
  | JObj fields :: rest =>
      if get_equals fields "type" "application/activity+json"
         && get_equals fields "rel" "self"
      then match assoc "href" fields with
           | Some href => Ok (Some (href, subject))
           | None => Ok None
           end
      else find_self_link rest subject
  | _ :: _ => Raise AttributeError
  end.

Fixpoint chars (s : string) : list json :=
  match s with
  | EmptyString => []
  | String c rest => JStr (String c EmptyString) :: chars rest
  end.

(** [for link in value] *)
Definition json_iter (value : json) : result (list json) :=
  match value with
  | JArr items => Ok items
  | JObj fields => Ok (map (fun kv => JStr (fst kv)) fields)
  | JStr s => Ok (chars s)
  | _ => Raise TypeError
  end.

(** The second half of [fetch_webfinger], from [response.json()] on. *)
Definition read_webfinger (env : Env) (content : string)
  : result (option (json * string)) :=
  match json_loads env content with
  | None =>
      if contains "not found" (bytes_lower content) then Ok None
      else Raise (ValueError "JSON parse error fetching webfinger" (Some content))
  | Some (JObj fields) =>
      match assoc "subject" fields with
      | None => Ok None
      | Some (JStr subject) =>
          let subject :=
            if prefix "acct:" subject then drop_chars 5 subject else subject in
          match assoc "links" fields with
          | None => Ok None
          | Some links =>
              match json_iter links with
              | Ok items => find_self_link items subject
              | Raise e => Raise e
              end
          end
      | Some _ => Raise AttributeError
      end
  | Some _ => Raise TypeError
  end.

Definition tolerated_statuses : list Z := [400; 401; 403; 404; 406; 410].

(** [Identity.fetch_webfinger]: [Ok None] is the [(None, None)] result,
    [Ok (Some (href, subject))] the resolved pair. *)
Definition fetch_webfinger (env : Env) (handle : string)
  : result (option (json * string)) :=
  match nth_error (split_on "@" handle) 1 with
  | None => Raise IndexError
  | Some d =>
      let domain := str_lower env d in
      match fetch_webfinger_url env domain with
      | Raise SSLCertVerificationError => Ok None
      | Raise e => Raise e
      | Ok webfinger_url =>
          match http_get env (format_uri env webfinger_url ("acct:" ++ handle)) with
          | ConnectError => Ok None
          | CertError => Ok None
          | Response status_code content =>
              if raises_for_status env status_code then
                if (status_code <? 500)
                   && negb (existsb (Z.eqb status_code) tolerated_statuses)
                then Raise (ValueError
                              ("Client error fetching webfinger: " ++ str_of_Z status_code)
                              (Some content))
                else Ok None
              else read_webfinger env content
          end
      end
  end.

(** The [domain] argument of [by_username_and_domain]: [str | Domain]. *)
Inductive domain_arg : Type :=
| DomainName (name : string)
| DomainInstance (d : Domain).

Definition Identity_get (md : model) (p : Identity -> bool) : M Identity :=
  lift (fun db => qs_get md (filter p (identities db))).

(** [cls.objects.create(...)] under the constraints of the table: primary
    key, [actor_uri] unique and not null, [(username, domain)] unique
    together, [domain] a foreign key. *)
Definition Identity_create (new_id : Z) (actor_uri : option string)
    (username domain_id : string) (local : bool) : M Identity :=
  fun db =>
    match actor_uri with
    | None => (db, Raise IntegrityError)
    | Some uri =>
        if has_pk identity_id new_id (identities db)
           || existsb (fun i => identity_actor_uri i =? uri)%string (identities db)
           || existsb (fun i => opt_string_eqb (identity_username i) (Some username)
                                && opt_string_eqb (identity_domain_id i) (Some domain_id))
                      (identities db)
           || negb (existsb (fun d => domain_domain d =? domain_id)%string (domains db))
        then (db, Raise IntegrityError)
        else
          let i := {| identity_id := new_id; identity_actor_uri := uri;
                      identity_local := local; identity_username := Some username;
                      identity_domain_id := Some domain_id |} in
          (with_identities db (identities db ++ [i]), Ok i)
    end.

(** The value a [CharField(actor_uri=...)] lookup or insert sees. *)
Definition actor_uri_text (env : Env) (href : json) : option string :=
  match href with
  | JNull => None
  | JStr s => Some s
  | other => Some (py_str env other)
  end.

Definition unpack_handle (handle : string) : result (string * string) :=
  match split_on "@" handle with
  | [username; domain] => Ok (username, domain)
  | _ => Raise (ValueError "unpack" None)
  end.

(** [Identity.by_username_and_domain]; [new_id] is the Snowflake the default
    of [Identity.id] draws when a row is created. *)
Definition by_username_and_domain (env : Env) (new_id : Z)
    (username : string) (domain : domain_arg) (fetch local : bool)
  : M (option Identity) :=
  if prefix "@" username
  then raise (ValueError "Username must not start with @" None)
  else
    let domain_instance :=
      match domain with DomainInstance d => Some d | DomainName _ => None end in
    let local :=
      match domain with DomainInstance d => domain_local d | DomainName _ => local end in
    let domain :=
      match domain with
      | DomainInstance d => domain_domain d
      | DomainName name => str_lower env name
      end in
    except_DoesNotExist MIdentity
      (i <- Identity_get MIdentity
              (fun i =>
                 match identity_username i with
                 | Some u => iexact env u username
                 | None => false
                 end
                 && opt_string_eqb (identity_domain_id i) (Some domain)
                 && (if local then identity_local i else true)) ;;
       ret (Some i))
      (if fetch && negb local then
         match fetch_webfinger env (username ++ "@" ++ domain) with
         | Raise e => raise e
         | Ok None => ret None
         | Ok (Some (href, handle)) =>
             let actor_uri := actor_uri_text env href in
             except_DoesNotExist MIdentity
               (i <- Identity_get MIdentity
                       (fun i => opt_string_eqb (Some (identity_actor_uri i)) actor_uri) ;;
                ret (Some i))
               (match unpack_handle handle with
                | Raise e => raise e
                | Ok (username, domain) =>
                    domain_instance <-
                      match domain_instance with
                      | Some d => ret d
                      | None => get_remote_domain env domain
                      end ;;
                    i <- Identity_create new_id actor_uri username
                           (domain_domain domain_instance) false ;;
                    ret (Some i)
                end)
         end
       else ret None).

(** ** Follow *)

(** [Follow.objects.create(...)] under the constraints of the table: primary
    key, [(source, target)] unique together, both ends foreign keys. *)
Definition Follow_create (r : Follow) : M Follow :=
  fun db =>
    if has_pk follow_id (follow_id r) (follows db)
       || existsb (fun f => (follow_source_id f =? follow_source_id r)
                            && (follow_target_id f =? follow_target_id r))
                  (follows db)
       || negb (has_pk identity_id (follow_source_id r) (identities db))
       || negb (has_pk identity_id (follow_target_id r) (identities db))
    then (db, Raise IntegrityError)
    else (with_follows db (follows db ++ [r]), Ok r).

Definition Follow_save (r : Follow) : M unit :=
  fun db => (with_follows db (save_row follow_id r (follows db)), Ok tt).

Definition Follow_set_state (f : Follow) (state : string) : Follow :=
  {| follow_id := follow_id f; follow_source_id := follow_source_id f;
     follow_target_id := follow_target_id f; follow_boosts := follow_boosts f;
     follow_uri := follow_uri f; follow_state := state |}.

Definition Follow_set_uri (f : Follow) (uri : option string) : Follow :=
  {| follow_id := follow_id f; follow_source_id := follow_source_id f;
     follow_target_id := follow_target_id f; follow_boosts := follow_boosts f;
     follow_uri := uri; follow_state := follow_state f |}.

Definition follow_between (source_pk target_pk : Z) (f : Follow) : bool :=
  (follow_source_id f =? source_pk) && (follow_target_id f =? target_pk).

(** ** Block *)

Definition Block_set (b : Block) (state : string) (uri : option string) : Block :=
  {| block_id := block_id b; block_state := state;
     block_source_id := block_source_id b; block_target_id := block_target_id b;
     block_uri := uri; block_mute := block_mute b |}.

Definition block_between (source_pk target_pk : Z) (mute : bool) (b : Block) : bool :=
  (block_source_id b =? source_pk) && (block_target_id b =? target_pk)
  && Bool.eqb (block_mute b) mute.

(** The next value of the auto-increment primary key. *)
Definition next_block_id (rows : list Block) : Z :=
  1 + fold_right Z.max 0 (map block_id rows).

Definition Block_create (source_pk target_pk : Z) (mute : bool) (state : string)
  : M Block :=
  fun db =>
    if negb (has_pk identity_id source_pk (identities db))
       || negb (has_pk identity_id target_pk (identities db))
    then (db, Raise IntegrityError)
    else
      let b := {| block_id := next_block_id (blocks db); block_state := state;
                  block_source_id := source_pk; block_target_id := target_pk;
                  block_uri := None; block_mute := mute |} in
      (with_blocks db (blocks db ++ [b]), Ok b).

Definition Block_save (b : Block) : M unit :=
  fun db => (with_blocks db (save_row block_id b (blocks db)), Ok tt).

(** [Block.objects.update_or_create(defaults={"state": "new"}, source_id=...,
    target_id=..., mute=...)[0]] *)
Definition Block_update_or_create (source_pk target_pk : Z) (mute : bool) : M Block :=
  atomic
    (except_DoesNotExist MBlock
       (b <- lift (fun db =>
                 qs_get MBlock (filter (block_between source_pk target_pk mute) (blocks db))) ;;
        let b := Block_set b "new" (block_uri b) in
        Block_save b ;;;
        ret b)
       (Block_create source_pk target_pk mute "new")).

(** The text columns a [<column>__in=[...]] lookup over strings can name; a
    keyword that names no field of the model is a [FieldError], raised when
    the filter is built. *)
Definition Block_text_column (keyword : string) : option (Block -> option string) :=
  if (keyword =? "state")%string then Some (fun b => Some (block_state b))
  else if (keyword =? "uri")%string then Some block_uri
  else None.

Definition Block_filter_in (keyword : string) (values : list string)
    (rows : list Block) : result (list Block) :=
  match Block_text_column keyword with
  | Some column =>
      Ok (filter (fun b =>
                    match column b with
                    | Some v => existsb (String.eqb v) values
                    | None => false
                    end) rows)
  | None => Raise (FieldError keyword)
  end.

(** [Block.maybe_get] *)
Definition maybe_get (source target : Identity) (mute require_active : bool)
  : M (option Block) :=
  lift (fun db =>
    let between := block_between (identity_id source) (identity_id target) mute in
    let found :=
      if require_active then
        match Block_filter_in "status" ["new"; "sent"; "awaiting_expiry"] (blocks db) with
        | Ok rows => qs_get MBlock (filter between rows)
        | Raise e => Raise e
        end
      else qs_get MBlock (filter between (blocks db)) in
    match found with
    | Ok b => Ok (Some b)
    | Raise (DoesNotExist MBlock) => Ok None
    | Raise e => Raise e
    end).

(** ** Post and PostInteraction *)

Definition Post_set_stats (p : Post) (stats : option stats_dict) : Post :=
  {| post_id := post_id p; post_author_id := post_author_id p;
     post_state := post_state p; post_local := post_local p;
     post_object_uri := post_object_uri p; post_in_reply_to := post_in_reply_to p;
     post_stats := stats |}.

Definition Post_save (p : Post) : M unit :=
  fun db => (with_posts db (save_row post_id p (posts db)), Ok tt).

Definition PostInteraction_set_state (i : PostInteraction) (state : string)
  : PostInteraction :=
  {| interaction_id := interaction_id i; interaction_state := state;
     interaction_type := interaction_type i;
     interaction_identity_id := interaction_identity_id i;
     interaction_post_id := interaction_post_id i |}.

Definition PostInteraction_save (i : PostInteraction) : M unit :=
  fun db =>
    (with_interactions db (save_row interaction_id i (interactions db)), Ok tt).

Definition PostInteraction_create (r : PostInteraction) : M PostInteraction :=
  fun db =>
    if has_pk interaction_id (interaction_id r) (interactions db)
       || negb (has_pk identity_id (interaction_identity_id r) (identities db))
       || negb (has_pk post_id (interaction_post_id r) (posts db))
    then (db, Raise IntegrityError)
    else (with_interactions db (interactions db ++ [r]), Ok r).

(** [state__in=["new", "fanned_out"]] *)
Definition is_active (state : string) : bool :=
  existsb (String.eqb state) ["new"; "fanned_out"].

Definition interaction_of (type : string) (identity_pk : Z) (post : Post)
    (i : PostInteraction) : bool :=
  (interaction_type i =? type)%string
  && (interaction_identity_id i =? identity_pk)
  && (interaction_post_id i =? post_id post).

(** [self.interactions.filter(type=..., state__in=["new", "fanned_out"]).count()] *)
Definition count_interactions (db : DB) (self : Post) (type : string) : Z :=
  Z.of_nat (List.length (filter (fun i => (interaction_post_id i =? post_id self)
                                     && (interaction_type i =? type)%string
                                     && is_active (interaction_state i))
                           (interactions db))).

(** [Post.objects.filter(in_reply_to=self.object_uri).count()]; a lookup
    against [None] is [IS NULL]. *)
Definition count_replies (db : DB) (self : Post) : Z :=
  Z.of_nat (List.length (filter (fun p => opt_string_eqb (post_in_reply_to p)
                                                    (post_object_uri self))
                           (posts db))).

(** [Post.calculate_stats]; the result is [self] after the call. *)
Definition calculate_stats (self : Post) (save : bool) : M Post :=
  stats <- gets (fun db =>
             [("likes", count_interactions db self "like");
              ("boosts", count_interactions db self "boost");
              ("replies", count_replies db self)]) ;;
  let self := Post_set_stats self (Some stats) in
  if save then Post_save self ;;; ret self else ret self.

Definition PostInteraction_get_or_create (new_id : Z) (type : string)
    (identity_pk : Z) (post : Post) : M PostInteraction :=
  except_DoesNotExist MPostInteraction
    (lift (fun db =>
       qs_get MPostInteraction
         (filter (interaction_of type identity_pk post) (interactions db))))
    (PostInteraction_create
       {| interaction_id := new_id; interaction_state := "new";
          interaction_type := type; interaction_identity_id := identity_pk;
          interaction_post_id := post_id post |}).

(** ** The facade ([utils.py], class [Takahe]) *)

Module Takahe.

Definition get_following_ids (identity_pk : Z) (db : DB) : list Z :=
  map follow_target_id
    (filter (fun f => (follow_source_id f =? identity_pk)
                      && (follow_state f =? "accepted")%string)
            (follows db)).

(** [Follow.objects.filter(target_id=identity_pk, state="accepted")
      .values_list("target", flat=True)] *)
Definition get_follower_ids (identity_pk : Z) (db : DB) : list Z :=
  map follow_target_id
    (filter (fun f => (follow_target_id f =? identity_pk)
                      && (follow_state f =? "accepted")%string)
            (follows db)).

Definition update_follow_state (source_pk target_pk : Z)
    (from_states : list string) (to_state : string) : M (option Follow) :=
  follow <- gets (fun db =>
              qs_first follow_id
                (filter (follow_between source_pk target_pk) (follows db))) ;;
  match follow with
  | None => ret None
  | Some follow =>
      if (match from_states with [] => true | _ => false end
          || existsb (String.eqb (follow_state follow)) from_states)
         && negb (follow_state follow =? to_state)%string
      then
        let follow := Follow_set_state follow to_state in
        Follow_save follow ;;;
        ret (Some follow)
      else ret (Some follow)
  end.

(** [follow]; [new_id] is the Snowflake drawn for a new row. *)
Definition follow (new_id : Z) (source_pk target_pk : Z) : M unit :=
  except_DoesNotExist MFollow
    (follow <- lift (fun db =>
                 qs_get MFollow
                   (filter (follow_between source_pk target_pk) (follows db))) ;;
     if negb (follow_state follow =? "accepted")%string
     then Follow_save (Follow_set_state follow "unrequested")
     else ret tt)
    (source <- Identity_get MIdentity (fun i => identity_id i =? source_pk) ;;
     follow <- Follow_create
                 {| follow_id := new_id; follow_source_id := source_pk;
                    follow_target_id := target_pk; follow_boosts := true;
                    follow_uri := Some ""; follow_state := "unrequested" |} ;;
     Follow_save
       (Follow_set_uri follow
          (Some (identity_actor_uri source ++ "follow/"
                 ++ str_of_Z (follow_id follow) ++ "/")))).

Definition unfollow (source_pk target_pk : Z) : M unit :=
  update_follow_state source_pk target_pk [] "undone" ;;; ret tt.

Definition accept_follow_request (source_pk target_pk : Z) : M unit :=
  update_follow_state source_pk target_pk [] "accepting" ;;; ret tt.

Definition reject_follow_request (source_pk target_pk : Z) : M unit :=
  update_follow_state source_pk target_pk [] "rejecting" ;;; ret tt.

Definition block_or_mute (source_pk target_pk : Z) (is_mute : bool) : M Block :=
  source <- Identity_get MIdentity (fun i => identity_id i =? source_pk) ;;
  if negb (identity_local source)
  then raise (ValueError
                ("Cannot block/mute from remote identity " ++ Identity_str source)
                None)
  else
    atomic
      (block <- Block_update_or_create source_pk target_pk is_mute ;;
       block <-
         (if negb (block_state block =? "new")%string || negb (truthy (block_uri block))
          then
            let block :=
              Block_set block "new"
                (Some (identity_actor_uri source ++ "block/"
                       ++ str_of_Z (block_id block) ++ "/")) in
            Block_save block ;;;
            ret block
          else ret block) ;;
       (if negb is_mute
        then unfollow source_pk target_pk ;;;
             reject_follow_request target_pk source_pk
        else ret tt) ;;;
       ret block).

Definition undo_block_or_mute (source_pk target_pk : Z) (is_mute : bool) : M unit :=
  fun db =>
    (with_blocks db
       (map (fun b => if block_between source_pk target_pk is_mute b
                      then Block_set b "undone" (block_uri b) else b)
            (blocks db)),
     Ok tt).

Definition block (source_pk target_pk : Z) : M Block :=
  block_or_mute source_pk target_pk false.

Definition unblock (source_pk target_pk : Z) : M unit :=
  undo_block_or_mute source_pk target_pk false.

Definition mute (source_pk target_pk : Z) : M Block :=
  block_or_mute source_pk target_pk true.

Definition unmute (source_pk target_pk : Z) : M unit :=
  undo_block_or_mute source_pk target_pk true.

(** [Post.objects.filter(pk=post_pk).first()] *)
Definition find_post (post_pk : Z) : M (option Post) :=
  gets (fun db => qs_first post_id (filter (fun p => post_id p =? post_pk) (posts db))).

(** [interact_post]; [None] is the bare [return] taken when the post is not
    found; [new_id] is the Snowflake drawn for a new row. *)
Definition interact_post (new_id : Z) (post_pk identity_pk : Z) (type : string)
  : M (option PostInteraction) :=
  post <- find_post post_pk ;;
  match post with
  | None => ret None
  | Some post =>
      interaction <- PostInteraction_get_or_create new_id type identity_pk post ;;
      interaction <-
        (if negb (is_active (interaction_state interaction))
         then
           let interaction := PostInteraction_set_state interaction "new" in
           PostInteraction_save interaction ;;;
           ret interaction
         else ret interaction) ;;
      calculate_stats post true ;;;
      ret (Some interaction)
  end.

(** The loop of [uninteract_post] over the rows the query returned. *)
Fixpoint undo_each (rows : list PostInteraction) : M unit :=
  match rows with
  | [] => ret tt
  | interaction :: rest =>
      PostInteraction_save (PostInteraction_set_state interaction "undone") ;;;
      undo_each rest
  end.

Definition uninteract_post (post_pk identity_pk : Z) (type : string) : M unit :=
  post <- find_post post_pk ;;
  match post with
  | None => ret tt
  | Some post =>
      rows <- gets (fun db =>
                filter (interaction_of type identity_pk post) (interactions db)) ;;
      undo_each rows ;;;
      calculate_stats post true ;;;
      ret tt
  end.

Definition like_post (new_id : Z) (post_pk identity_pk : Z)
  : M (option PostInteraction) :=
  interact_post new_id post_pk identity_pk "like".

Definition unlike_post (post_pk identity_pk : Z) : M unit :=
  uninteract_post post_pk identity_pk "like".

Definition get_user_interaction (post_pk identity_pk : Z) (type : string)
  : M (option PostInteraction) :=
  post <- find_post post_pk ;;
  match post with
  | None => ret None
  | Some post =>
      gets (fun db =>
        qs_first interaction_id
          (filter (interaction_of type identity_pk post) (interactions db)))
  end.

Definition post_liked_by (post_pk identity_pk : Z) : M bool :=
  interaction <- get_user_interaction post_pk identity_pk "like" ;;
  ret match interaction with
      | Some i => is_active (interaction_state i)
      | None => false
      end.

(** [post.stats or {}] *)
Definition get_post_stats (post_pk : Z) : M stats_dict :=
  post <- find_post post_pk ;;
  ret match post with
      | None => []
      | Some post =>
          match post_stats post with
          | Some (entry :: more) => entry :: more
          | _ => []
          end
      end.

Definition get_following_request_ids (identity_pk : Z) (db : DB) : list Z :=
  map follow_target_id
    (filter (fun f => (follow_source_id f =? identity_pk)
                      && (follow_state f =? "pending_approval")%string)
            (follows db)).

Definition get_requested_follower_ids (identity_pk : Z) (db : DB) : list Z :=
  map follow_target_id
    (filter (fun f => (follow_target_id f =? identity_pk)
                      && (follow_state f =? "pending_approval")%string)
            (follows db)).

(** [state__in=["new", "sent", "awaiting_expiry"]] *)
Definition is_active_block (b : Block) : bool :=
  existsb (String.eqb (block_state b)) ["new"; "sent"; "awaiting_expiry"].

Definition get_muting_ids (identity_pk : Z) (db : DB) : list Z :=
  map block_target_id
    (filter (fun b => (block_source_id b =? identity_pk)
                      && Bool.eqb (block_mute b) true
                      && is_active_block b)
            (blocks db)).

Definition get_blocking_ids (identity_pk : Z) (db : DB) : list Z :=
  map block_target_id
    (filter (fun b => (block_source_id b =? identity_pk)
                      && Bool.eqb (block_mute b) false
                      && is_active_block b)
            (blocks db)).

(** [list(set(list(pks1) + list(pks2)))]: the order in which a Python set is
    listed is not specified; the model lists each id once, in the order of
    [nodup]. *)
Definition get_rejecting_ids (identity_pk : Z) (db : DB) : list Z :=
  let pks1 :=
    map block_target_id
      (filter (fun b => (block_source_id b =? identity_pk)
                        && Bool.eqb (block_mute b) false
                        && is_active_block b)
              (blocks db)) in
  let pks2 :=
    map block_source_id
      (filter (fun b => (block_target_id b =? identity_pk)
                        && Bool.eqb (block_mute b) false
                        && is_active_block b)
              (blocks db)) in
  nodup Z.eq_dec (pks1 ++ pks2).

(** [_force_state_cycle], the helper of the unit tests. *)
Definition _force_state_cycle : M unit :=
  fun db =>
    let follows1 :=
      filter (fun f => negb (existsb (String.eqb (follow_state f))
                               ["rejecting"; "undone"; "pending_removal"]))
             (follows db) in
    let follows2 := map (fun f => Follow_set_state f "accepted") follows1 in
    let blocks1 :=
      map (fun b => if (block_state b =? "new")%string
                    then Block_set b "sent" (block_uri b) else b)
          (blocks db) in
    let blocks2 := filter (fun b => (block_state b =? "sent")%string) blocks1 in
    (with_blocks (with_follows db follows2) blocks2, Ok tt).

End Takahe.

(** ** Sample data

    Concrete worlds and tables on which the methods are run below. *)

(** [template.format(uri=...)] for a template with at most one [{uri}]. *)
Definition replace_uri (template uri : string) : string :=
  match index 0 "{uri}" template with
  | Some n =>
      substring 0 n template ++ uri
      ++ substring (n + 5) (String.length template - (n + 5)) template
  | None => template
  end.

(** A world whose network answers with [get] and whose JSON decoder returns
    [document]; letters are ASCII. *)
Definition sample_env (get : string -> http_outcome) (document : option json) : Env :=
  {| str_lower := bytes_lower;
     iexact := fun a b => (bytes_lower a =? bytes_lower b)%string;
     http_get := get;
     raises_for_status := fun status => negb ((200 <=? status) && (status <=? 299));
     xpath_lrdd_template := fun _ => XmlParseError;
     format_uri := replace_uri;
     json_loads := fun _ => document;
     py_str := fun _ => "" |}.

(** A world whose host-meta names the webfinger [template]. *)
Definition templating (template : string) : Env :=
  {| str_lower := bytes_lower;
     iexact := fun a b => (bytes_lower a =? bytes_lower b)%string;
     http_get := fun _ => Response 200 "<XRD/>";
     raises_for_status := fun status => negb ((200 <=? status) && (status <=? 299));
     xpath_lrdd_template := fun _ => XmlTemplate template;
     format_uri := replace_uri;
     json_loads := fun _ => None;
     py_str := fun _ => "" |}.

(** Every request is answered with the given status and body. *)
Definition answering (status : Z) (body : string) : Env :=
  sample_env (fun _ => Response status body) None.

Definition sample_identity (pk : Z) (name : string) (local : bool) : Identity :=
  {| identity_id := pk;
     identity_actor_uri := "https://neodb.example/@" ++ name ++ "/";
     identity_local := local;
     identity_username := Some name;
     identity_domain_id := Some "neodb.example" |}.

Definition sample_follow (pk source target : Z) (state : string) : Follow :=
  {| follow_id := pk; follow_source_id := source; follow_target_id := target;
     follow_boosts := true; follow_uri := Some ""; follow_state := state |}.

Definition sample_post (pk author : Z) (stats : option stats_dict) : Post :=
  {| post_id := pk; post_author_id := author; post_state := "new";
     post_local := true;
     post_object_uri := Some ("https://neodb.example/posts/" ++ str_of_Z pk ++ "/");
     post_in_reply_to := None; post_stats := stats |}.

Definition sample_like (pk identity post : Z) (state : string) : PostInteraction :=
  {| interaction_id := pk; interaction_state := state; interaction_type := "like";
     interaction_identity_id := identity; interaction_post_id := post |}.

(** alice (1, local) and bob (2, remote), bob following alice. *)
Definition two_identities : DB :=
  with_identities empty_db
    [sample_identity 1 "alice" true; sample_identity 2 "bob" false].

Definition bob_follows_alice : DB :=
  with_follows two_identities [sample_follow 100 2 1 "accepted"].

(** ** The counts of the stats, in the words of the specification *)

Definition option_string_dec (a b : option string) : {a = b} + {a <> b}.
Proof. decide equality. apply string_dec. Defined.

(** The interactions of [self] of the given type whose state is "new" or
    "fanned_out". *)
Definition live_interactions (db : DB) (self : Post) (type : string)
  : list PostInteraction :=
  filter (fun i => (interaction_state i =? "new")%string
                   || (interaction_state i =? "fanned_out")%string)
    (filter (fun i => (interaction_type i =? type)%string)
       (filter (fun i => interaction_post_id i =? post_id self) (interactions db))).

(** The posts whose [in_reply_to] equals the [object_uri] of [self]. *)
Definition replies_to (db : DB) (self : Post) : list Post :=
  filter (fun p => if option_string_dec (post_in_reply_to p) (post_object_uri self)
                   then true else false)
    (posts db).

(** The dict [calculate_stats] builds. *)
Definition stats_of (db : DB) (self : Post) : stats_dict :=
  [("likes", count_interactions db self "like");
   ("boosts", count_interactions db self "boost");
   ("replies", count_replies db self)].

(** ** The constraints of the tables, as predicates on a database *)

Definition follow_pair (f : Follow) : Z * Z :=
  (follow_source_id f, follow_target_id f).

(** Primary key, and [unique_together = [("source", "target")]]. *)
Definition wf_follows (rows : list Follow) : Prop :=
  NoDup (map follow_id rows) /\ NoDup (map follow_pair rows).

Definition block_key (b : Block) : Z * Z * bool :=
  (block_source_id b, block_target_id b, block_mute b).

(** Primary key, and one row per (source, target, mute), as the data model
    of the specification has it. *)
Definition wf_blocks (rows : list Block) : Prop :=
  NoDup (map block_id rows) /\ NoDup (map block_key rows).

(** The domain [by_username_and_domain] looks the handle up under. *)
Definition looked_up_domain (env : Env) (domain : domain_arg) : string :=
  match domain with
  | DomainName name => str_lower env name
  | DomainInstance d => domain_domain d
  end.

(** The domain a newly created identity is bound to, [subject_domain] being
    the domain part of the canonical subject. *)
Definition bound_domain (env : Env) (domain : domain_arg) (subject_domain : string)
  : string :=
  match domain with
  | DomainName _ => str_lower env subject_domain
  | DomainInstance d => domain_domain d
  end.

(** What the Domain table must offer for the new identity to be inserted:
    for a host name, unique primary keys and no local domain of the
    subject's name; for a Domain record, its row in the table. *)
Definition domain_ready (env : Env) (domain : domain_arg) (subject_domain : string)
    (db : DB) : Prop :=
  match domain with
  | DomainName _ =>
      NoDup (map domain_domain (domains db))
      /\ forall x, In x (domains db) ->
                   domain_domain x = str_lower env subject_domain ->
                   domain_local x = false
  | DomainInstance d =>
      existsb (fun x => domain_domain x =? domain_domain d)%string (domains db) = true
  end.

(** The remote flag under which the lookup runs. *)
Definition looks_remote (domain : domain_arg) (local : bool) : Prop :=
  match domain with
  | DomainName _ => local = false
  | DomainInstance d => domain_local d = false
  end.

(** A run of [Takahe.follow(source_pk, target_pk)] calls, one Snowflake drawn
    per call; a call that raises leaves the database as it stood then. *)
Fixpoint follow_calls (source_pk target_pk : Z) (new_ids : list Z) (db : DB) : DB :=
  match new_ids with
  | [] => db
  | new_id :: rest =>
      follow_calls source_pk target_pk rest
        (fst (Takahe.follow new_id source_pk target_pk db))
  end.

(** alice's post 500, liked by bob, with one reply (501). *)
Definition liked_post_db : DB :=
  with_interactions
    (with_posts two_identities
       [sample_post 500 1 None;
        {| post_id := 501; post_author_id := 2; post_state := "new";
           post_local := false;
           post_object_uri := Some "https://remote.example/posts/501/";
           post_in_reply_to := Some "https://neodb.example/posts/500/";
           post_stats := None |}])
    [sample_like 700 2 500 "new"].

(** alice following herself. *)
Definition self_follow_db : DB :=
  with_follows two_identities [sample_follow 100 1 1 "accepted"].

(** alice following bob, bob asking to follow alice. *)
Definition mutual_follow_db : DB :=
  with_follows two_identities
    [sample_follow 100 1 2 "accepted"; sample_follow 101 2 1 "pending_approval"].

(** The interactions table after the loop of [uninteract_post] has run over
    [rows]. *)
Definition undone_rows (rows table : list PostInteraction) : list PostInteraction :=
  fold_left
    (fun acc r => save_row interaction_id (PostInteraction_set_state r "undone") acc)
    rows table.

(** The row a first like of [post] by [identity_pk] inserts. *)
Definition like_row (new_id identity_pk : Z) (post : Post) : PostInteraction :=
  {| interaction_id := new_id; interaction_state := "new";
     interaction_type := "like"; interaction_identity_id := identity_pk;
     interaction_post_id := post_id post |}.

(** alice's post 500 as [create_local] leaves it: stats not yet computed. *)
Definition fresh_post_db : DB :=
  with_posts two_identities [sample_post 500 1 None].

(** The same after bob has liked the post. *)
Definition bob_liked_db : DB :=
  fst (Takahe.like_post 700 500 2 fresh_post_db).

(** A webfinger document naming [subject] and one self link to [href]. *)
Definition webfinger_document (subject href : string) : json :=
  JObj [("subject", JStr ("acct:" ++ subject));
        ("links",
         JArr [JObj [("rel", JStr "http://webfinger.net/rel/profile-page");
                     ("type", JStr "text/html");
                     ("href", JStr "https://main.example/@bob")];
               JObj [("rel", JStr "self");
                     ("type", JStr "application/activity+json");
                     ("href", JStr href)]])].

(** A world in which every request succeeds and webfinger answers with
    [webfinger_document subject href]. *)
Definition discovering (subject href : string) : Env :=
  sample_env (fun _ => Response 200 "{}") (Some (webfinger_document subject href)).

Definition alias_domain : Domain :=
  {| domain_domain := "alias.example"; domain_service_domain := None;
     domain_local := false |}.

Definition alias_known_db : DB := with_domains two_identities [alias_domain].

(** ** Further methods of the models *)

(** [Domain.get_domain]: one row matching on either column, [None] when
    there is none; two matching rows are not caught. *)
Definition Domain_get_domain (env : Env) (domain : string) : M (option Domain) :=
  lift (fun db =>
    let name := str_lower env domain in
    match qs_get MDomain
            (filter (fun d => (domain_domain d =? name)%string
                              || opt_string_eqb (domain_service_domain d) (Some name))
                    (domains db)) with
    | Ok d => Ok (Some d)
    | Raise (DoesNotExist MDomain) => Ok None
    | Raise e => Raise e
    end).

(** Two [get_remote_domain] calls in a row. *)
Definition get_remote_domain_twice (env : Env) (domain : string) : M (Domain * Domain) :=
  first <- get_remote_domain env domain ;;
  second <- get_remote_domain env domain ;;
  ret (first, second).

(** [follow], [unfollow], [follow] once more. *)
Definition follow_unfollow_follow (n1 n2 source_pk target_pk : Z) : M unit :=
  Takahe.follow n1 source_pk target_pk ;;;
  Takahe.unfollow source_pk target_pk ;;;
  Takahe.follow n2 source_pk target_pk.

(** [like_post], [unlike_post], [like_post] once more. *)
Definition like_unlike_like (n1 n2 post_pk identity_pk : Z)
  : M (option PostInteraction) :=
  Takahe.like_post n1 post_pk identity_pk ;;;
  Takahe.unlike_post post_pk identity_pk ;;;
  Takahe.like_post n2 post_pk identity_pk.

(** The [local] flag [by_username_and_domain] works with: that of the
    Domain record when one is passed, the argument otherwise. *)
Definition runs_local (domain : domain_arg) (local : bool) : bool :=
  match domain with
  | DomainInstance d => domain_local d
  | DomainName _ => local
  end.

(** The filter of the first lookup of [by_username_and_domain]. *)
Definition handle_matches (env : Env) (username : string) (domain : domain_arg)
    (local : bool) (i : Identity) : bool :=
  match identity_username i with
  | Some u0 => iexact env u0 username
  | None => false
  end
  && opt_string_eqb (identity_domain_id i) (Some (looked_up_domain env domain))
  && (if runs_local domain local then identity_local i else true).

(** ** Star ratings ([utils.py], [_rating_to_emoji]) *)

(** The three star codes of the Django settings, which the repository does
    not hold: they are an argument. *)
Record StarSettings : Type := {
  STAR_SOLID : string;
  STAR_HALF : string;
  STAR_EMPTY : string
}.

(** [s * n]: nothing for [n <= 0]. *)
Definition repeat_str (s : string) (n : Z) : string :=
  String.concat "" (repeat s (Z.to_nat n)).

(** [s.replace("::", ": :")]: occurrences are replaced from the left and do
    not overlap. *)
Fixpoint replace_colons (s : string) : string :=
  match s with
  | EmptyString => EmptyString
  | String c rest =>
      match rest with
      | String c2 rest2 =>
          if (Ascii.eqb c ":" && Ascii.eqb c2 ":")%bool
          then ": :" ++ replace_colons rest2
          else String c (replace_colons rest)
      | EmptyString => String c EmptyString
      end
  end.

(** [_rating_to_emoji(score, star_mode)]; [None] is the score [None]. *)
Definition _rating_to_emoji (settings : StarSettings) (score : option Z) (star_mode : Z)
  : string :=
  match score with
  | None => ""
  | Some score =>
      if score =? 0 then ""
      else
        let solid_stars := score / 2 in
        let half_star := if score mod 2 =? 0 then 0 else 1 in
        let empty_stars :=
          if half_star =? 0 then 5 - solid_stars else 5 - solid_stars - 1 in
        let emoji_code :=
          if star_mode =? 1
          then repeat_str "🌕" solid_stars ++ repeat_str "🌗" half_star
               ++ repeat_str "🌑" empty_stars
          else repeat_str (STAR_SOLID settings) solid_stars
               ++ repeat_str (STAR_HALF settings) half_star
               ++ repeat_str (STAR_EMPTY settings) empty_stars in
        let emoji_code := replace_colons emoji_code in
        " " ++ emoji_code ++ " "
  end.

(** A shortcode name: not empty, no colon in it. *)
Fixpoint colon_free (s : string) : bool :=
  match s with
  | EmptyString => true
  | String c rest => negb (Ascii.eqb c ":") && colon_free rest
  end.

Definition is_name (s : string) : Prop :=
  s <> "" /\ colon_free s = true.

(** [:name:] *)
Definition shortcode (name : string) : string := ":" ++ name ++ ":".

(** The shortcodes of [names], one space between neighbours. *)
Fixpoint spaced (names : list string) : string :=
  match names with
  | [] => ""
  | [name] => shortcode name
  | name :: rest => shortcode name ++ " " ++ spaced rest
  end.

(** The five names a score stands for. *)
Definition five_stars (solid half empty : string) (score : Z) : list string :=
  (repeat solid (Z.to_nat (score / 2))
   ++ repeat half (Z.to_nat (score mod 2))
   ++ repeat empty (Z.to_nat (5 - score / 2 - score mod 2)))%list.

(** ** Rounding to the nearest float, in integers *)

(** Where the exact numerator [N] (in units of [1/W]) lies relative to the
    kept mantissa [m]: the remainder, and how the round and sticky bits
    tell it from the half. *)
Definition loc_ok (N W m : Z) (r s : bool) : Prop :=
  0 <= N - m * W < W
  /\ match r, s with
     | false, false => N - m * W = 0
     | false, true => 0 < 2 * (N - m * W) < W
     | true, false => 2 * (N - m * W) = W
     | true, true => W < 2 * (N - m * W)
     end.

(** The value of a positive finite float, scaled by [2^c]. *)
Definition scaled (c : Z) (m : positive) (e : Z) : Z := Z.pos m * 2 ^ (e + c).

(** [f] is the exact value [Nc / (W * 2^c)], of binade [k], rounded to the
    nearest float: a normal float of exponent [k - 53] (or the power of two
    that ends the binade), half a unit in the last place away at most. *)
Definition rounded (c Nc W k : Z) (f : spec_float) : Prop :=
  exists (m2 : positive) (e2 : Z),
    f = S754_finite false m2 e2
    /\ ((e2 = k - 53 /\ 2 ^ 52 <= Z.pos m2 < 2 ^ 53)
        \/ (e2 = k - 52 /\ Z.pos m2 = 2 ^ 52))
    /\ 2 * Z.abs (scaled c m2 e2 * W - Nc) <= 2 ^ (k - 53 + c) * W
    /\ 2 ^ (k - 1 + c) * W <= Nc < 2 ^ (k + c) * W.

(** * Properties *)

Unset Implicit Arguments.


(** ** Snowflake *)

(** *** Binary digits and shifts *)

Lemma digits2_pos_bounds (p : positive) :
  2 ^ (Z.pos (digits2_pos p) - 1) <= Z.pos p < 2 ^ Z.pos (digits2_pos p).
Proof.
  induction p as [p IH | p IH |]; simpl digits2_pos.
  - rewrite Pos2Z.inj_succ, (Pos2Z.inj_xI p).
    replace (Z.succ (Z.pos (digits2_pos p)) - 1) with (Z.succ (Z.pos (digits2_pos p) - 1)) by lia.
    rewrite !Z.pow_succ_r by lia.
    destruct IH as [IH1 IH2]. revert IH1 IH2.
    generalize (2 ^ (Z.pos (digits2_pos p) - 1)) (2 ^ Z.pos (digits2_pos p)). intros; lia.
  - rewrite Pos2Z.inj_succ, (Pos2Z.inj_xO p).
    replace (Z.succ (Z.pos (digits2_pos p)) - 1) with (Z.succ (Z.pos (digits2_pos p) - 1)) by lia.
    rewrite !Z.pow_succ_r by lia.
    destruct IH as [IH1 IH2]. revert IH1 IH2.
    generalize (2 ^ (Z.pos (digits2_pos p) - 1)) (2 ^ Z.pos (digits2_pos p)). intros; lia.
  - simpl. lia.
Qed.

Lemma digits2_pos_unique (p : positive) (k : Z) :
  2 ^ (k - 1) <= Z.pos p < 2 ^ k -> Z.pos (digits2_pos p) = k.
Proof.
  intros [Hlo Hhi].
  destruct (digits2_pos_bounds p) as [Dlo Dhi].
  set (d := Z.pos (digits2_pos p)) in *.
  assert (Hk : 0 <= k).
  { destruct (Z.lt_ge_cases k 0) as [Hn | Hn]; [| exact Hn].
    rewrite (Z.pow_neg_r 2 k Hn) in Hhi. lia. }
  destruct (Z.lt_trichotomy d k) as [Hlt | [Heq | Hgt]]; [| exact Heq |].
  - assert (2 ^ d <= 2 ^ (k - 1)) by (apply Z.pow_le_mono_r; lia). lia.
  - assert (2 ^ k <= 2 ^ (d - 1)) by (apply Z.pow_le_mono_r; lia). lia.
Qed.

Lemma iter_pos_nat {A : Type} (f : A -> A) (p : positive) :
  forall x, SpecFloat.iter_pos f p x = Nat.iter (Pos.to_nat p) f x.
Proof.
  induction p as [p IH | p IH |]; intros x; simpl SpecFloat.iter_pos.
  - rewrite !IH. rewrite Pos2Nat.inj_xI.
    replace (S (2 * Pos.to_nat p))%nat with (Pos.to_nat p + (Pos.to_nat p + 1))%nat by lia.
    rewrite !Nat.iter_add. simpl. reflexivity.
  - rewrite !IH. rewrite Pos2Nat.inj_xO.
    replace (2 * Pos.to_nat p)%nat with (Pos.to_nat p + Pos.to_nat p)%nat by lia.
    rewrite Nat.iter_add. reflexivity.
  - reflexivity.
Qed.

Lemma shr_1_nonneg (m : Z) (r s : bool) :
  0 <= m ->
  shr_1 (Build_shr_record m r s) = Build_shr_record (m / 2) (Z.odd m) (r || s).
Proof.
  intros Hm. destruct m as [| p | p]; [reflexivity | | lia].
  destruct p as [p | p |]; simpl shr_1; cbv beta iota.
  - f_equal. rewrite (Pos2Z.inj_xI p). apply (Z.div_unique _ 2 _ 1); lia.
  - f_equal. rewrite (Pos2Z.inj_xO p). apply (Z.div_unique _ 2 _ 0); lia.
  - reflexivity.
Qed.

Lemma shr_1_ok (N W m : Z) (r s : bool) :
  0 < W -> 0 <= m -> loc_ok N W m r s ->
  loc_ok N (2 * W) (m / 2) (Z.odd m) (r || s).
Proof.
  intros HW Hm [Hrem Hloc].
  pose proof (Z.div_mod m 2 ltac:(lia)) as Hdm.
  pose proof (Z.mod_pos_bound m 2 ltac:(lia)) as Hmod.
  rewrite Zmod_odd in Hdm, Hmod.
  set (h := m / 2) in *.
  unfold loc_ok.
  destruct (Z.odd m); destruct r, s; simpl orb; cbv iota; split; nia.
Qed.

Lemma shr_iter_ok (n : nat) :
  forall (N W m : Z) (r s : bool),
    0 < W -> 0 <= m -> loc_ok N W m r s ->
    let mrs := Nat.iter n shr_1 (Build_shr_record m r s) in
    loc_ok N (2 ^ Z.of_nat n * W) (shr_m mrs) (shr_r mrs) (shr_s mrs)
    /\ shr_m mrs = m / 2 ^ Z.of_nat n.
Proof.
  induction n as [| n IH]; intros N W m r s HW Hm Hok.
  - cbv zeta. change (Nat.iter 0 shr_1 (Build_shr_record m r s)) with (Build_shr_record m r s).
    cbn [shr_m shr_r shr_s]. change (Z.of_nat 0) with 0.
    rewrite Z.pow_0_r, Z.mul_1_l, Z.div_1_r. split; [exact Hok | reflexivity].
  - cbv zeta. rewrite Nat.iter_succ.
    destruct (IH N W m r s HW Hm Hok) as [Hok' Hm'].
    destruct (Nat.iter n shr_1 (Build_shr_record m r s)) as [m' r' s'].
    cbn [shr_m shr_r shr_s] in *.
    assert (Hp : 0 < 2 ^ Z.of_nat n) by (apply Z.pow_pos_nonneg; lia).
    assert (Hm0 : 0 <= m') by (rewrite Hm'; apply Z.div_pos; lia).
    rewrite (shr_1_nonneg m' r' s' Hm0). cbn [shr_m shr_r shr_s].
    rewrite Nat2Z.inj_succ, Z.pow_succ_r by lia.
    split.
    + replace (2 * 2 ^ Z.of_nat n * W) with (2 * (2 ^ Z.of_nat n * W)) by lia.
      apply shr_1_ok; [nia | exact Hm0 | exact Hok'].
    + rewrite Hm'. rewrite Z.div_div by lia. f_equal. lia.
Qed.

Lemma shr_spec (M e n N W : Z) (r s : bool) :
  0 < W -> 0 <= M -> 0 <= n -> loc_ok N W M r s ->
  exists m' r' s',
    shr (Build_shr_record M r s) e n = (Build_shr_record m' r' s', e + n)
    /\ loc_ok N (2 ^ n * W) m' r' s'
    /\ m' = M / 2 ^ n.
Proof.
  intros HW HM Hn Hok.
  destruct n as [| p | p]; [| | lia].
  - exists M, r, s. unfold shr. rewrite Z.add_0_r, Z.pow_0_r, Z.mul_1_l, Z.div_1_r.
    split; [reflexivity |]. split; [exact Hok | reflexivity].
  - unfold shr. rewrite iter_pos_nat.
    destruct (shr_iter_ok (Pos.to_nat p) N W M r s HW HM Hok) as [Hok' Hm'].
    rewrite positive_nat_Z in Hok', Hm'.
    destruct (Nat.iter (Pos.to_nat p) shr_1 (Build_shr_record M r s)) as [m' r' s'].
    exists m', r', s'. split; [reflexivity |]. split; assumption.
Qed.

Lemma round_nearest_even_ok (N W m : Z) (r s : bool) :
  0 < W -> loc_ok N W m r s ->
  let m1 := round_nearest_even m (loc_of_shr_record (Build_shr_record m r s)) in
  (m1 = m \/ m1 = m + 1) /\ 2 * Z.abs (m1 * W - N) <= W.
Proof.
  intros HW [Hrem Hloc].
  destruct r, s; cbv beta iota in Hloc;
    cbn [round_nearest_even loc_of_shr_record]; cbv zeta;
    try destruct (Z.even m); split;
    try (left; reflexivity); try (right; reflexivity); lia.
Qed.

(** *** One rounding *)
Lemma fexp_normal (k : Z) : -1074 <= k - 53 -> fexp Snowflake.prec Snowflake.emax k = k - 53.
Proof. unfold fexp, SpecFloat.emin, Snowflake.prec, Snowflake.emax. lia. Qed.

Lemma pow2_split (a b : Z) : 0 <= a -> 0 <= b -> 2 ^ (a + b) = 2 ^ a * 2 ^ b.
Proof. intros. apply Z.pow_add_r; assumption. Qed.

Lemma binary_round_aux_rs (sx : bool) (M : positive) (e N W : Z) (r s : bool) :
  let d := Z.pos (digits2_pos M) in
  0 < W ->
  loc_ok N W (Z.pos M) r s ->
  53 <= d -> -1074 <= d + e - 53 -> d + e <= 1023 ->
  exists (m2 : positive) (e2 : Z),
    (let '(mrs', e') := shr (Build_shr_record (Z.pos M) r s) e
                            (fexp Snowflake.prec Snowflake.emax (d + e) - e) in
     let '(mrs'', e'') :=
       shr_fexp Snowflake.prec Snowflake.emax
         (round_nearest_even (shr_m mrs') (loc_of_shr_record mrs')) e' loc_Exact in
     match shr_m mrs'' with
     | Z0 => S754_zero sx
     | Zpos m => if Z.leb e'' (Snowflake.emax - Snowflake.prec) then S754_finite sx m e''
                 else S754_infinity sx
     | _ => S754_nan
     end) = S754_finite sx m2 e2
    /\ ((e2 = d + e - 53 /\ 2 ^ 52 <= Z.pos m2 < 2 ^ 53)
        \/ (e2 = d + e - 52 /\ Z.pos m2 = 2 ^ 52))
    /\ 2 * Z.abs (Z.pos m2 * 2 ^ (e2 - e) * W - N) <= 2 ^ (d - 53) * W.
Proof.
  intros d HW Hok Hd Hlo Hhi.
  rewrite (fexp_normal (d + e)) by exact Hlo.
  replace (d + e - 53 - e) with (d - 53) by lia.
  destruct (shr_spec (Z.pos M) e (d - 53) N W r s HW ltac:(lia) ltac:(lia) Hok)
    as [m' [r' [s' [Hshr [Hok' Hm']]]]].
  rewrite Hshr. cbn [shr_m].
  set (n := d - 53) in *.
  assert (Hpn : 0 < 2 ^ n) by (apply Z.pow_pos_nonneg; lia).
  assert (Hm'b : 2 ^ 52 <= m' < 2 ^ 53).
  { destruct (digits2_pos_bounds M) as [Dlo Dhi]. fold d in Dlo, Dhi.
    assert (E1 : 2 ^ (d - 1) = 2 ^ 52 * 2 ^ n).
    { rewrite <- pow2_split by lia. f_equal. unfold n. lia. }
    assert (E2 : 2 ^ d = 2 ^ 53 * 2 ^ n).
    { rewrite <- pow2_split by lia. f_equal. unfold n. lia. }
    rewrite Hm'. split.
    - apply Z.div_le_lower_bound; lia.
    - apply Z.div_lt_upper_bound; lia. }
  assert (HW' : 0 < 2 ^ n * W) by nia.
  destruct (round_nearest_even_ok N (2 ^ n * W) m' r' s' HW' Hok') as [Hm1 Herr].
  set (m1 := round_nearest_even m' (loc_of_shr_record (Build_shr_record m' r' s'))) in *.
  assert (Hm1b : 2 ^ 52 <= m1 <= 2 ^ 53) by lia.
  destruct m1 as [| p1 | p1] eqn:Em1; [lia | | lia].
  unfold shr_fexp. cbn [Zdigits2 shr_record_of_loc].
  destruct (Z.eq_dec (Z.pos p1) (2 ^ 53)) as [Htop | Hbelow].
  - assert (Ep : p1 = (2 ^ 53)%positive) by (apply Pos2Z.inj; exact Htop).
    subst p1.
    exists (2 ^ 52)%positive, (e + n + 1).
    split.
    { assert (Hdig : Z.pos (digits2_pos (2 ^ 53)) = 54) by reflexivity.
      rewrite Hdig. rewrite (fexp_normal (54 + (e + n))) by (unfold n; lia).
      replace (54 + (e + n) - 53 - (e + n)) with 1 by lia.
      cbn [shr SpecFloat.iter_pos]. 
      change (shr_1 {| shr_m := Z.pos (2 ^ 53); shr_r := false; shr_s := false |})
        with {| shr_m := Z.pos (2 ^ 52); shr_r := false; shr_s := false |}.
      cbn [shr_m].
      assert (Hle : (e + n + 1 <=? Snowflake.emax - Snowflake.prec) = true)
        by (apply Z.leb_le; unfold Snowflake.emax, Snowflake.prec, n; lia).
      rewrite Hle. reflexivity. }
    split.
    { right. split; [unfold n; lia | reflexivity]. }
    replace (e + n + 1 - e) with (n + 1) by lia.
    rewrite (pow2_split n 1) by lia.
    change (Z.pos (2 ^ 52)) with (2 ^ 52). change (2 ^ 1) with 2.
    replace (2 ^ 52 * (2 ^ n * 2) * W) with (Z.pos (2 ^ 53) * (2 ^ n * W)) by
      (change (Z.pos (2 ^ 53)) with (2 * 2 ^ 52); ring).
    exact Herr.
  - exists p1, (e + n).
    assert (Hdig : Z.pos (digits2_pos p1) = 53) by (apply digits2_pos_unique; lia).
    split.
    { rewrite Hdig. rewrite (fexp_normal (53 + (e + n))) by (unfold n; lia).
      replace (53 + (e + n) - 53 - (e + n)) with 0 by lia.
      cbn [shr shr_m].
      assert (Hle : (e + n <=? Snowflake.emax - Snowflake.prec) = true)
        by (apply Z.leb_le; unfold Snowflake.emax, Snowflake.prec, n; lia).
      rewrite Hle. reflexivity. }
    split.
    { left. split; [unfold n; lia | lia]. }
    replace (e + n - e) with n by lia.
    replace (Z.pos p1 * 2 ^ n * W) with (Z.pos p1 * (2 ^ n * W)) by ring.
    exact Herr.
Qed.

Lemma binary_round_aux_spec (sx : bool) (M : positive) (e N W : Z) (lx : location) :
  let d := Z.pos (digits2_pos M) in
  0 < W ->
  loc_ok N W (Z.pos M) (shr_r (shr_record_of_loc (Z.pos M) lx))
         (shr_s (shr_record_of_loc (Z.pos M) lx)) ->
  53 <= d -> -1074 <= d + e - 53 -> d + e <= 1023 ->
  exists (m2 : positive) (e2 : Z),
    binary_round_aux Snowflake.prec Snowflake.emax sx (Z.pos M) e lx = S754_finite sx m2 e2
    /\ ((e2 = d + e - 53 /\ 2 ^ 52 <= Z.pos m2 < 2 ^ 53)
        \/ (e2 = d + e - 52 /\ Z.pos m2 = 2 ^ 52))
    /\ 2 * Z.abs (Z.pos m2 * 2 ^ (e2 - e) * W - N) <= 2 ^ (d - 53) * W.
Proof.
  intros d HW Hok Hd Hlo Hhi.
  unfold binary_round_aux, shr_fexp at 1. cbn [Zdigits2].
  destruct lx as [| [| |]]; cbn [shr_record_of_loc shr_r shr_s] in Hok |- *;
    apply binary_round_aux_rs; assumption.
Qed.

Lemma binary_round_aux_rounded (M : positive) (e N W c : Z) (lx : location) :
  let k := Z.pos (digits2_pos M) + e in
  0 < W ->
  loc_ok N W (Z.pos M) (shr_r (shr_record_of_loc (Z.pos M) lx))
         (shr_s (shr_record_of_loc (Z.pos M) lx)) ->
  53 <= Z.pos (digits2_pos M) -> -1074 <= k - 53 -> k <= 1023 ->
  0 <= e + c ->
  rounded c (N * 2 ^ (e + c)) W k
          (binary_round_aux Snowflake.prec Snowflake.emax false (Z.pos M) e lx).
Proof.
  intros k HW Hok Hd Hlo Hhi Hc.
  destruct (binary_round_aux_spec false M e N W lx HW Hok Hd Hlo Hhi)
    as [m2 [e2 [Heq [Hst Herr]]]].
  exists m2, e2. split; [exact Heq |]. split; [exact Hst |].
  fold k in Hst.
  assert (He2 : e <= e2) by (unfold k in Hst; lia).
  assert (Hp : 0 < 2 ^ (e + c)) by (apply Z.pow_pos_nonneg; lia).
  split.
  - unfold scaled.
    replace (e2 + c) with ((e2 - e) + (e + c)) by lia.
    rewrite (pow2_split (e2 - e) (e + c)) by lia.
    replace (k - 53 + c) with ((Z.pos (digits2_pos M) - 53) + (e + c)) by (unfold k; lia).
    rewrite (pow2_split (Z.pos (digits2_pos M) - 53) (e + c)) by lia.
    replace (Z.pos m2 * (2 ^ (e2 - e) * 2 ^ (e + c)) * W - N * 2 ^ (e + c))
      with ((Z.pos m2 * 2 ^ (e2 - e) * W - N) * 2 ^ (e + c)) by ring.
    rewrite Z.abs_mul. rewrite (Z.abs_eq (2 ^ (e + c))) by lia.
    revert Herr.
    generalize (Z.abs (Z.pos m2 * 2 ^ (e2 - e) * W - N)).
    generalize (2 ^ (Z.pos (digits2_pos M) - 53)).
    intros a b Hab. nia.
  - destruct Hok as [Hrem _].
    destruct (digits2_pos_bounds M) as [Dlo Dhi].
    replace (k - 1 + c) with ((Z.pos (digits2_pos M) - 1) + (e + c)) by (unfold k; lia).
    replace (k + c) with (Z.pos (digits2_pos M) + (e + c)) by (unfold k; lia).
    rewrite (pow2_split (Z.pos (digits2_pos M) - 1) (e + c)) by lia.
    rewrite (pow2_split (Z.pos (digits2_pos M)) (e + c)) by lia.
    revert Dlo Dhi.
    generalize (2 ^ (Z.pos (digits2_pos M) - 1)) (2 ^ Z.pos (digits2_pos M)).
    intros a b Ha Hb.
    assert (H1 : a * W <= N) by nia.
    assert (H2 : N < b * W) by nia.
    revert Hp. generalize (2 ^ (e + c)). intros P HP.
    split.
    + replace (a * P * W) with (a * W * P) by ring. apply Z.mul_le_mono_nonneg_r; lia.
    + replace (b * P * W) with (b * W * P) by ring. apply Z.mul_lt_mono_pos_r; lia.
Qed.

Lemma pos_iter_xO (m d : positive) :
  Z.pos (Pos.iter xO m d) = Z.pos m * 2 ^ Z.pos d.
Proof.
  induction d as [| d IH] using Pos.peano_ind.
  - change (Pos.iter xO m 1) with (m~0)%positive. rewrite (Pos2Z.inj_xO m).
    change (2 ^ 1) with 2. ring.
  - rewrite Pos.iter_succ, (Pos2Z.inj_xO (Pos.iter xO m d)), IH.
    rewrite Pos2Z.inj_succ, Z.pow_succ_r by lia. ring.
Qed.

Lemma shl_align_le (m : positive) (e e' : Z) :
  e' <= e ->
  exists m', shl_align m e e' = (m', e') /\ Z.pos m' = Z.pos m * 2 ^ (e - e').
Proof.
  intros Hle. unfold shl_align.
  destruct (e' - e) as [| d | d] eqn:Ed; [| lia |].
  - exists m. replace e' with e by lia.
    rewrite Z.sub_diag, Z.pow_0_r, Z.mul_1_r. split; reflexivity.
  - exists (Pos.iter xO m d). split; [reflexivity |].
    rewrite pos_iter_xO. f_equal. f_equal. lia.
Qed.

Lemma shl_align_ge (m : positive) (e e' : Z) :
  e <= e' -> shl_align m e e' = (m, e).
Proof.
  intros Hle. unfold shl_align.
  destruct (e' - e) as [| d | d] eqn:Ed; [reflexivity | reflexivity | lia].
Qed.

Lemma digits2_pos_shift (m m' : positive) (n : Z) :
  0 <= n -> Z.pos m' = Z.pos m * 2 ^ n ->
  Z.pos (digits2_pos m') = Z.pos (digits2_pos m) + n.
Proof.
  intros Hn Hm'. apply digits2_pos_unique. rewrite Hm'.
  destruct (digits2_pos_bounds m) as [Dlo Dhi].
  replace (Z.pos (digits2_pos m) + n - 1) with ((Z.pos (digits2_pos m) - 1) + n) by lia.
  rewrite (pow2_split (Z.pos (digits2_pos m) - 1) n) by lia.
  rewrite (pow2_split (Z.pos (digits2_pos m)) n) by lia.
  assert (Hp : 0 < 2 ^ n) by (apply Z.pow_pos_nonneg; lia).
  split; nia.
Qed.

Lemma binary_round_rounded (M : positive) (e c : Z) :
  let k := Z.pos (digits2_pos M) + e in
  -1074 <= k - 53 -> k <= 1023 ->
  0 <= e + c -> 0 <= k - 53 + c ->
  rounded c (Z.pos M * 2 ^ (e + c)) 1 k (binary_round Snowflake.prec Snowflake.emax false M e).
Proof.
  intros k Hlo Hhi Hc Hkc.
  unfold binary_round. rewrite (fexp_normal (Z.pos (digits2_pos M) + e)) by exact Hlo.
  fold k.
  destruct (Z_le_gt_dec (k - 53) e) as [Hsmall | Hbig].
  - (* The mantissa has at most 53 digits: it is shifted left, nothing is lost. *)
    destruct (shl_align_le M e (k - 53) Hsmall) as [mz [Hal Hmz]].
    rewrite Hal.
    assert (Hdz : Z.pos (digits2_pos mz) = 53).
    { rewrite (digits2_pos_shift M mz (e - (k - 53))) by (lia || exact Hmz).
      unfold k. lia. }
    assert (Hok : loc_ok (Z.pos mz) 1 (Z.pos mz)
                    (shr_r (shr_record_of_loc (Z.pos mz) loc_Exact))
                    (shr_s (shr_record_of_loc (Z.pos mz) loc_Exact))).
    { cbn [shr_record_of_loc shr_r shr_s]. unfold loc_ok. lia. }
    pose proof (binary_round_aux_rounded mz (k - 53) (Z.pos mz) 1 c loc_Exact
                  ltac:(lia) Hok ltac:(lia) ltac:(lia) ltac:(lia) ltac:(lia)) as Hr.
    rewrite Hdz in Hr. replace (53 + (k - 53)) with k in Hr by lia.
    replace (Z.pos M * 2 ^ (e + c)) with (Z.pos mz * 2 ^ (k - 53 + c)).
    + exact Hr.
    + rewrite Hmz. replace (e + c) with ((e - (k - 53)) + (k - 53 + c)) by lia.
      rewrite (pow2_split (e - (k - 53)) (k - 53 + c)) by lia. ring.
  - rewrite (shl_align_ge M e (k - 53)) by lia.
    assert (Hok : loc_ok (Z.pos M) 1 (Z.pos M)
                    (shr_r (shr_record_of_loc (Z.pos M) loc_Exact))
                    (shr_s (shr_record_of_loc (Z.pos M) loc_Exact))).
    { cbn [shr_record_of_loc shr_r shr_s]. unfold loc_ok. lia. }
    exact (binary_round_aux_rounded M e (Z.pos M) 1 c loc_Exact
             ltac:(lia) Hok ltac:(unfold k in Hbig; lia) Hlo Hhi Hc).
Qed.

(** A rounded value that was on the grid already is returned as it is. *)
Lemma rounded_exact (c Nc k : Z) (f : spec_float) (j : Z) :
  0 <= k - 53 + c ->
  rounded c Nc 1 k f -> Nc = j * 2 ^ (k - 53 + c) ->
  exists m2 e2, f = S754_finite false m2 e2 /\ scaled c m2 e2 = Nc
    /\ ((e2 = k - 53 /\ 2 ^ 52 <= Z.pos m2 < 2 ^ 53)
        \/ (e2 = k - 52 /\ Z.pos m2 = 2 ^ 52)).
Proof.
  intros Hkc [m2 [e2 [Hf [Hst [Herr Hmag]]]]] HN.
  exists m2, e2. split; [exact Hf |]. split; [| exact Hst].
  assert (Hg : 0 < 2 ^ (k - 53 + c)) by (apply Z.pow_pos_nonneg; lia).
  assert (Hv : exists i, scaled c m2 e2 = i * 2 ^ (k - 53 + c)).
  { unfold scaled. destruct Hst as [[He _] | [He _]]; subst e2.
    - exists (Z.pos m2). reflexivity.
    - exists (Z.pos m2 * 2). replace (k - 52 + c) with (1 + (k - 53 + c)) by lia.
      rewrite (pow2_split 1 (k - 53 + c)) by lia. change (2 ^ 1) with 2. ring. }
  destruct Hv as [i Hi]. rewrite Hi in *. subst Nc.
  revert Herr Hg. generalize (2 ^ (k - 53 + c)). intros g Herr Hg.
  assert (i = j) by nia. subst i. reflexivity.
Qed.

(** *** The four float operations of the class *)

Lemma float_of_int_EPOCH :
  Snowflake.float_of_int Snowflake.EPOCH = S754_finite false 6882938427801600 (-22).
Proof. vm_compute. reflexivity. Qed.

Lemma float_of_int_1000 :
  Snowflake.float_of_int 1000 = S754_finite false 8796093022208000 (-43).
Proof. vm_compute. reflexivity. Qed.

Lemma rounded_shape (c Nc W k : Z) (f : spec_float) :
  rounded c Nc W k f ->
  exists m e, f = S754_finite false m e /\ 2 ^ 52 <= Z.pos m < 2 ^ 53
              /\ k - 53 <= e <= k - 52.
Proof.
  intros [m [e [Hf [Hst _]]]]. exists m, e. split; [exact Hf |].
  destruct Hst as [[He Hm] | [He Hm]]; split; lia.
Qed.

(** [t - Snowflake.EPOCH] is exact for a clock reading between [2^30] and [2^32]
    seconds that is after the epoch. *)
Lemma sub_epoch_exact (mt : positive) (et : Z) :
  et = -22 \/ et = -21 ->
  2 ^ 52 <= Z.pos mt < 2 ^ 53 ->
  Snowflake.EPOCH * 2 ^ 128 < scaled 128 mt et ->
  exists md ed,
    SFsub Snowflake.prec Snowflake.emax (S754_finite false mt et) (Snowflake.float_of_int Snowflake.EPOCH)
    = S754_finite false md ed
    /\ scaled 128 md ed = scaled 128 mt et - Snowflake.EPOCH * 2 ^ 128
    /\ 2 ^ 52 <= Z.pos md < 2 ^ 53.
Proof.
  intros Het Hmt Hgt.
  rewrite float_of_int_EPOCH. unfold SFsub. cbv zeta.
  assert (HmE : Z.pos 6882938427801600 * 2 ^ 106 = Snowflake.EPOCH * 2 ^ 128) by reflexivity.
  assert (Hmain : forall (pD : positive) (j : Z),
             Z.pos pD * 2 ^ 106 = scaled 128 mt et - Snowflake.EPOCH * 2 ^ 128 ->
             Z.pos pD < 2 ^ 54 ->
             Z.pos pD * 2 ^ 106 = j * 2 ^ (Z.pos (digits2_pos pD) + -22 - 53 + 128) ->
             exists md ed,
               binary_round Snowflake.prec Snowflake.emax false pD (-22) = S754_finite false md ed
               /\ scaled 128 md ed = scaled 128 mt et - Snowflake.EPOCH * 2 ^ 128
               /\ 2 ^ 52 <= Z.pos md < 2 ^ 53).
  { intros pD j HD Hlt Hj.
    destruct (digits2_pos_bounds pD) as [Dlo Dhi].
    assert (Hdd : 1 <= Z.pos (digits2_pos pD) <= 54).
    { split; [lia |].
      destruct (Z_le_gt_dec (Z.pos (digits2_pos pD)) 54) as [H | H]; [exact H |].
      assert (2 ^ 54 <= 2 ^ (Z.pos (digits2_pos pD) - 1)) by (apply Z.pow_le_mono_r; lia).
      lia. }
    pose proof (binary_round_rounded pD (-22) 128
                  ltac:(lia) ltac:(lia) ltac:(lia) ltac:(lia)) as Hr.
    change (-22 + 128) with 106 in Hr.
    destruct (rounded_exact 128 (Z.pos pD * 2 ^ 106) (Z.pos (digits2_pos pD) + -22) _ j ltac:(lia) Hr Hj)
      as [md [ed [Hf [Hv Hst]]]].
    exists md, ed. split; [exact Hf |]. split; [rewrite Hv; exact HD |].
    destruct Hst as [[_ Hm] | [_ Hm]]; [exact Hm | rewrite Hm; lia]. }
  assert (Hsmall : forall pD : positive,
             Z.pos (digits2_pos pD) <= 53 ->
             Z.pos pD * 2 ^ 106
             = (Z.pos pD * 2 ^ (53 - Z.pos (digits2_pos pD)))
               * 2 ^ (Z.pos (digits2_pos pD) + -22 - 53 + 128)).
  { intros pD Hd.
    replace 106 with ((53 - Z.pos (digits2_pos pD))
                      + (Z.pos (digits2_pos pD) + -22 - 53 + 128)) at 1 by lia.
    rewrite (pow2_split (53 - Z.pos (digits2_pos pD))
               (Z.pos (digits2_pos pD) + -22 - 53 + 128)) by lia.
    ring. }
  destruct Het as [Het | Het]; subst et.
  - change (Z.min (-22) (-22)) with (-22).
    rewrite !(shl_align_ge _ (-22) (-22)) by lia.
    cbn [fst cond_Zopp].
    unfold scaled in Hgt. change (-22 + 128) with 106 in Hgt.
    destruct (Z.pos mt - Z.pos 6882938427801600) as [| pD | pD] eqn:ED; [lia | | lia].
    cbn [binary_normalize].
    assert (Hlt : Z.pos pD < 2 ^ 53) by lia.
    assert (Hd : Z.pos (digits2_pos pD) <= 53).
    { destruct (digits2_pos_bounds pD) as [Dlo _].
      destruct (Z_le_gt_dec (Z.pos (digits2_pos pD)) 53) as [H | H]; [exact H |].
      assert (2 ^ 53 <= 2 ^ (Z.pos (digits2_pos pD) - 1)) by (apply Z.pow_le_mono_r; lia).
      lia. }
    apply (Hmain pD (Z.pos pD * 2 ^ (53 - Z.pos (digits2_pos pD)))).
    + unfold scaled. change (-22 + 128) with 106. lia.
    + lia.
    + apply Hsmall. exact Hd.
  - change (Z.min (-21) (-22)) with (-22).
    rewrite (shl_align_ge _ (-22) (-22)) by lia.
    destruct (shl_align_le mt (-21) (-22) ltac:(lia)) as [mt' [Hal Hmt']].
    rewrite Hal. change (-21 - -22) with 1 in Hmt'. change (2 ^ 1) with 2 in Hmt'.
    cbn [fst cond_Zopp].
    unfold scaled in Hgt. change (-21 + 128) with 107 in Hgt.
    destruct (Z.pos mt' - Z.pos 6882938427801600) as [| pD | pD] eqn:ED; [lia | | lia].
    cbn [binary_normalize].
    assert (HD : Z.pos pD * 2 ^ 106 = scaled 128 mt (-21) - Snowflake.EPOCH * 2 ^ 128).
    { unfold scaled. change (-21 + 128) with 107. lia. }
    destruct (Z_le_gt_dec (Z.pos (digits2_pos pD)) 53) as [Hd | Hd].
    + apply (Hmain pD (Z.pos pD * 2 ^ (53 - Z.pos (digits2_pos pD)))).
      * exact HD.
      * lia.
      * apply Hsmall. exact Hd.
    + assert (Hd54 : Z.pos (digits2_pos pD) = 54).
      { destruct (digits2_pos_bounds pD) as [Dlo _].
        destruct (Z_le_gt_dec (Z.pos (digits2_pos pD)) 54) as [H | H]; [lia |].
        assert (2 ^ 54 <= 2 ^ (Z.pos (digits2_pos pD) - 1)) by (apply Z.pow_le_mono_r; lia).
        lia. }
      apply (Hmain pD (Z.pos mt - 3441469213900800)).
      * exact HD.
      * lia.
      * rewrite Hd54. change (54 + -22 - 53 + 128) with 107. lia.
Qed.

(** [d * 1000] is the exact product rounded once. *)
Lemma mul_1000_rounded (md : positive) (ed : Z) :
  2 ^ 52 <= Z.pos md < 2 ^ 53 -> -85 <= ed <= 900 ->
  exists k,
    rounded 128 (1000 * scaled 128 md ed) 1 k
            (SFmul Snowflake.prec Snowflake.emax (S754_finite false md ed) (Snowflake.float_of_int 1000)).
Proof.
  intros Hmd Hed.
  rewrite float_of_int_1000. unfold SFmul. cbn [xorb].
  set (M := (md * 8796093022208000)%positive).
  assert (HM : Z.pos M = Z.pos md * (1000 * 2 ^ 43)) by (unfold M; rewrite Pos2Z.inj_mul; reflexivity).
  destruct (digits2_pos_bounds M) as [Dlo Dhi].
  assert (Hd : 105 <= Z.pos (digits2_pos M) <= 106).
  { split.
    - destruct (Z_le_gt_dec 105 (Z.pos (digits2_pos M))) as [H | H]; [exact H |].
      assert (2 ^ Z.pos (digits2_pos M) <= 2 ^ 104) by (apply Z.pow_le_mono_r; lia).
      lia.
    - destruct (Z_le_gt_dec (Z.pos (digits2_pos M)) 106) as [H | H]; [exact H |].
      assert (2 ^ 106 <= 2 ^ (Z.pos (digits2_pos M) - 1)) by (apply Z.pow_le_mono_r; lia).
      lia. }
  exists (Z.pos (digits2_pos M) + (ed + -43)).
  assert (Hok : loc_ok (Z.pos M) 1 (Z.pos M)
                  (shr_r (shr_record_of_loc (Z.pos M) loc_Exact))
                  (shr_s (shr_record_of_loc (Z.pos M) loc_Exact))).
  { cbn [shr_record_of_loc shr_r shr_s]. unfold loc_ok. lia. }
  pose proof (binary_round_aux_rounded M (ed + -43) (Z.pos M) 1 128 loc_Exact
                ltac:(lia) Hok ltac:(lia) ltac:(lia) ltac:(lia) ltac:(lia)) as Hr.
  replace (1000 * scaled 128 md ed) with (Z.pos M * 2 ^ (ed + -43 + 128)).
  - exact Hr.
  - rewrite HM. unfold scaled.
    replace (ed + 128) with (43 + (ed + -43 + 128)) by lia.
    rewrite (pow2_split 43 (ed + -43 + 128)) by lia. ring.
Qed.

(** [int(p)] for a positive float is the floor of its value. *)
Lemma py_int_floor (m : positive) (e : Z) :
  -128 <= e ->
  exists n, Snowflake.py_int (S754_finite false m e) = Ok n
            /\ n * 2 ^ 128 <= scaled 128 m e < (n + 1) * 2 ^ 128.
Proof.
  intros He. unfold Snowflake.py_int, scaled. cbn [cond_Zopp].
  destruct (Z.leb_spec 0 e) as [Hpos | Hneg].
  - exists (Z.pos m * 2 ^ e). split; [reflexivity |].
    rewrite (pow2_split e 128) by lia. lia.
  - exists (Z.pos m / 2 ^ (- e)). split; [reflexivity |].
    assert (Hp : 0 < 2 ^ (- e)) by (apply Z.pow_pos_nonneg; lia).
    assert (Hq : 0 < 2 ^ (e + 128)) by (apply Z.pow_pos_nonneg; lia).
    assert (E : 2 ^ 128 = 2 ^ (- e) * 2 ^ (e + 128)).
    { rewrite <- pow2_split by lia. f_equal. lia. }
    rewrite E.
    pose proof (Z.div_mod (Z.pos m) (2 ^ (- e)) ltac:(lia)) as Hdm.
    pose proof (Z.mod_pos_bound (Z.pos m) (2 ^ (- e)) Hp) as Hmod.
    revert Hdm Hmod Hp Hq.
    generalize (Z.pos m / 2 ^ (- e)) (Z.pos m mod 2 ^ (- e)) (2 ^ (- e)) (2 ^ (e + 128)).
    intros q r a b Hdm Hmod Ha Hb. split; nia.
Qed.

(** Rounding does not cross an integer: the floats of a binade below
    [2^53] include the integers of that binade. *)
Lemma rounded_keeps_integers (Nc k : Z) (m : positive) (e : Z) (n : Z) :
  rounded 128 Nc 1 k (S754_finite false m e) ->
  -75 <= k <= 53 ->
  (n * 2 ^ 128 <= Nc -> n * 2 ^ 128 <= scaled 128 m e)
  /\ (Nc <= n * 2 ^ 128 -> scaled 128 m e <= n * 2 ^ 128).
Proof.
  intros [m2 [e2 [Hf [Hst [Herr _]]]]] Hk.
  injection Hf as Hm He. subst m2 e2.
  assert (Hg : 0 < 2 ^ (k - 53 + 128)) by (apply Z.pow_pos_nonneg; lia).
  assert (E : 2 ^ 128 = 2 ^ (53 - k) * 2 ^ (k - 53 + 128)).
  { rewrite <- pow2_split by lia. f_equal. lia. }
  assert (Hv : exists i, scaled 128 m e = i * 2 ^ (k - 53 + 128)).
  { unfold scaled. destruct Hst as [[He _] | [He _]]; subst e.
    - exists (Z.pos m). reflexivity.
    - exists (Z.pos m * 2). replace (k - 52 + 128) with (1 + (k - 53 + 128)) by lia.
      rewrite (pow2_split 1 (k - 53 + 128)) by lia. change (2 ^ 1) with 2. ring. }
  destruct Hv as [i Hi]. rewrite Hi in *. rewrite E.
  rewrite Z.mul_1_r in Herr.
  revert Herr Hg. generalize (2 ^ (k - 53 + 128)) (2 ^ (53 - k)).
  intros g h Herr Hg.
  replace (n * (h * g)) with (n * h * g) by ring.
  split; intros H.
  - destruct (Z_lt_le_dec i (n * h)) as [Hlt | Hge].
    + assert ((i + 1) * g <= n * h * g) by (apply Z.mul_le_mono_nonneg_r; lia). lia.
    + apply Z.mul_le_mono_nonneg_r; lia.
  - destruct (Z_lt_le_dec (n * h) i) as [Hlt | Hge].
    + assert ((n * h + 1) * g <= i * g) by (apply Z.mul_le_mono_nonneg_r; lia). lia.
    + apply Z.mul_le_mono_nonneg_r; lia.
Qed.

Lemma digits2_pos_le (p : positive) (K : Z) :
  Z.pos p < 2 ^ K -> Z.pos (digits2_pos p) <= K.
Proof.
  intros Hlt. destruct (digits2_pos_bounds p) as [Dlo _].
  destruct (Z_le_gt_dec (Z.pos (digits2_pos p)) K) as [H | H]; [exact H |].
  assert (0 <= K).
  { destruct (Z_lt_le_dec K 0) as [Hn | Hn]; [| exact Hn].
    rewrite (Z.pow_neg_r 2 K Hn) in Hlt. lia. }
  assert (2 ^ K <= 2 ^ (Z.pos (digits2_pos p) - 1)) by (apply Z.pow_le_mono_r; lia).
  lia.
Qed.

Lemma digits2_pos_ge (p : positive) (K : Z) :
  2 ^ K <= Z.pos p -> K + 1 <= Z.pos (digits2_pos p).
Proof.
  intros Hle. destruct (digits2_pos_bounds p) as [_ Dhi].
  destruct (Z_le_gt_dec (K + 1) (Z.pos (digits2_pos p))) as [H | H]; [exact H |].
  assert (2 ^ Z.pos (digits2_pos p) <= 2 ^ K) by (apply Z.pow_le_mono_r; lia).
  lia.
Qed.

(** [now / 1000] on ints is the exact quotient rounded once. *)
Lemma truediv_1000_rounded (now : Z) :
  1 <= now < 2 ^ 41 ->
  exists q k, Snowflake.int_truediv now 1000 = Ok q /\ rounded 128 (now * 2 ^ 128) 1000 k q.
Proof.
  intros Hnow. destruct now as [| pn | pn]; [lia | | lia].
  unfold Snowflake.int_truediv. change (1000 =? 0) with false. cbv iota.
  cbn [Snowflake.int_operand]. unfold SFdiv, SFdiv_core_binary. cbn [Zdigits2 xorb].
  change (Z.pos (digits2_pos 1000)) with 10.
  set (d1 := Z.pos (digits2_pos pn)).
  destruct (digits2_pos_bounds pn) as [Dlo Dhi]. fold d1 in Dlo, Dhi.
  assert (Hd1 : 1 <= d1 <= 41).
  { split; [unfold d1; lia | apply digits2_pos_le; lia]. }
  replace (d1 + 0 - (10 + 0)) with (d1 - 10) by lia.
  rewrite (fexp_normal (d1 - 10)) by lia.
  change (0 - 0) with 0.
  rewrite (Z.min_l (d1 - 10 - 53) 0) by lia.
  replace (0 - (d1 - 10 - 53)) with (63 - d1) by lia.
  destruct (63 - d1) as [| ps | ps] eqn:Es; [lia | | lia].
  rewrite Z.shiftl_mul_pow2 by lia. rewrite <- Es.
  set (m' := Z.pos pn * 2 ^ (63 - d1)).
  assert (Hm' : 2 ^ 62 <= m' < 2 ^ 63).
  { unfold m'.
    assert (E1 : 2 ^ 62 = 2 ^ (d1 - 1) * 2 ^ (63 - d1)).
    { rewrite <- pow2_split by lia. f_equal. lia. }
    assert (E2 : 2 ^ 63 = 2 ^ d1 * 2 ^ (63 - d1)).
    { rewrite <- pow2_split by lia. f_equal. lia. }
    assert (Hp : 0 < 2 ^ (63 - d1)) by (apply Z.pow_pos_nonneg; lia).
    rewrite E1, E2. split; nia. }
  pose proof (Z_div_mod m' 1000 ltac:(lia)) as Hdm.
  destruct (Z.div_eucl m' 1000) as [qq r].
  destruct Hdm as [Hdm Hr].
  assert (Hqq : 2 ^ 52 <= qq < 2 ^ 54) by lia.
  destruct qq as [| pq | pq]; [lia | | lia].
  assert (Hdq : 53 <= Z.pos (digits2_pos pq) <= 54).
  { split; [apply (digits2_pos_ge pq 52); lia | apply digits2_pos_le; lia]. }
  assert (Hok : loc_ok m' 1000 (Z.pos pq)
                  (shr_r (shr_record_of_loc (Z.pos pq) (new_location 1000 r)))
                  (shr_s (shr_record_of_loc (Z.pos pq) (new_location 1000 r)))).
  { unfold new_location. change (Z.even 1000) with true. cbv iota.
    unfold new_location_even.
    destruct (Z.eqb_spec r 0) as [Hr0 | Hr0].
    - cbn [shr_record_of_loc shr_r shr_s]. unfold loc_ok. lia.
    - destruct (Z.compare_spec (2 * r) 1000) as [Hc | Hc | Hc];
        cbn [shr_record_of_loc shr_r shr_s]; unfold loc_ok; lia. }
  pose proof (binary_round_aux_rounded pq (d1 - 10 - 53) m' 1000 128
                (new_location 1000 r) ltac:(lia) Hok ltac:(lia) ltac:(lia)
                ltac:(lia) ltac:(lia)) as Hrd.
  replace (m' * 2 ^ (d1 - 10 - 53 + 128)) with (Z.pos pn * 2 ^ 128) in Hrd.
  - destruct Hrd as [m2 [e2 [Hf Hrest]]].
    rewrite Hf.
    exists (S754_finite false m2 e2), (Z.pos (digits2_pos pq) + (d1 - 10 - 53)).
    split; [reflexivity |].
    exists m2, e2. split; [reflexivity | exact Hrest].
  - unfold m'. replace 128 with ((63 - d1) + (d1 - 10 - 53 + 128)) at 1 by lia.
    rewrite (pow2_split (63 - d1) (d1 - 10 - 53 + 128)) by lia. ring.
Qed.

(** [q + Snowflake.EPOCH] is the exact sum rounded once. *)
Lemma add_epoch_rounded (mq : positive) (eq : Z) :
  2 ^ 52 <= Z.pos mq < 2 ^ 53 -> -128 <= eq <= -20 ->
  exists k,
    rounded 128 (scaled 128 mq eq + Snowflake.EPOCH * 2 ^ 128) 1 k
            (SFadd Snowflake.prec Snowflake.emax (S754_finite false mq eq) (Snowflake.float_of_int Snowflake.EPOCH)).
Proof.
  intros Hmq Heq.
  rewrite float_of_int_EPOCH. unfold SFadd. cbv zeta.
  set (ez := Z.min eq (-22)).
  assert (Hez : ez <= eq /\ ez <= -22 /\ eq - ez <= 2 /\ -128 <= ez) by (unfold ez; lia).
  destruct (shl_align_le mq eq ez ltac:(lia)) as [mq' [Hal1 Hmq']].
  destruct (shl_align_le 6882938427801600 (-22) ez ltac:(lia)) as [mE' [Hal2 HmE']].
  rewrite Hal1, Hal2. cbn [fst cond_Zopp].
  change (Z.pos mq' + Z.pos mE') with (Z.pos (mq' + mE')).
  cbn [binary_normalize].
  set (p := (mq' + mE')%positive).
  assert (Hp : Z.pos p = Z.pos mq * 2 ^ (eq - ez) + 6882938427801600 * 2 ^ (-22 - ez)).
  { unfold p. rewrite Pos2Z.inj_add, Hmq', HmE'. reflexivity. }
  assert (Ha : 1 <= 2 ^ (eq - ez) <= 4).
  { split.
    - apply (Z.pow_le_mono_r 2 0 (eq - ez)); lia.
    - apply (Z.pow_le_mono_r 2 (eq - ez) 2); lia. }
  assert (Hb : 0 < 2 ^ (-22 - ez)) by (apply Z.pow_pos_nonneg; lia).
  assert (E30 : 2 ^ (30 - ez) = 2 ^ 52 * 2 ^ (-22 - ez)).
  { rewrite <- pow2_split by lia. f_equal. lia. }
  assert (E34 : 2 ^ (34 - ez) = 2 ^ 56 * 2 ^ (-22 - ez)).
  { rewrite <- pow2_split by lia. f_equal. lia. }
  assert (Hb1 : 1 <= 2 ^ (-22 - ez)) by lia.
  assert (Hlo : 2 ^ (30 - ez) <= Z.pos p) by (rewrite E30, Hp; nia).
  assert (Hhi : Z.pos p < 2 ^ (34 - ez)) by (rewrite E34, Hp; nia).
  pose proof (digits2_pos_ge p (30 - ez) Hlo) as Hd1.
  pose proof (digits2_pos_le p (34 - ez) Hhi) as Hd2.
  exists (Z.pos (digits2_pos p) + ez).
  pose proof (binary_round_rounded p ez 128 ltac:(lia) ltac:(lia) ltac:(lia) ltac:(lia))
    as Hr.
  replace (scaled 128 mq eq + Snowflake.EPOCH * 2 ^ 128) with (Z.pos p * 2 ^ (ez + 128)).
  - exact Hr.
  - rewrite Hp. unfold scaled.
    replace (eq + 128) with ((eq - ez) + (ez + 128)) by lia.
    rewrite (pow2_split (eq - ez) (ez + 128)) by lia.
    assert (E : Snowflake.EPOCH * 2 ^ 128 = 6882938427801600 * 2 ^ (-22 - ez) * 2 ^ (ez + 128)).
    { rewrite <- Z.mul_assoc. rewrite <- pow2_split by lia.
      replace (-22 - ez + (ez + 128)) with 106 by lia. reflexivity. }
    rewrite E. ring.
Qed.

(** *** A clock reading, its timestamp and the time read back *)

Lemma pow2_lt_inv (a b : Z) : 0 <= b -> 2 ^ a < 2 ^ b -> a < b.
Proof.
  intros Hb Hlt. destruct (Z_lt_le_dec a b) as [H | H]; [exact H |].
  assert (2 ^ b <= 2 ^ a) by (apply Z.pow_le_mono_r; lia). lia.
Qed.

Lemma scaled_pos (m : positive) (e : Z) : 0 < scaled 128 m e -> 0 <= e + 128.
Proof.
  unfold scaled. intros H. destruct (Z_lt_le_dec (e + 128) 0) as [Hn | Hn]; [| exact Hn].
  rewrite (Z.pow_neg_r 2 _ Hn) in H. lia.
Qed.

Lemma scaled_exp_lower (m : positive) (e A : Z) :
  Z.pos m < 2 ^ 53 -> 53 <= A -> 2 ^ A <= scaled 128 m e -> A - 53 < e + 128.
Proof.
  intros Hm HA Hle.
  assert (Hpos : 0 < scaled 128 m e).
  { assert (0 < 2 ^ A) by (apply Z.pow_pos_nonneg; lia). lia. }
  pose proof (scaled_pos m e Hpos) as He.
  destruct (Z_lt_le_dec (A - 53) (e + 128)) as [H | H]; [exact H |].
  assert (Hp : 2 ^ (e + 128) <= 2 ^ (A - 53)) by (apply Z.pow_le_mono_r; lia).
  assert (E : 2 ^ A = 2 ^ 53 * 2 ^ (A - 53)).
  { rewrite <- pow2_split by lia. f_equal. lia. }
  assert (Hq : 0 < 2 ^ (e + 128)) by (apply Z.pow_pos_nonneg; lia).
  unfold scaled in Hle. nia.
Qed.

Lemma scaled_exp_upper (m : positive) (e B : Z) :
  2 ^ 52 <= Z.pos m -> 52 <= B -> scaled 128 m e < 2 ^ B -> e + 128 < B - 52.
Proof.
  intros Hm HB Hlt.
  destruct (Z_lt_le_dec (e + 128) (B - 52)) as [H | H]; [exact H |].
  assert (Hp : 2 ^ (B - 52) <= 2 ^ (e + 128)) by (apply Z.pow_le_mono_r; lia).
  assert (E : 2 ^ B = 2 ^ 52 * 2 ^ (B - 52)).
  { rewrite <- pow2_split by lia. f_equal. lia. }
  assert (Hq : 0 < 2 ^ (B - 52)) by (apply Z.pow_pos_nonneg; lia).
  unfold scaled in Hlt. nia.
Qed.

Lemma scaled_multiple (m : positive) (e g : Z) :
  0 <= g -> g <= e + 128 -> exists j, scaled 128 m e = j * 2 ^ g.
Proof.
  intros Hg Hle. exists (Z.pos m * 2 ^ (e + 128 - g)). unfold scaled.
  replace (e + 128) with ((e + 128 - g) + g) at 1 by lia.
  rewrite (pow2_split (e + 128 - g) g) by lia. ring.
Qed.

(** The timestamp of a clock reading [t], and the time read back from it,
    on the scale of [2^-128] seconds. *)
Lemma roundtrip_scaled (mt : positive) (et : Z) :
  et = -22 \/ et = -21 ->
  2 ^ 52 <= Z.pos mt < 2 ^ 53 ->
  (1000 * Snowflake.EPOCH + 1) * 2 ^ 128 <= 1000 * scaled 128 mt et ->
  1000 * scaled 128 mt et < (1000 * Snowflake.EPOCH + 2 ^ 41) * 2 ^ 128 ->
  exists now q mtm etm,
    Snowflake.now_ms (S754_finite false mt et) = Ok now
    /\ 1 <= now < 2 ^ 41
    /\ now * 2 ^ 128 <= 1000 * (scaled 128 mt et - Snowflake.EPOCH * 2 ^ 128) + 2 ^ 115
    /\ 1000 * (scaled 128 mt et - Snowflake.EPOCH * 2 ^ 128) < (now + 1) * 2 ^ 128
    /\ Snowflake.int_truediv now 1000 = Ok q
    /\ SFadd Snowflake.prec Snowflake.emax q (Snowflake.float_of_int Snowflake.EPOCH) = S754_finite false mtm etm
    /\ -128 <= etm
    /\ 1000 * (scaled 128 mt et - scaled 128 mtm etm) < 2 ^ 128
    /\ 1000000 * (scaled 128 mtm etm - scaled 128 mt et) < 2 ^ 128.
Proof.
  intros Het Hmt Hlo Hhi.
  set (T := scaled 128 mt et) in *.
  (* t - Snowflake.EPOCH *)
  destruct (sub_epoch_exact mt et Het Hmt ltac:(fold T; lia)) as [md [ed [Hsub [HVd Hmd]]]].
  fold T in HVd.
  set (D := scaled 128 md ed) in *.
  assert (HTmul : exists j, T = j * 2 ^ 106).
  { apply scaled_multiple; lia. }
  assert (HDmul : exists j, D = j * 2 ^ 106).
  { destruct HTmul as [j Hj]. exists (j - Snowflake.EPOCH * 2 ^ 22). rewrite HVd, Hj.
    unfold Snowflake.EPOCH. lia. }
  assert (Hed : -85 <= ed <= 900).
  { pose proof (scaled_exp_lower md ed 118 ltac:(lia) ltac:(lia) ltac:(fold D; lia)).
    pose proof (scaled_exp_upper md ed 160 ltac:(lia) ltac:(lia) ltac:(fold D; lia)).
    lia. }
  (* ... * 1000 *)
  destruct (mul_1000_rounded md ed Hmd Hed) as [kp Hp].
  fold D in Hp. unfold Snowflake.now_ms. rewrite Hsub.
  destruct (rounded_shape _ _ _ _ _ Hp) as [mp [ep [Hpf [Hmp Hep]]]].
  rewrite Hpf in *.
  assert (Hkp : 1 <= kp <= 41).
  { destruct Hp as [m2 [e2 [_ [_ [_ [Hm1 Hm2]]]]]].
    rewrite Z.mul_1_r in Hm1, Hm2.
    assert (0 <= kp + 128).
    { destruct (Z_lt_le_dec (kp + 128) 0) as [Hn | Hn]; [| exact Hn].
      rewrite (Z.pow_neg_r 2 _ Hn) in Hm2. lia. }
    assert (128 < kp + 128) by (apply pow2_lt_inv; lia).
    assert (kp - 1 + 128 < 169) by (apply pow2_lt_inv; lia).
    lia. }
  (* int(...) *)
  destruct (py_int_floor mp ep ltac:(lia)) as [now [Hint Hfloor]].
  set (P := scaled 128 mp ep) in *.
  assert (Hperr : 2 * Z.abs (P - 1000 * D) <= 2 ^ 116).
  { destruct Hp as [m2 [e2 [Hf [_ [Herr _]]]]].
    injection Hf as E1 E2. subst m2 e2. fold P in Herr.
    rewrite !Z.mul_1_r in Herr.
    assert (2 ^ (kp - 53 + 128) <= 2 ^ 116) by (apply Z.pow_le_mono_r; lia).
    lia. }
  assert (Hkeep : forall n, (n * 2 ^ 128 <= 1000 * D -> n * 2 ^ 128 <= P)
                            /\ (1000 * D <= n * 2 ^ 128 -> P <= n * 2 ^ 128)).
  { intros n. apply (rounded_keeps_integers (1000 * D) kp mp ep n Hp). lia. }
  assert (Hnow1 : 1 <= now).
  { destruct (Hkeep 1) as [H1 _]. specialize (H1 ltac:(lia)). nia. }
  assert (Hnext : 1000 * D < (now + 1) * 2 ^ 128).
  { destruct (Z_lt_le_dec (1000 * D) ((now + 1) * 2 ^ 128)) as [H | H]; [exact H |].
    destruct (Hkeep (now + 1)) as [H1 _]. specialize (H1 H). lia. }
  assert (Hnow2 : now < 2 ^ 41).
  { destruct (Hkeep (2 ^ 41)) as [_ H2]. specialize (H2 ltac:(lia)).
    destruct (Z_lt_le_dec now (2 ^ 41)) as [H | H]; [exact H |].
    exfalso.
    assert (HP : P = 2 ^ 41 * 2 ^ 128) by nia.
    assert (HDhi : 1000 * D < 2 ^ 41 * 2 ^ 128) by lia.
    destruct HDmul as [j Hj]. rewrite Hj in Hperr, HDhi. rewrite HP in Hperr. lia. }
  (* now / 1000 *)
  destruct (truediv_1000_rounded now ltac:(lia)) as [q [kq [Hdiv Hq]]].
  destruct (rounded_shape _ _ _ _ _ Hq) as [mq [eq [Hqf [Hmq Heq]]]].
  subst q.
  set (Vq := scaled 128 mq eq) in *.
  assert (Hqmag : 2 ^ (kq - 1 + 128) * 1000 <= now * 2 ^ 128 < 2 ^ (kq + 128) * 1000).
  { destruct Hq as [m2 [e2 [_ [_ [_ Hm]]]]]. exact Hm. }
  assert (Hkq : -9 <= kq <= 32).
  { assert (0 <= kq + 128).
    { destruct (Z_lt_le_dec (kq + 128) 0) as [Hn | Hn]; [| exact Hn].
      rewrite (Z.pow_neg_r 2 _ Hn) in Hqmag. nia. }
    assert (118 < kq + 128).
    { apply pow2_lt_inv; [lia |].
      assert (2 ^ 118 * 1000 < 2 ^ 128) by lia. nia. }
    assert (kq - 1 + 128 < 160).
    { apply pow2_lt_inv; [lia |].
      assert (now * 2 ^ 128 < 2 ^ 160 * 1000) by nia. nia. }
    lia. }
  assert (HVq : 2 ^ (kq + 127) <= Vq).
  { unfold Vq, scaled.
    destruct Hq as [m2 [e2 [Hf [Hst _]]]]. injection Hf as E1 E2. subst m2 e2.
    destruct Hst as [[He Hm] | [He Hm]]; subst eq.
    - replace (kq - 53 + 128) with (kq + 75) by lia.
      replace (kq + 127) with (52 + (kq + 75)) by lia.
      rewrite (pow2_split 52 (kq + 75)) by lia.
      apply Z.mul_le_mono_nonneg_r; [apply Z.pow_nonneg; lia | lia].
    - replace (kq - 52 + 128) with (kq + 76) by lia.
      replace (kq + 127) with (51 + (kq + 76)) by lia.
      rewrite (pow2_split 51 (kq + 76)) by lia. rewrite Hm.
      apply Z.mul_le_mono_nonneg_r; [apply Z.pow_nonneg; lia | lia]. }
  assert (Hqerr : 2 * Z.abs (Vq * 1000 - now * 2 ^ 128) <= 2 ^ (kq + 75) * 1000).
  { destruct Hq as [m2 [e2 [Hf [_ [Herr _]]]]].
    injection Hf as E1 E2. subst m2 e2. fold Vq in Herr.
    replace (kq - 53 + 128) with (kq + 75) in Herr by lia. exact Herr. }
  (* ... + Snowflake.EPOCH *)
  destruct (add_epoch_rounded mq eq Hmq ltac:(lia)) as [ktm Htm].
  fold Vq in Htm.
  destruct (rounded_shape _ _ _ _ _ Htm) as [mtm [etm [Htmf [Hmtm Hetm]]]].
  rewrite Htmf in Htm.
  set (Vtm := scaled 128 mtm etm) in *.
  assert (Hg107 : 2 ^ (kq + 75) <= 2 ^ 107) by (apply Z.pow_le_mono_r; lia).
  assert (Hgpos : 0 < 2 ^ (kq + 75)) by (apply Z.pow_pos_nonneg; lia).
  assert (Htmmag : 2 ^ (ktm - 1 + 128) <= Vq + Snowflake.EPOCH * 2 ^ 128 < 2 ^ (ktm + 128)).
  { destruct Htm as [m2 [e2 [_ [_ [_ Hm]]]]]. rewrite !Z.mul_1_r in Hm. exact Hm. }
  assert (HVqhi : 1000 * Vq < 2 ^ 41 * 2 ^ 128 + 500 * 2 ^ 107) by lia.
  assert (Hktm : ktm = 31 \/ ktm = 32).
  { assert (0 <= ktm + 128).
    { destruct (Z_lt_le_dec (ktm + 128) 0) as [Hn | Hn]; [| exact Hn].
      rewrite (Z.pow_neg_r 2 _ Hn) in Htmmag. unfold Snowflake.EPOCH in Htmmag. lia. }
    assert (158 < ktm + 128) by (apply pow2_lt_inv; [lia | unfold Snowflake.EPOCH in Htmmag; lia]).
    assert (ktm - 1 + 128 < 160) by (apply pow2_lt_inv; [lia | unfold Snowflake.EPOCH in Htmmag; lia]).
    lia. }
  assert (Htmerr : 2 * Z.abs (Vtm - (Vq + Snowflake.EPOCH * 2 ^ 128)) <= 2 ^ (ktm + 75)).
  { destruct Htm as [m2 [e2 [Hf [_ [Herr _]]]]].
    injection Hf as E1 E2. subst m2 e2. fold Vtm in Herr.
    rewrite !Z.mul_1_r in Herr.
    replace (ktm - 53 + 128) with (ktm + 75) in Herr by lia. exact Herr. }
  assert (HVtmmul : exists i, Vtm = i * 2 ^ (ktm + 75)).
  { apply scaled_multiple; lia. }
  assert (HVtmlo : 2 ^ (ktm + 127) <= Vtm).
  { unfold Vtm, scaled.
    replace (ktm + 127) with (52 + (ktm + 75)) by lia.
    rewrite (pow2_split 52 (ktm + 75)) by lia.
    assert (2 ^ (ktm + 75) <= 2 ^ (etm + 128)) by (apply Z.pow_le_mono_r; lia).
    assert (0 < 2 ^ (ktm + 75)) by (apply Z.pow_pos_nonneg; lia).
    apply Z.le_trans with (2 ^ 52 * 2 ^ (etm + 128)).
    - apply Z.mul_le_mono_nonneg_l; lia.
    - apply Z.mul_le_mono_nonneg_r; lia. }
  exists now, (S754_finite false mq eq), mtm, etm.
  assert (Hup : now * 2 ^ 128 <= 1000 * D + 2 ^ 115) by lia.
  split; [exact Hint |]. split; [lia |].
  split; [rewrite <- HVd; exact Hup |]. split; [rewrite <- HVd; exact Hnext |].
  split; [exact Hdiv |].
  split; [exact Htmf |]. split; [lia |].
  split.
  - (* not more than a millisecond early *)
    destruct (Z_lt_le_dec (1000 * (T - Vtm)) (2 ^ 128)) as [Hok | Hbad]; [exact Hok |].
    exfalso.
    destruct HVtmmul as [i Hi].
    destruct Hktm as [Hk | Hk]; subst ktm.
    + change (2 ^ (31 + 75)) with (2 ^ 106) in *.
      change (2 ^ (31 + 128)) with (2 ^ 159) in *.
      destruct HTmul as [j Hj].
      assert (Hkq29 : kq <= 29).
      { assert (kq + 127 < 157).
        { apply pow2_lt_inv; [lia |]. unfold Snowflake.EPOCH in Htmmag. lia. }
        lia. }
      assert (Hg104 : 2 ^ (kq + 75) <= 2 ^ 104) by (apply Z.pow_le_mono_r; lia).
      rewrite Hi, Hj in *. unfold Snowflake.EPOCH in *. lia.
    + change (2 ^ (32 + 75)) with (2 ^ 107) in *.
      change (2 ^ (32 + 128)) with (2 ^ 160) in *.
      change (2 ^ (32 + 127)) with (2 ^ 159) in *.
      assert (Het21 : et = -21).
      { destruct Het as [H | H]; [| exact H]. exfalso. subst et.
        unfold T, scaled in Hbad. change (-22 + 128) with 106 in Hbad. lia. }
      assert (HTmul7 : exists j, T = j * 2 ^ 107).
      { apply scaled_multiple; lia. }
      destruct HTmul7 as [j Hj].
      destruct (Z_le_gt_dec kq 31) as [Hk31 | Hk32].
      * assert (Hg106 : 2 ^ (kq + 75) <= 2 ^ 106) by (apply Z.pow_le_mono_r; lia).
        rewrite Hi, Hj in *. unfold Snowflake.EPOCH in *. lia.
      * assert (kq = 32) by lia. subst kq.
        assert (HVqmul : exists h, Vq = h * 2 ^ 107).
        { apply scaled_multiple; lia. }
        destruct HVqmul as [h Hh].
        assert (Hex : Vtm = Vq + Snowflake.EPOCH * 2 ^ 128).
        { destruct (rounded_exact 128 (Vq + Snowflake.EPOCH * 2 ^ 128) 32 _
                      (h + Snowflake.EPOCH * 2 ^ 21) ltac:(lia) Htm) as [m2 [e2 [Hf [Hv _]]]].
          - rewrite Hh. change (2 ^ (32 - 53 + 128)) with (2 ^ 107). unfold Snowflake.EPOCH. lia.
          - injection Hf as E1 E2. subst m2 e2. exact Hv. }
        change (2 ^ (32 + 75)) with (2 ^ 107) in *.
        rewrite Hj in *. unfold Snowflake.EPOCH in *. lia.
  - (* and less than a microsecond late *)
    assert (Hg : 2 ^ (ktm + 75) <= 2 ^ 107) by (apply Z.pow_le_mono_r; lia).
    unfold Snowflake.EPOCH in *. lia.
Qed.

(** ** From the scaled integers back to rationals *)

Lemma F2Q_scaled (m : positive) (e : Z) :
  -128 <= e ->
  (Snowflake.F2Q (S754_finite false m e) * inject_Z (2 ^ 128) == inject_Z (scaled 128 m e))%Q.
Proof.
  intros He. unfold Snowflake.F2Q, scaled. cbn [cond_Zopp].
  rewrite inject_Z_mult.
  rewrite (Zpower_Qpower 2 (e + 128)) by lia.
  rewrite (Zpower_Qpower 2 128) by lia.
  change (inject_Z 2) with (2 # 1).
  rewrite (Qpower_plus (2 # 1) e 128) by (intros H; discriminate H).
  ring.
Qed.

Lemma Qpow2_pos (e : Z) : (0 < (2 # 1) ^ e)%Q.
Proof. apply Qpower_0_lt. reflexivity. Qed.

(** A binary64 clock reading between the epoch and [2^41] milliseconds
    after it has exponent -22 or -21. *)
Lemma clock_shape (t : Snowflake.float) :
  valid_binary Snowflake.prec Snowflake.emax t = true ->
  (inject_Z Snowflake.EPOCH + (1 # 1000) <= Snowflake.F2Q t)%Q ->
  (Snowflake.F2Q t < inject_Z Snowflake.EPOCH + inject_Z (2 ^ 41) / inject_Z 1000)%Q ->
  exists mt et,
    t = S754_finite false mt et
    /\ (et = -22 \/ et = -21)
    /\ 2 ^ 52 <= Z.pos mt < 2 ^ 53
    /\ (1000 * Snowflake.EPOCH + 1) * 2 ^ 128 <= 1000 * scaled 128 mt et
    /\ 1000 * scaled 128 mt et < (1000 * Snowflake.EPOCH + 2 ^ 41) * 2 ^ 128.
Proof.
  intros Hvalid Hlo Hhi.
  unfold Snowflake.EPOCH in Hlo, Hhi.
  change (inject_Z 1641020400) with (1641020400 # 1) in Hlo, Hhi.
  change (inject_Z (2 ^ 41) / inject_Z 1000)%Q with (2199023255552 # 1000) in Hhi.
  destruct t as [s | s | | s m e]; cbn [Snowflake.F2Q] in Hlo, Hhi; try lra.
  cbn [valid_binary] in Hvalid. unfold bounded, canonical_mantissa in Hvalid.
  apply andb_true_iff in Hvalid. destruct Hvalid as [Hcan _].
  apply Z.eqb_eq in Hcan. unfold fexp, SpecFloat.emin, Snowflake.prec, Snowflake.emax in Hcan.
  destruct (digits2_pos_bounds m) as [Dlo Dhi].
  set (d := Z.pos (digits2_pos m)) in *.
  assert (Hd : d <= 53) by lia.
  assert (Hm53 : Z.pos m < 2 ^ 53).
  { assert (2 ^ d <= 2 ^ 53) by (apply Z.pow_le_mono_r; lia). lia. }
  pose proof (Qpow2_pos e) as Hu.
  set (u := ((2 # 1) ^ e)%Q) in *.
  assert (Hx0 : (0 < inject_Z (Z.pos m))%Q) by reflexivity.
  assert (Hx53 : (inject_Z (Z.pos m) < 9007199254740992 # 1)%Q).
  { change (9007199254740992 # 1) with (inject_Z (2 ^ 53)). rewrite <- Zlt_Qlt. exact Hm53. }
  destruct s.
  - exfalso. cbn [cond_Zopp] in Hlo.
    change (- Z.pos m) with (Z.opp (Z.pos m)) in Hlo. rewrite inject_Z_opp in Hlo.
    pose proof (Qmult_lt_0_compat _ _ Hx0 Hu) as Hpos.
    set (x := inject_Z (Z.pos m)) in *. lra.
  - cbn [cond_Zopp] in Hlo, Hhi.
    set (x := inject_Z (Z.pos m)) in *.
    assert (He : e = -22 \/ e = -21).
    { destruct (Z_le_gt_dec e (-23)) as [Hsmall | Hn23].
      - exfalso.
        assert (Hu23 : (u <= 1 # 8388608)%Q).
        { change (1 # 8388608) with ((2 # 1) ^ (-23))%Q.
          apply Qpower_le_compat_l; [exact Hsmall | discriminate]. }
        pose proof (Qmult_le_compat_r u (1 # 8388608) x Hu23 ltac:(lra)) as H.
        lra.
      - destruct (Z_le_gt_dec (-20) e) as [Hbig | Hn20]; [| lia].
        exfalso.
        assert (Hd53 : d = 53) by lia.
        assert (Hx52 : (4503599627370496 # 1 <= x)%Q).
        { change (4503599627370496 # 1) with (inject_Z (2 ^ 52)). unfold x.
          rewrite <- Zle_Qle. rewrite Hd53 in Dlo. exact Dlo. }
        assert (Hu20 : (1 # 1048576 <= u)%Q).
        { change (1 # 1048576) with ((2 # 1) ^ (-20))%Q.
          apply Qpower_le_compat_l; [exact Hbig | discriminate]. }
        pose proof (Qmult_le_compat_r (1 # 1048576) u x Hu20 ltac:(lra)) as H.
        lra. }
    assert (Hd53 : d = 53) by lia.
    exists m, e. split; [reflexivity |]. split; [exact He |].
    split; [rewrite Hd53 in Dlo; lia |].
    pose proof (F2Q_scaled m e ltac:(lia)) as Hsc.
    cbn [Snowflake.F2Q cond_Zopp] in Hsc. fold x in Hsc. fold u in Hsc.
    change (inject_Z (2 ^ 128)) with (340282366920938463463374607431768211456 # 1) in Hsc.
    set (V := scaled 128 m e) in *.
    split.
    + unfold Snowflake.EPOCH. rewrite Zle_Qle. rewrite (inject_Z_mult 1000 V).
      change (inject_Z ((1000 * 1641020400 + 1) * 2 ^ 128))
        with (558410305877885488054973322100986617678241470611456 # 1).
      change (inject_Z 1000) with (1000 # 1).
      set (v := inject_Z V) in *. set (xu := (x * u)%Q) in *. lra.
    + unfold Snowflake.EPOCH. rewrite Zlt_Qlt. rewrite (inject_Z_mult 1000 V).
      change (inject_Z ((1000 * 1641020400 + 2 ^ 41) * 2 ^ 128))
        with (1306699144190967499808339017988260149134647164403712 # 1).
      change (inject_Z 1000) with (1000 # 1).
      set (v := inject_Z V) in *. set (xu := (x * u)%Q) in *. lra.
Qed.

(** *** The packed id *)

Lemma lor_shiftl_add (a n b : Z) :
  0 <= n -> 0 <= b < 2 ^ n -> Z.lor (Z.shiftl a n) b = a * 2 ^ n + b.
Proof.
  intros Hn Hb.
  rewrite Z.shiftl_mul_pow2 by assumption.
  assert (Hland : Z.land (a * 2 ^ n) b = 0).
  { apply Z.bits_inj'. intros k Hk.
    rewrite Z.land_spec, Z.bits_0.
    destruct (Z.ltb_spec k n) as [Hlt | Hge].
    - rewrite Z.mul_pow2_bits_low by assumption. reflexivity.
    - rewrite <- (Z.mod_small b (2 ^ n)) by assumption.
      rewrite Z.mod_pow2_bits_high by lia.
      apply andb_false_r. }
  pose proof (Z.add_lor_land (a * 2 ^ n) b) as Hsum.
  rewrite Hland in Hsum. lia.
Qed.

Lemma pack_sum (now r y : Z) :
  0 <= r < 2 ^ 19 -> 0 <= y < 8 ->
  Snowflake.pack now r y = now * 2 ^ 22 + r * 8 + y.
Proof.
  intros Hr Hy. unfold Snowflake.pack.
  rewrite (Z.shiftl_mul_pow2 r 3) by lia.
  rewrite lor_shiftl_add by lia.
  replace (now * 2 ^ 22 + r * 2 ^ 3) with ((now * 2 ^ 19 + r) * 2 ^ 3) by lia.
  rewrite <- (Z.shiftl_mul_pow2 _ 3) by lia.
  rewrite lor_shiftl_add by lia. lia.
Qed.

Lemma pack_fields (now r y : Z) :
  0 <= now -> 0 <= r < 2 ^ 19 -> 0 <= y <= 7 ->
  Z.shiftr (Snowflake.pack now r y) 22 = now
  /\ Z.land (Snowflake.pack now r y) 7 = y.
Proof.
  intros Hn Hr Hy. rewrite pack_sum by lia. split.
  - rewrite Z.shiftr_div_pow2 by lia.
    replace (now * 2 ^ 22 + r * 8 + y) with ((r * 8 + y) + now * 2 ^ 22) by lia.
    rewrite Z.div_add by lia. rewrite Z.div_small by lia. lia.
  - change 7 with (Z.ones 3). rewrite Z.land_ones by lia.
    replace (now * 2 ^ 22 + r * 8 + y) with (y + (now * 2 ^ 19 + r) * 2 ^ 3) by lia.
    rewrite Z.mod_add by lia. apply Z.mod_small. lia.
Qed.

(** C8 (as the code has it): for a type tag [y] in 0..7, a 19-bit random
    draw, and a clock reading (a binary64 float) at least one millisecond
    and less than 2^41 milliseconds after the epoch, [generate] returns
    [(timestamp << 22) | (random << 3) | y] with the timestamp the code
    computes in floats, which fits in 63 bits; [get_type] returns exactly [y];
    [get_time] returns a float less than a millisecond before the clock
    reading and less than a microsecond after it; and both [get_type] and
    [get_time] raise [ValueError] on every id below [2^22]. *)
Theorem snowflake_roundtrip (t : Snowflake.float) (rand_seq y : Z) :
  0 <= y <= 7 ->
  0 <= rand_seq < 2 ^ 19 ->
  valid_binary Snowflake.prec Snowflake.emax t = true ->
  (inject_Z Snowflake.EPOCH + (1 # 1000) <= Snowflake.F2Q t)%Q ->
  (Snowflake.F2Q t < inject_Z Snowflake.EPOCH + inject_Z (2 ^ 41) / inject_Z 1000)%Q ->
  exists now id,
    Snowflake.now_ms t = Ok now
    /\ Snowflake.generate t rand_seq y = Ok id
    /\ id = Z.lor (Z.lor (Z.shiftl now 22) (Z.shiftl rand_seq 3)) y
    /\ 0 <= id < 2 ^ 63
    /\ Snowflake.get_type id = Ok y
    /\ (exists tm, Snowflake.get_time id = Ok tm
          /\ (Snowflake.F2Q t - (1 # 1000) < Snowflake.F2Q tm
              /\ Snowflake.F2Q tm < Snowflake.F2Q t + (1 # 1000000))%Q)
    /\ (forall bad, bad < 2 ^ 22 ->
          Snowflake.get_type bad = Raise (ValueError "Not a valid Snowflake ID" None)
          /\ Snowflake.get_time bad = Raise (ValueError "Not a valid Snowflake ID" None)).
Proof.
  intros Hy Hr Hvalid Hlo Hhi.
  destruct (clock_shape t Hvalid Hlo Hhi) as [mt [et [Ht [Het [Hmt [Hzlo Hzhi]]]]]].
  subst t.
  destruct (roundtrip_scaled mt et Het Hmt Hzlo Hzhi)
    as [now [q [mtm [etm [Hnow [Hrange [_ [_ [Hdiv [Hadd [Hetm [Hearly Hlate]]]]]]]]]]]].
  exists now, (Snowflake.pack now rand_seq y).
  destruct (pack_fields now rand_seq y ltac:(lia) Hr Hy) as [Hshr Hland].
  pose proof (pack_sum now rand_seq y Hr ltac:(lia)) as Hsum.
  assert (Hge : (Snowflake.pack now rand_seq y <? Z.shiftl 1 22) = false).
  { apply Z.ltb_ge. change (Z.shiftl 1 22) with (2 ^ 22). lia. }
  split; [exact Hnow |].
  split; [unfold Snowflake.generate; rewrite Hnow; reflexivity |].
  split; [reflexivity |].
  split; [lia |].
  split; [unfold Snowflake.get_type; rewrite Hge, Hland; reflexivity |].
  split.
  - exists (S754_finite false mtm etm). split.
    + unfold Snowflake.get_time. rewrite Hge, Hshr, Hdiv, Hadd. reflexivity.
    + pose proof (F2Q_scaled mt et ltac:(lia)) as Ea.
      pose proof (F2Q_scaled mtm etm Hetm) as Eb.
      set (a := Snowflake.F2Q (S754_finite false mt et)) in *.
      set (b := Snowflake.F2Q (S754_finite false mtm etm)) in *.
      unfold Z.sub in Hearly, Hlate.
      rewrite Zlt_Qlt in Hearly, Hlate.
      rewrite inject_Z_mult, inject_Z_plus, inject_Z_opp in Hearly, Hlate.
      change (inject_Z (2 ^ 128)) with (340282366920938463463374607431768211456 # 1) in *.
      change (inject_Z 1000) with (1000 # 1) in Hearly.
      change (inject_Z 1000000) with (1000000 # 1) in Hlate.
      set (va := inject_Z (scaled 128 mt et)) in *.
      set (vb := inject_Z (scaled 128 mtm etm)) in *.
      split; lra.
  - intros bad Hbad.
    unfold Snowflake.get_type, Snowflake.get_time.
    assert (Hlt : (bad <? Z.shiftl 1 22) = true).
    { apply Z.ltb_lt. change (Z.shiftl 1 22) with (2 ^ 22). exact Hbad. }
    rewrite Hlt. split; reflexivity.
Qed.

Lemma snowflake_roundtrip_witness :
  exists now id,
    Snowflake.now_ms (S754_finite false 7512084028229419 (-22)) = Ok now
    /\ Snowflake.generate (S754_finite false 7512084028229419 (-22)) 12345 4 = Ok id
    /\ id = Z.lor (Z.lor (Z.shiftl now 22) (Z.shiftl 12345 3)) 4
    /\ 0 <= id < 2 ^ 63
    /\ Snowflake.get_type id = Ok 4
    /\ (exists tm, Snowflake.get_time id = Ok tm
          /\ (Snowflake.F2Q (S754_finite false 7512084028229419 (-22)) - (1 # 1000)
              < Snowflake.F2Q tm
              /\ Snowflake.F2Q tm
                 < Snowflake.F2Q (S754_finite false 7512084028229419 (-22))
                   + (1 # 1000000))%Q)
    /\ (forall bad, bad < 2 ^ 22 ->
          Snowflake.get_type bad = Raise (ValueError "Not a valid Snowflake ID" None)
          /\ Snowflake.get_time bad = Raise (ValueError "Not a valid Snowflake ID" None)).
Proof.
  apply (snowflake_roundtrip (S754_finite false 7512084028229419 (-22)) 12345 4).
  - lia.
  - lia.
  - vm_compute. reflexivity.
  - vm_compute. discriminate.
  - vm_compute. reflexivity.
Defined.

(** The claim of C8 fails at both ends of "every instant after the epoch":
    an id generated 2^41 milliseconds or more after the epoch does not fit
    in 63 bits, and an id generated within the first millisecond is below
    [2^22], so that [get_type] raises instead of returning the tag. *)
Lemma snowflake_out_of_range_instants :
  let late := S754_finite false 8053155233267712 (-21) in
  let early := S754_finite false 6882938427803648 (-22) in
  valid_binary Snowflake.prec Snowflake.emax late = true
  /\ (inject_Z Snowflake.EPOCH < Snowflake.F2Q late)%Q
  /\ (exists id, Snowflake.generate late 0 0 = Ok id /\ ~ (id < 2 ^ 63))
  /\ valid_binary Snowflake.prec Snowflake.emax early = true
  /\ (inject_Z Snowflake.EPOCH < Snowflake.F2Q early)%Q
  /\ exists id, Snowflake.generate early 0 5 = Ok id
                /\ Snowflake.get_type id
                   = Raise (ValueError "Not a valid Snowflake ID" None).
Proof.
  split; [vm_compute; reflexivity |].
  split; [vm_compute; reflexivity |].
  split; [eexists; split; [vm_compute; reflexivity | vm_compute; intros H; discriminate H] |].
  split; [vm_compute; reflexivity |].
  split; [vm_compute; reflexivity |].
  exists 5. split; vm_compute; reflexivity.
Qed.

(** ** Follower lists *)

Lemma get_follower_ids_all_equal (identity_pk : Z) (db : DB) :
  forall x, In x (Takahe.get_follower_ids identity_pk db) -> x = identity_pk.
Proof.
  intros x Hx. unfold Takahe.get_follower_ids in Hx.
  apply in_map_iff in Hx. destruct Hx as [f [Hf Hin]].
  apply filter_In in Hin. destruct Hin as [_ Hcond].
  apply andb_true_iff in Hcond. destruct Hcond as [Ht _].
  apply Z.eqb_eq in Ht. congruence.
Qed.

(** C1 (the code departs from it): with bob (2) an accepted follower of
    alice (1), [get_follower_ids 1] is expected to be the source ids of the
    accepted Follow rows whose target is 1, that is [[2]]; the method selects
    the [target] column and returns [[1]]. *)
Theorem get_follower_ids_lists_the_target :
  Takahe.get_follower_ids 1 bob_follows_alice = [1]
  /\ map follow_source_id
       (filter (fun f => (follow_target_id f =? 1)
                         && (follow_state f =? "accepted")%string)
               (follows bob_follows_alice)) = [2].
Proof. split; reflexivity. Qed.

(** ** Block.maybe_get *)

(** C9 (the code departs from it): with [require_active=True] the filter
    names the keyword [status], which is no field of [Block]; building the
    filter raises [FieldError] on every database and for every source, target
    and mute flag, so the method neither returns the block nor [None]. *)
Theorem maybe_get_require_active_raises
    (source target : Identity) (mute : bool) (db : DB) :
  maybe_get source target mute true db = (db, Raise (FieldError "status")).
Proof. reflexivity. Qed.

(** ** Generic facts on query sets *)

Lemma filter_none {R} (f : R -> bool) (l : list R) :
  (forall x, In x l -> f x = false) -> filter f l = [].
Proof.
  induction l as [| a l IH]; intros H; simpl.
  - reflexivity.
  - rewrite (H a) by (left; reflexivity).
    apply IH. intros x Hx. apply H. right. exact Hx.
Qed.

(** ** Operations on a post that does not exist *)

Lemma find_post_missing (db : DB) (post_pk : Z) :
  (forall p, In p (posts db) -> post_id p <> post_pk) ->
  Takahe.find_post post_pk db = (db, Ok None).
Proof.
  intros Hmiss. unfold Takahe.find_post, gets.
  rewrite filter_none; [reflexivity |].
  intros p Hp. apply Z.eqb_neq. apply Hmiss. exact Hp.
Qed.

(** C10: when [post_pk] matches no stored Post, [interact_post],
    [uninteract_post], [get_user_interaction] and [get_post_stats] leave the
    database as it was and return None (the empty dict for
    [get_post_stats]); none of them raises. *)
Theorem missing_post_is_a_no_op
    (db : DB) (new_id post_pk identity_pk : Z) (type : string) :
  (forall p, In p (posts db) -> post_id p <> post_pk) ->
  Takahe.interact_post new_id post_pk identity_pk type db = (db, Ok None)
  /\ Takahe.uninteract_post post_pk identity_pk type db = (db, Ok tt)
  /\ Takahe.get_user_interaction post_pk identity_pk type db = (db, Ok None)
  /\ Takahe.get_post_stats post_pk db = (db, Ok []).
Proof.
  intros Hmiss. pose proof (find_post_missing db post_pk Hmiss) as Hfind.
  unfold Takahe.interact_post, Takahe.uninteract_post,
    Takahe.get_user_interaction, Takahe.get_post_stats, bind.
  rewrite Hfind. repeat split; reflexivity.
Qed.

Lemma missing_post_is_a_no_op_witness :
  Takahe.interact_post 900 7 2 "like" bob_follows_alice = (bob_follows_alice, Ok None)
  /\ Takahe.uninteract_post 7 2 "like" bob_follows_alice = (bob_follows_alice, Ok tt)
  /\ Takahe.get_user_interaction 7 2 "like" bob_follows_alice
     = (bob_follows_alice, Ok None)
  /\ Takahe.get_post_stats 7 bob_follows_alice = (bob_follows_alice, Ok []).
Proof.
  apply (@missing_post_is_a_no_op bob_follows_alice 900 7 2 "like").
  simpl. intros p [].
Defined.

(** ** Webfinger failures *)

(** C3 (as the code has it): resolving a handle returns the not-found result
    without raising when probing host-meta fails on a TLS certificate, when
    the webfinger request fails on the network or on a TLS certificate, when
    the response is an error with status in {400, 401, 403, 404, 406, 410},
    and when it is an error with status 500 or above; for every other error
    response (status below 500) it raises a ValueError carrying the status
    and the body. *)
Theorem fetch_webfinger_failures (env : Env) (handle d : string) :
  nth_error (split_on "@" handle) 1 = Some d ->
  (fetch_webfinger_url env (str_lower env d) = Raise SSLCertVerificationError ->
   fetch_webfinger env handle = Ok None)
  /\ (forall url,
        fetch_webfinger_url env (str_lower env d) = Ok url ->
        match http_get env (format_uri env url ("acct:" ++ handle)) with
        | ConnectError | CertError => fetch_webfinger env handle = Ok None
        | Response status body =>
            raises_for_status env status = true ->
            (In status tolerated_statuses -> fetch_webfinger env handle = Ok None)
            /\ (500 <= status -> fetch_webfinger env handle = Ok None)
            /\ (status < 500 -> ~ In status tolerated_statuses ->
                fetch_webfinger env handle
                = Raise (ValueError
                           ("Client error fetching webfinger: " ++ str_of_Z status)
                           (Some body)))
        end).
Proof.
  intros Hd. unfold fetch_webfinger. rewrite Hd. split.
  - intros Hurl. rewrite Hurl. reflexivity.
  - intros url Hurl. rewrite Hurl.
    destruct (http_get env (format_uri env url ("acct:" ++ handle)))
      as [| | status body]; try reflexivity.
    intros Hraises. rewrite Hraises.
    repeat split.
    + intros Hin.
      assert (Hex : existsb (Z.eqb status) tolerated_statuses = true).
      { apply existsb_exists. exists status. split; [exact Hin | apply Z.eqb_refl]. }
      rewrite Hex, andb_false_r. reflexivity.
    + intros Hge.
      assert (Hlt : (status <? 500) = false) by (apply Z.ltb_ge; exact Hge).
      rewrite Hlt. reflexivity.
    + intros Hlt Hnot.
      assert (Hlt' : (status <? 500) = true) by (apply Z.ltb_lt; exact Hlt).
      assert (Hex : existsb (Z.eqb status) tolerated_statuses = false).
      { destruct (existsb (Z.eqb status) tolerated_statuses) eqn:E; [| reflexivity].
        apply existsb_exists in E. destruct E as [x [Hx Heq]].
        apply Z.eqb_eq in Heq. subst x. contradiction. }
      rewrite Hlt', Hex. reflexivity.
Qed.

Lemma fetch_webfinger_failures_witness :
  fetch_webfinger (answering 429 "slow down") "bob@example.com"
  = Raise (ValueError "Client error fetching webfinger: 429" (Some "slow down"))
  /\ fetch_webfinger (answering 404 "gone") "bob@example.com" = Ok None.
Proof.
  split.
  - refine (proj2 (proj2
      (proj2 (@fetch_webfinger_failures (answering 429 "slow down")
                "bob@example.com" "example.com" eq_refl)
         (default_webfinger_url "example.com") eq_refl eq_refl)) _ _).
    + lia.
    + simpl. intros H. repeat (destruct H as [H | H]; [discriminate H |]). exact H.
  - refine (proj1
      (proj2 (@fetch_webfinger_failures (answering 404 "gone")
                "bob@example.com" "example.com" eq_refl)
         (default_webfinger_url "example.com") eq_refl eq_refl) _).
    simpl. tauto.
Defined.

(** The claim of C3 fails at a 500 response: the result is not-found, no
    error is raised. *)
Lemma fetch_webfinger_server_error_is_not_found :
  raises_for_status (answering 500 "Internal Server Error") 500 = true
  /\ ~ In 500 tolerated_statuses
  /\ fetch_webfinger (answering 500 "Internal Server Error") "bob@example.com" = Ok None
  /\ ~ (exists msg payload,
         fetch_webfinger (answering 500 "Internal Server Error") "bob@example.com"
         = Raise (ValueError msg payload)).
Proof.
  split; [reflexivity |].
  split.
  { simpl. intros H. repeat (destruct H as [H | H]; [discriminate H |]). exact H. }
  split; [reflexivity |].
  intros [msg [payload H]]. discriminate H.
Qed.

(** ** Tables: saving rows under a unique primary key *)

Section Tables.

Context {R : Type} (pk : R -> Z).

Lemma pk_injective (rows : list R) (x y : R) :
  NoDup (map pk rows) -> In x rows -> In y rows -> pk x = pk y -> x = y.
Proof.
  induction rows as [| a rows IH]; simpl; intros Hnd Hx Hy Heq.
  - contradiction.
  - inversion Hnd as [| ? ? Hnotin Hnd']; subst.
    destruct Hx as [Hx | Hx], Hy as [Hy | Hy]; subst.
    + reflexivity.
    + exfalso. apply Hnotin. rewrite Heq. apply in_map. exact Hy.
    + exfalso. apply Hnotin. rewrite <- Heq. apply in_map. exact Hx.
    + apply IH; assumption.
Qed.

Lemma has_pk_in (rows : list R) (r : R) :
  In r rows -> existsb (fun x => pk x =? pk r) rows = true.
Proof.
  intros Hin. apply existsb_exists. exists r. split; [exact Hin | apply Z.eqb_refl].
Qed.

Lemma has_pk_fresh (rows : list R) (k : Z) :
  ~ In k (map pk rows) -> existsb (fun x => pk x =? k) rows = false.
Proof.
  intros Hfresh.
  destruct (existsb (fun x => pk x =? k) rows) eqn:E; [| reflexivity].
  apply existsb_exists in E. destruct E as [x [Hx Hk]].
  apply Z.eqb_eq in Hk. exfalso. apply Hfresh. rewrite <- Hk. apply in_map. exact Hx.
Qed.

(** Saving a row whose key is stored rewrites the rows with that key. *)
Lemma save_row_stored (rows : list R) (old new : R) :
  In old rows -> pk new = pk old ->
  save_row pk new rows = map (fun x => if pk x =? pk old then new else x) rows.
Proof.
  intros Hin Hpk. unfold save_row. rewrite Hpk.
  rewrite has_pk_in by exact Hin. reflexivity.
Qed.

Lemma replace_keeps_keys (rows : list R) (k : Z) (new : R) :
  pk new = k ->
  map pk (map (fun x => if pk x =? k then new else x) rows) = map pk rows.
Proof.
  intros Hpk. rewrite map_map. apply map_ext. intros x.
  destruct (Z.eqb_spec (pk x) k) as [E | E]; congruence.
Qed.

Lemma save_row_keeps_keys (rows : list R) (old new : R) :
  In old rows -> pk new = pk old ->
  map pk (save_row pk new rows) = map pk rows.
Proof.
  intros Hin Hpk. rewrite (save_row_stored rows old new Hin Hpk).
  apply replace_keeps_keys. exact Hpk.
Qed.

(** Saving a row again, unchanged, leaves the table as it is. *)
Lemma save_row_unchanged (rows : list R) (r : R) :
  NoDup (map pk rows) -> In r rows -> save_row pk r rows = rows.
Proof.
  intros Hnd Hin. rewrite (save_row_stored rows r r Hin eq_refl).
  rewrite <- (map_id rows) at 2. apply map_ext_in. intros x Hx.
  destruct (Z.eqb_spec (pk x) (pk r)) as [E | E]; [| reflexivity].
  symmetry. apply (pk_injective rows); assumption.
Qed.

Lemma save_row_holds_new (rows : list R) (old new : R) :
  In old rows -> pk new = pk old -> In new (save_row pk new rows).
Proof.
  intros Hin Hpk. rewrite (save_row_stored rows old new Hin Hpk).
  apply in_map_iff. exists old. split; [| exact Hin].
  rewrite Z.eqb_refl. reflexivity.
Qed.

(** A filter that cannot tell the new row from the old one selects as many
    rows after the save as before. *)
Lemma filter_length_after_save (f : R -> bool) (rows : list R) (old new : R) :
  NoDup (map pk rows) -> In old rows -> pk new = pk old -> f new = f old ->
  List.length (filter f (save_row pk new rows)) = List.length (filter f rows).
Proof.
  intros Hnd Hin Hpk Hf. rewrite (save_row_stored rows old new Hin Hpk).
  assert (Hagree : forall x, In x rows ->
            f (if pk x =? pk old then new else x) = f x).
  { intros x Hx. destruct (Z.eqb_spec (pk x) (pk old)) as [E | E]; [| reflexivity].
    rewrite Hf. f_equal. apply (pk_injective rows); auto. }
  clear Hin Hnd. induction rows as [| a rows IH]; simpl; [reflexivity |].
  rewrite (Hagree a) by (left; reflexivity).
  assert (IH' := IH (fun x Hx => Hagree x (or_intror Hx))).
  destruct (f a); simpl; rewrite IH'; reflexivity.
Qed.

(** A column the save does not change reads the same down the table. *)
Lemma save_row_keeps_column {K} (g : R -> K) (rows : list R) (old new : R) :
  NoDup (map pk rows) -> In old rows -> pk new = pk old -> g new = g old ->
  map g (save_row pk new rows) = map g rows.
Proof.
  intros Hnd Hin Hpk Hg. rewrite (save_row_stored rows old new Hin Hpk).
  rewrite map_map. apply map_ext_in. intros x Hx.
  destruct (Z.eqb_spec (pk x) (pk old)) as [E | E]; [| reflexivity].
  rewrite Hg. f_equal. symmetry. apply (pk_injective rows); auto.
Qed.

Lemma save_row_length (rows : list R) (old new : R) :
  In old rows -> pk new = pk old ->
  List.length (save_row pk new rows) = List.length rows.
Proof.
  intros Hin Hpk. rewrite (save_row_stored rows old new Hin Hpk).
  apply length_map.
Qed.

End Tables.

Lemma filter_filter {R} (f g : R -> bool) (l : list R) :
  filter f (filter g l) = filter (fun x => g x && f x) l.
Proof.
  induction l as [| a l IH]; simpl; [reflexivity |].
  destruct (g a); simpl; [destruct (f a) |]; rewrite IH; reflexivity.
Qed.

Lemma opt_string_eqb_eq (a b : option string) :
  opt_string_eqb a b = true <-> a = b.
Proof.
  destruct a as [x |], b as [y |]; simpl; split; intros H;
    try discriminate; try reflexivity.
  - apply String.eqb_eq in H. congruence.
  - inversion H; subst. apply String.eqb_refl.
Qed.

(** ** Post stats *)

Lemma count_interactions_live (db : DB) (self : Post) (type : string) :
  count_interactions db self type = Z.of_nat (List.length (live_interactions db self type)).
Proof.
  unfold count_interactions, live_interactions.
  rewrite !filter_filter. do 2 f_equal.
  apply filter_ext. intros i. unfold is_active. simpl.
  rewrite orb_false_r, andb_assoc. reflexivity.
Qed.

Lemma count_replies_replies_to (db : DB) (self : Post) :
  count_replies db self = Z.of_nat (List.length (replies_to db self)).
Proof.
  unfold count_replies, replies_to. do 2 f_equal.
  apply filter_ext. intros p.
  destruct (option_string_dec (post_in_reply_to p) (post_object_uri self)) as [E | E].
  - apply opt_string_eqb_eq. exact E.
  - destruct (opt_string_eqb (post_in_reply_to p) (post_object_uri self)) eqn:B;
      [| reflexivity].
    apply opt_string_eqb_eq in B. contradiction.
Qed.

Lemma calculate_stats_run (db : DB) (self : Post) :
  calculate_stats self true db
  = (with_posts db (save_row post_id (Post_set_stats self (Some (stats_of db self)))
                      (posts db)),
     Ok (Post_set_stats self (Some (stats_of db self)))).
Proof. reflexivity. Qed.

(** Recomputing the stats of a stored post, once they are stored, finds the
    same counts. *)
Lemma stats_of_after_save (db : DB) (self : Post) (stats : option stats_dict) :
  NoDup (map post_id (posts db)) -> In self (posts db) ->
  stats_of (with_posts db (save_row post_id (Post_set_stats self stats) (posts db)))
           (Post_set_stats self stats)
  = stats_of db self.
Proof.
  intros Hnd Hin. unfold stats_of. do 2 f_equal. f_equal. f_equal.
  unfold count_replies. simpl. f_equal.
  apply (filter_length_after_save post_id
           (fun p => opt_string_eqb (post_in_reply_to p) (post_object_uri self))
           (posts db) self (Post_set_stats self stats)); auto.
Qed.

(** C5: for a stored post, [calculate_stats] sets [stats] to exactly
    {likes: the number of its like interactions whose state is "new" or
    "fanned_out", boosts: the same for its boost interactions, replies: the
    number of posts whose [in_reply_to] equals its [object_uri]}, stores it,
    and a second call with nothing changed in between produces the identical
    stats value (and the identical database). *)
Theorem calculate_stats_exact_and_idempotent (db : DB) (self : Post) :
  NoDup (map post_id (posts db)) ->
  In self (posts db) ->
  exists db1 self1,
    calculate_stats self true db = (db1, Ok self1)
    /\ post_stats self1
       = Some [("likes", Z.of_nat (List.length (live_interactions db self "like")));
               ("boosts", Z.of_nat (List.length (live_interactions db self "boost")));
               ("replies", Z.of_nat (List.length (replies_to db self)))]
    /\ In self1 (posts db1)
    /\ interactions db1 = interactions db
    /\ calculate_stats self1 true db1 = (db1, Ok self1).
Proof.
  intros Hnd Hin.
  set (self1 := Post_set_stats self (Some (stats_of db self))).
  set (db1 := with_posts db (save_row post_id self1 (posts db))).
  exists db1, self1.
  assert (Hstored : In self1 (posts db1)).
  { unfold db1. simpl. apply (save_row_holds_new post_id (posts db) self self1 Hin). reflexivity. }
  assert (Hnd1 : NoDup (map post_id (posts db1))).
  { unfold db1. simpl.
    rewrite (save_row_keeps_keys post_id (posts db) self self1 Hin) by reflexivity. exact Hnd. }
  split; [apply calculate_stats_run |].
  split.
  { unfold self1, stats_of. simpl.
    rewrite !count_interactions_live, count_replies_replies_to. reflexivity. }
  split; [exact Hstored |].
  split; [reflexivity |].
  rewrite calculate_stats_run.
  assert (Hsame : stats_of db1 self1 = stats_of db self).
  { unfold db1, self1. apply stats_of_after_save; assumption. }
  rewrite Hsame.
  change (Post_set_stats self1 (Some (stats_of db self))) with self1.
  rewrite (save_row_unchanged post_id (posts db1) self1 Hnd1 Hstored).
  reflexivity.
Qed.

Ltac concrete_nodup :=
  repeat (constructor; [simpl; intuition (try discriminate; try lia) |]);
  constructor.

Lemma calculate_stats_exact_and_idempotent_witness :
  exists db1 self1,
    calculate_stats (sample_post 500 1 None) true liked_post_db = (db1, Ok self1)
    /\ post_stats self1
       = Some [("likes",
                Z.of_nat (List.length
                  (live_interactions liked_post_db (sample_post 500 1 None) "like")));
               ("boosts",
                Z.of_nat (List.length
                  (live_interactions liked_post_db (sample_post 500 1 None) "boost")));
               ("replies",
                Z.of_nat (List.length
                  (replies_to liked_post_db (sample_post 500 1 None))))]
    /\ In self1 (posts db1)
    /\ interactions db1 = interactions liked_post_db
    /\ calculate_stats self1 true db1 = (db1, Ok self1).
Proof.
  apply (calculate_stats_exact_and_idempotent liked_post_db (sample_post 500 1 None)).
  - simpl. concrete_nodup.
  - simpl. left. reflexivity.
Defined.

Example calculate_stats_sample :
  snd (calculate_stats (sample_post 500 1 None) true liked_post_db)
  = Ok (sample_post 500 1 (Some [("likes", 1); ("boosts", 0); ("replies", 1)])).
Proof. reflexivity. Qed.

(** ** One row per key *)

Lemma key_injective {R K} (key : R -> K) (rows : list R) (x y : R) :
  NoDup (map key rows) -> In x rows -> In y rows -> key x = key y -> x = y.
Proof.
  induction rows as [| a rows IH]; simpl; intros Hnd Hx Hy Heq.
  - contradiction.
  - inversion Hnd as [| ? ? Hnotin Hnd']; subst.
    destruct Hx as [Hx | Hx], Hy as [Hy | Hy]; subst.
    + reflexivity.
    + exfalso. apply Hnotin. rewrite Heq. apply in_map. exact Hy.
    + exfalso. apply Hnotin. rewrite <- Heq. apply in_map. exact Hx.
    + apply IH; assumption.
Qed.

Lemma filter_singleton {R} (f : R -> bool) (l : list R) (r : R) :
  NoDup l -> In r l -> f r = true ->
  (forall x, In x l -> f x = true -> x = r) ->
  filter f l = [r].
Proof.
  induction l as [| a l IH]; simpl; intros Hnd Hin Hf Huniq.
  - contradiction.
  - inversion Hnd as [| ? ? Hnotin Hnd']; subst.
    destruct Hin as [Ha | Hin].
    + subst a. rewrite Hf. f_equal. apply filter_none.
      intros x Hx. destruct (f x) eqn:E; [| reflexivity].
      exfalso. apply Hnotin. rewrite <- (Huniq x (or_intror Hx) E). exact Hx.
    + destruct (f a) eqn:E.
      * exfalso. apply Hnotin. rewrite (Huniq a (or_introl eq_refl) E). exact Hin.
      * apply IH; auto.
Qed.

Lemma NoDup_snoc {A} (l : list A) (a : A) :
  NoDup l -> ~ In a l -> NoDup (l ++ [a]).
Proof.
  intros Hnd Hnot. apply NoDup_app.
  - exact Hnd.
  - constructor; [intros [] | constructor].
  - intros x Hx [Hxa | []]. subst. contradiction.
Qed.

(** ** Follow *)

Lemma follow_between_pair (a b : Z) (f : Follow) :
  follow_between a b f = true <-> follow_pair f = (a, b).
Proof.
  unfold follow_between, follow_pair. rewrite andb_true_iff, !Z.eqb_eq.
  split; [intros [-> ->]; reflexivity | intros H; inversion H; auto].
Qed.

Lemma follow_filter_singleton (rows : list Follow) (a b : Z) (r : Follow) :
  wf_follows rows -> In r rows -> follow_between a b r = true ->
  filter (follow_between a b) rows = [r].
Proof.
  intros [Hpk Hpair] Hin Hr.
  apply filter_singleton; auto.
  - apply (NoDup_map_inv follow_id). exact Hpk.
  - intros x Hx Hfx. apply (key_injective follow_pair rows); auto.
    apply follow_between_pair in Hr. apply follow_between_pair in Hfx. congruence.
Qed.

(** A save that changes neither the key nor the (source, target) pair keeps
    the table well formed. *)
Lemma wf_follows_after_save (rows : list Follow) (old new : Follow) :
  wf_follows rows -> In old rows ->
  follow_id new = follow_id old -> follow_pair new = follow_pair old ->
  wf_follows (save_row follow_id new rows).
Proof.
  intros [Hpk Hpair] Hin Hid Hp. split.
  - rewrite (save_row_keeps_keys follow_id rows old new Hin Hid). exact Hpk.
  - rewrite (save_row_keeps_column follow_id follow_pair rows old new Hpk Hin Hid Hp).
    exact Hpair.
Qed.

Lemma follow_on_stored_row (db : DB) (new_id a b : Z) (r : Follow) :
  wf_follows (follows db) -> In r (follows db) -> follow_between a b r = true ->
  Takahe.follow new_id a b db
  = (if (follow_state r =? "accepted")%string then db
     else with_follows db
            (save_row follow_id (Follow_set_state r "unrequested") (follows db)),
     Ok tt).
Proof.
  intros Hwf Hin Hr.
  unfold Takahe.follow, except_DoesNotExist, bind, lift.
  rewrite (follow_filter_singleton (follows db) a b r Hwf Hin Hr). simpl.
  destruct (follow_state r =? "accepted")%string; reflexivity.
Qed.

Lemma pair_absent (rows : list Follow) (a b : Z) :
  existsb (fun f => (follow_source_id f =? a) && (follow_target_id f =? b)) rows = false ->
  ~ In (a, b) (map follow_pair rows).
Proof.
  intros Hex Hin. apply in_map_iff in Hin. destruct Hin as [f [Hp Hf]].
  assert (Htrue : existsb (fun f => (follow_source_id f =? a) && (follow_target_id f =? b))
                    rows = true).
  { apply existsb_exists. exists f. split; [exact Hf |].
    apply (follow_between_pair a b f). exact Hp. }
  congruence.
Qed.

Lemma key_absent {R} (pk : R -> Z) (rows : list R) (k : Z) :
  has_pk pk k rows = false -> ~ In k (map pk rows).
Proof.
  intros Hex Hin. apply in_map_iff in Hin. destruct Hin as [x [Hk Hx]].
  assert (Htrue : has_pk pk k rows = true).
  { apply existsb_exists. exists x. split; [exact Hx | apply Z.eqb_eq; exact Hk]. }
  congruence.
Qed.

Lemma follow_preserves_wf (db : DB) (new_id a b : Z) :
  wf_follows (follows db) ->
  wf_follows (follows (fst (Takahe.follow new_id a b db))).
Proof.
  intros Hwf.
  destruct (filter (follow_between a b) (follows db)) as [| r [| r2 rest]] eqn:F.
  - unfold Takahe.follow, except_DoesNotExist, bind, lift, Identity_get.
    rewrite F. simpl.
    destruct (qs_get MIdentity (filter (fun i => identity_id i =? a) (identities db)))
      as [source | e]; simpl; [| exact Hwf].
    unfold Follow_create. simpl.
    destruct (has_pk follow_id new_id (follows db)) eqn:Hid; simpl; [exact Hwf |].
    destruct (existsb _ (follows db)) eqn:Hpair; simpl; [exact Hwf |].
    destruct (negb (has_pk identity_id a (identities db))); simpl; [exact Hwf |].
    destruct (negb (has_pk identity_id b (identities db))); simpl; [exact Hwf |].
    set (new := {| follow_id := new_id; follow_source_id := a; follow_target_id := b;
                   follow_boosts := true; follow_uri := Some "";
                   follow_state := "unrequested" |}).
    apply (wf_follows_after_save (follows db ++ [new]) new).
    + destruct Hwf as [Hpk Hp]. split; rewrite map_app; simpl; apply NoDup_snoc; auto.
      * apply key_absent. exact Hid.
      * apply pair_absent. exact Hpair.
    + apply in_or_app. right. left. reflexivity.
    + reflexivity.
    + reflexivity.
  - assert (Hin : In r (filter (follow_between a b) (follows db))).
    { rewrite F. left. reflexivity. }
    apply filter_In in Hin. destruct Hin as [Hin Hr].
    rewrite (follow_on_stored_row db new_id a b r Hwf Hin Hr). simpl.
    destruct (follow_state r =? "accepted")%string; [exact Hwf |]. simpl.
    apply (wf_follows_after_save (follows db) r); auto.
  - unfold Takahe.follow, except_DoesNotExist, bind, lift.
    rewrite F. simpl. exact Hwf.
Qed.

Lemma at_most_one_follow (rows : list Follow) (a b : Z) :
  wf_follows rows -> (List.length (filter (follow_between a b) rows) <= 1)%nat.
Proof.
  intros Hwf.
  destruct (filter (follow_between a b) rows) as [| r rest] eqn:F; [simpl; lia |].
  assert (Hin : In r (filter (follow_between a b) rows)).
  { rewrite F. left. reflexivity. }
  apply filter_In in Hin. destruct Hin as [Hin Hr].
  rewrite (follow_filter_singleton rows a b r Hwf Hin Hr) in F.
  inversion F; subst. simpl. lia.
Qed.

Lemma follow_calls_preserve_wf (a b : Z) (new_ids : list Z) (db : DB) :
  wf_follows (follows db) -> wf_follows (follows (follow_calls a b new_ids db)).
Proof.
  revert db. induction new_ids as [| new_id rest IH]; intros db Hwf; simpl.
  - exact Hwf.
  - apply IH. apply follow_preserves_wf. exact Hwf.
Qed.

(** C6: on a Follow table that satisfies its constraints, any run of
    [Takahe.follow(A, B)] calls leaves at most one Follow row for (A, B); and
    a call made when a row for (A, B) exists returns normally, creates no row,
    keeps that row (same key, same boosts preference), resets its state to
    "unrequested" when it was "undone", and changes nothing when its state is
    "accepted". *)
Theorem follow_keeps_one_row (db : DB) (a b : Z) (new_ids : list Z) :
  wf_follows (follows db) ->
  (List.length (filter (follow_between a b) (follows (follow_calls a b new_ids db))) <= 1)%nat
  /\ (forall (r : Follow) (new_id : Z),
        In r (follows db) -> follow_between a b r = true ->
        exists db' r',
          Takahe.follow new_id a b db = (db', Ok tt)
          /\ List.length (follows db') = List.length (follows db)
          /\ filter (follow_between a b) (follows db') = [r']
          /\ follow_id r' = follow_id r
          /\ follow_boosts r' = follow_boosts r
          /\ (follow_state r = "undone" -> follow_state r' = "unrequested")
          /\ (follow_state r = "accepted" -> r' = r /\ db' = db)).
Proof.
  intros Hwf. split.
  - apply at_most_one_follow. apply follow_calls_preserve_wf. exact Hwf.
  - intros r new_id Hin Hr.
    rewrite (follow_on_stored_row db new_id a b r Hwf Hin Hr).
    destruct (follow_state r =? "accepted")%string eqn:Hacc.
    + exists db, r. apply String.eqb_eq in Hacc.
      repeat split; auto.
      * apply follow_filter_singleton; assumption.
      * intros Hundone. rewrite Hundone in Hacc. discriminate Hacc.
    + set (r' := Follow_set_state r "unrequested").
      exists (with_follows db (save_row follow_id r' (follows db))), r'.
      split; [reflexivity |].
      split.
      { simpl. apply (save_row_length follow_id (follows db) r r' Hin). reflexivity. }
      split.
      { simpl. apply follow_filter_singleton.
        - apply (wf_follows_after_save (follows db) r r'); auto.
        - apply (save_row_holds_new follow_id (follows db) r r' Hin). reflexivity.
        - exact Hr. }
      split; [reflexivity |].
      split; [reflexivity |].
      split; [intros _; reflexivity |].
      intros Habs. rewrite Habs in Hacc. discriminate Hacc.
Qed.

Lemma follow_keeps_one_row_witness :
  let db := with_follows two_identities [sample_follow 100 2 1 "undone"] in
  (List.length (filter (follow_between 2 1) (follows (follow_calls 2 1 [101%Z; 102%Z] db))) <= 1)%nat
  /\ exists db' r',
       Takahe.follow 101 2 1 db = (db', Ok tt)
       /\ List.length (follows db') = List.length (follows db)
       /\ filter (follow_between 2 1) (follows db') = [r']
       /\ follow_id r' = 100
       /\ follow_boosts r' = true
       /\ (follow_state (sample_follow 100 2 1 "undone") = "undone" ->
           follow_state r' = "unrequested")
       /\ (follow_state (sample_follow 100 2 1 "undone") = "accepted" ->
           r' = sample_follow 100 2 1 "undone" /\ db' = db).
Proof.
  intros db.
  assert (Hwf : wf_follows (follows db)).
  { split; simpl; concrete_nodup. }
  destruct (follow_keeps_one_row db 2 1 [101; 102] Hwf) as [Hone Hrow].
  split; [exact Hone |].
  apply (Hrow (sample_follow 100 2 1 "undone") 101).
  - simpl. left. reflexivity.
  - reflexivity.
Defined.

Example follow_twice_from_nothing :
  follows (follow_calls 1 2 [101; 102] two_identities)
  = [{| follow_id := 101; follow_source_id := 1; follow_target_id := 2;
        follow_boosts := true;
        follow_uri := Some "https://neodb.example/@alice/follow/101/";
        follow_state := "unrequested" |}].
Proof. reflexivity. Qed.

(** ** The monad, run *)

Lemma bind_ok {A B} (m : M A) (k : A -> M B) (db db' : DB) (a : A) :
  m db = (db', Ok a) -> bind m k db = k a db'.
Proof. intros H. unfold bind. rewrite H. reflexivity. Qed.

Lemma atomic_ok {A} (m : M A) (db db' : DB) (a : A) :
  m db = (db', Ok a) -> atomic m db = (db', Ok a).
Proof. intros H. unfold atomic. rewrite H. reflexivity. Qed.

Lemma atomic_raise_unchanged {A} (m : M A) (db db' : DB) (e : exn) :
  atomic m db = (db', Raise e) -> db' = db.
Proof.
  unfold atomic. destruct (m db) as [db1 [a | e1]]; intros H; inversion H; reflexivity.
Qed.

Lemma has_pk_stored {R} (pk : R -> Z) (rows : list R) (r : R) :
  In r rows -> has_pk pk (pk r) rows = true.
Proof. intros Hin. apply (has_pk_in pk rows r Hin). Qed.

(** ** Follow state transitions *)

Lemma Follow_set_state_same (f : Follow) :
  Follow_set_state f (follow_state f) = f.
Proof. destruct f; reflexivity. Qed.

Lemma qs_first_singleton {R} (pk : R -> Z) (r : R) : qs_first pk [r] = Some r.
Proof. reflexivity. Qed.

(** What [update_follow_state] with no [from_states] does to a well-formed
    table: the row between [a] and [b], if any, takes the state [to]; every
    other row stays. *)
Lemma update_follow_state_any (db : DB) (a b : Z) (to : string) :
  wf_follows (follows db) ->
  exists rows' out,
    Takahe.update_follow_state a b [] to db = (with_follows db rows', Ok out)
    /\ wf_follows rows'
    /\ (forall f, In f (follows db) -> follow_between a b f = true ->
                  In (Follow_set_state f to) rows')
    /\ (forall x, In x (follows db) -> follow_between a b x = false -> In x rows').
Proof.
  intros Hwf.
  assert (Hsame : with_follows db (follows db) = db) by (destruct db; reflexivity).
  unfold Takahe.update_follow_state, bind, gets.
  destruct (filter (follow_between a b) (follows db)) as [| r rest] eqn:F.
  - simpl. exists (follows db), None. rewrite Hsame.
    split; [reflexivity |]. split; [exact Hwf |]. split.
    + intros f Hin Hf.
      assert (Hcontra : In f (filter (follow_between a b) (follows db))).
      { apply filter_In. split; assumption. }
      rewrite F in Hcontra. destruct Hcontra.
    + intros x Hx _. exact Hx.
  - assert (Hin : In r (filter (follow_between a b) (follows db))).
    { rewrite F. left. reflexivity. }
    apply filter_In in Hin. destruct Hin as [Hin Hr].
    assert (Hone := follow_filter_singleton (follows db) a b r Hwf Hin Hr).
    rewrite F in Hone. inversion Hone; subst rest. clear Hone.
    rewrite qs_first_singleton. simpl.
    assert (Honly : forall f, In f (follows db) -> follow_between a b f = true -> f = r).
    { intros f Hf Hfb.
      assert (Hmem : In f (filter (follow_between a b) (follows db))).
      { apply filter_In. split; assumption. }
      rewrite F in Hmem. destruct Hmem as [E | []]. congruence. }
    destruct (follow_state r =? to)%string eqn:Hst; simpl.
    + apply String.eqb_eq in Hst.
      exists (follows db), (Some r). rewrite Hsame.
      split; [reflexivity |]. split; [exact Hwf |]. split.
      * intros f Hf Hfb. rewrite (Honly f Hf Hfb).
        rewrite <- Hst. rewrite Follow_set_state_same. exact Hin.
      * intros x Hx _. exact Hx.
    + exists (save_row follow_id (Follow_set_state r to) (follows db)),
             (Some (Follow_set_state r to)).
      split; [reflexivity |]. split.
      { apply (wf_follows_after_save (follows db) r); auto. }
      split.
      * intros f Hf Hfb. rewrite (Honly f Hf Hfb).
        apply (save_row_holds_new follow_id (follows db) r _ Hin). reflexivity.
      * intros x Hx Hxb.
        rewrite (save_row_stored follow_id (follows db) r (Follow_set_state r to) Hin eq_refl).
        apply in_map_iff. exists x. split; [| exact Hx].
        destruct (Z.eqb_spec (follow_id x) (follow_id r)) as [E | E]; [| reflexivity].
        destruct Hwf as [Hpk _].
        assert (x = r) by (apply (pk_injective follow_id (follows db)); auto).
        subst x. congruence.
Qed.

(** ** Block *)

Lemma block_between_key (a b : Z) (m : bool) (x : Block) :
  block_between a b m x = true <-> block_key x = (a, b, m).
Proof.
  unfold block_between, block_key. rewrite !andb_true_iff, !Z.eqb_eq, eqb_true_iff.
  split; [intros [[-> ->] ->]; reflexivity | intros H; inversion H; auto].
Qed.

Lemma block_filter_singleton (rows : list Block) (a b : Z) (m : bool) (r : Block) :
  wf_blocks rows -> In r rows -> block_between a b m r = true ->
  filter (block_between a b m) rows = [r].
Proof.
  intros [Hpk Hkey] Hin Hr.
  apply filter_singleton; auto.
  - apply (NoDup_map_inv block_id). exact Hpk.
  - intros x Hx Hfx. apply (key_injective block_key rows); auto.
    apply block_between_key in Hr. apply block_between_key in Hfx. congruence.
Qed.

Lemma wf_blocks_after_save (rows : list Block) (old new : Block) :
  wf_blocks rows -> In old rows ->
  block_id new = block_id old -> block_key new = block_key old ->
  wf_blocks (save_row block_id new rows).
Proof.
  intros [Hpk Hkey] Hin Hid Hk. split.
  - rewrite (save_row_keeps_keys block_id rows old new Hin Hid). exact Hpk.
  - rewrite (save_row_keeps_column block_id block_key rows old new Hpk Hin Hid Hk).
    exact Hkey.
Qed.

Lemma next_block_id_fresh (rows : list Block) :
  ~ In (next_block_id rows) (map block_id rows).
Proof.
  unfold next_block_id.
  assert (Hmax : forall l x, In x l -> x <= fold_right Z.max 0 l).
  { induction l as [| y l IH]; simpl; intros x Hx; [contradiction |].
    destruct Hx as [-> | Hx]; [lia |]. specialize (IH x Hx). lia. }
  intros Hin. apply Hmax in Hin. lia.
Qed.

(** [update_or_create] on a well-formed table: afterwards the table holds
    the row [b1] of the triple, in state "new". *)
Lemma Block_update_or_create_run (db : DB) (a b : Z) (m : bool) :
  wf_blocks (blocks db) ->
  has_pk identity_id a (identities db) = true ->
  has_pk identity_id b (identities db) = true ->
  exists rows1 b1,
    Block_update_or_create a b m db = (with_blocks db rows1, Ok b1)
    /\ wf_blocks rows1 /\ In b1 rows1
    /\ block_between a b m b1 = true /\ block_state b1 = "new".
Proof.
  intros Hwf Ha Hb.
  unfold Block_update_or_create, atomic, except_DoesNotExist, bind, lift, Block_save, ret.
  destruct (filter (block_between a b m) (blocks db)) as [| r rest] eqn:F.
  - simpl. unfold Block_create. rewrite Ha, Hb. simpl.
    eexists. eexists. split; [reflexivity |].
    assert (Hkey : ~ In (a, b, m) (map block_key (blocks db))).
    { intros Hin. apply in_map_iff in Hin. destruct Hin as [x [Hk Hx]].
      assert (Hmem : In x (filter (block_between a b m) (blocks db))).
      { apply filter_In. split; [exact Hx | apply block_between_key; exact Hk]. }
      rewrite F in Hmem. destruct Hmem. }
    destruct Hwf as [Hpk Hkeys].
    split.
    { split; rewrite map_app; simpl; apply NoDup_snoc; auto.
      apply next_block_id_fresh. }
    split.
    { apply in_or_app. right. left. reflexivity. }
    split; [| reflexivity].
    unfold block_between. simpl. rewrite !Z.eqb_refl, eqb_reflx. reflexivity.
  - assert (Hin : In r (filter (block_between a b m) (blocks db))).
    { rewrite F. left. reflexivity. }
    apply filter_In in Hin. destruct Hin as [Hin Hr].
    assert (Hone := block_filter_singleton (blocks db) a b m r Hwf Hin Hr).
    rewrite F in Hone. inversion Hone; subst rest. clear Hone. simpl.
    eexists. eexists. split; [reflexivity |].
    split.
    { apply (wf_blocks_after_save (blocks db) r); auto. }
    split.
    { apply (save_row_holds_new block_id (blocks db) r _ Hin). reflexivity. }
    split; [exact Hr | reflexivity].
Qed.

Lemma block_raise_leaves_db (a b : Z) (db db' : DB) (e : exn) :
  Takahe.block a b db = (db', Raise e) -> db' = db.
Proof.
  unfold Takahe.block, Takahe.block_or_mute, bind, Identity_get, lift.
  destruct (qs_get MIdentity (filter (fun i => identity_id i =? a) (identities db)))
    as [source | e0].
  - destruct (negb (identity_local source)).
    + unfold raise. intros H. inversion H. reflexivity.
    + apply atomic_raise_unchanged.
  - intros H. inversion H. reflexivity.
Qed.

(** The step of [block_or_mute] that stamps the uri of a block that has none. *)
Lemma block_uri_step (db1 : DB) (source : Identity) (b1 : Block) :
  wf_blocks (blocks db1) -> In b1 (blocks db1) -> block_state b1 = "new" ->
  exists rows2 b2,
    (if negb (block_state b1 =? "new")%string || negb (truthy (block_uri b1))
     then
       let block :=
         Block_set b1 "new"
           (Some (identity_actor_uri source ++ "block/"
                  ++ str_of_Z (block_id b1) ++ "/")) in
       Block_save block ;;; ret block
     else ret b1) db1
    = (with_blocks db1 rows2, Ok b2)
    /\ wf_blocks rows2 /\ In b2 rows2
    /\ block_key b2 = block_key b1 /\ block_state b2 = "new".
Proof.
  intros Hwf Hin Hst. rewrite Hst. simpl.
  destruct (truthy (block_uri b1)); simpl.
  - exists (blocks db1), b1. unfold ret.
    replace (with_blocks db1 (blocks db1)) with db1 by (destruct db1; reflexivity).
    split; [reflexivity |]. split; [exact Hwf |]. split; [exact Hin |].
    split; [reflexivity | exact Hst].
  - eexists. eexists. split; [reflexivity |].
    split.
    { apply (wf_blocks_after_save (blocks db1) b1); auto. }
    split.
    { apply (save_row_holds_new block_id (blocks db1) b1 _ Hin). reflexivity. }
    split; reflexivity.
Qed.

Lemma between_swap_false (a b : Z) (x : Follow) :
  a <> b -> follow_between a b x = true -> follow_between b a x = false.
Proof.
  intros Hab Hx. apply follow_between_pair in Hx. unfold follow_pair in Hx.
  injection Hx as Hs Ht. unfold follow_between. rewrite Hs.
  destruct (Z.eqb_spec a b) as [E | E]; [contradiction | reflexivity].
Qed.

(** C2 (as the code has it): for a local identity A and another identity B,
    on tables that satisfy their uniqueness constraints, [Takahe.block(A, B)]
    returns, leaving a single Block row (A, B, mute=false), in state "new";
    the A-to-B Follow row, if any, in state "undone"; and a B-to-A Follow row
    that was "pending_approval" in state "rejecting". A call that raises
    leaves the database as it was. *)
Theorem block_tears_down_follows (db : DB) (a b : Z) (src tgt : Identity) :
  NoDup (map identity_id (identities db)) ->
  In src (identities db) -> identity_id src = a -> identity_local src = true ->
  In tgt (identities db) -> identity_id tgt = b ->
  a <> b ->
  wf_follows (follows db) -> wf_blocks (blocks db) ->
  (exists db' blk,
     Takahe.block a b db = (db', Ok blk)
     /\ filter (block_between a b false) (blocks db') = [blk]
     /\ block_state blk = "new"
     /\ (forall f, In f (follows db) -> follow_between a b f = true ->
           filter (follow_between a b) (follows db') = [Follow_set_state f "undone"])
     /\ (forall g, In g (follows db) -> follow_between b a g = true ->
           follow_state g = "pending_approval" ->
           filter (follow_between b a) (follows db') = [Follow_set_state g "rejecting"]))
  /\ (forall db0 db1 e, Takahe.block a b db0 = (db1, Raise e) -> db1 = db0).
Proof.
  intros Hids Hsrc Ha Hlocal Htgt Hb Hab Hwf Hwb.
  split; [| intros db0 db1 e; apply block_raise_leaves_db].
  assert (Hget : Identity_get MIdentity (fun i => identity_id i =? a) db = (db, Ok src)).
  { unfold Identity_get, lift.
    rewrite (filter_singleton (fun i => identity_id i =? a) (identities db) src).
    - reflexivity.
    - apply (NoDup_map_inv identity_id). exact Hids.
    - exact Hsrc.
    - apply Z.eqb_eq. exact Ha.
    - intros x Hx Hxa. apply Z.eqb_eq in Hxa.
      apply (pk_injective identity_id (identities db)); auto. congruence. }
  assert (Hhas_a : has_pk identity_id a (identities db) = true).
  { rewrite <- Ha. apply has_pk_stored. exact Hsrc. }
  assert (Hhas_b : has_pk identity_id b (identities db) = true).
  { rewrite <- Hb. apply has_pk_stored. exact Htgt. }
  destruct (Block_update_or_create_run db a b false Hwb Hhas_a Hhas_b)
    as [rows1 [b1 [Hrun1 [Hwf1 [Hin1 [Hbt1 Hst1]]]]]].
  destruct (block_uri_step (with_blocks db rows1) src b1 Hwf1 Hin1 Hst1)
    as [rows2 [b2 [Hrun2 [Hwf2 [Hin2 [Hkey2 Hst2]]]]]].
  set (db2 := with_blocks db rows2).
  change (with_blocks (with_blocks db rows1) rows2) with db2 in Hrun2.
  destruct (update_follow_state_any db2 a b "undone" Hwf)
    as [f1 [out1 [Hrun3 [Hwf3 [Hset3 Hkeep3]]]]].
  destruct (update_follow_state_any (with_follows db2 f1) b a "rejecting" Hwf3)
    as [f2 [out2 [Hrun4 [Hwf4 [Hset4 Hkeep4]]]]].
  simpl in Hset4, Hkeep4.
  exists (with_follows db2 f2), b2.
  split.
  { unfold Takahe.block, Takahe.block_or_mute.
    rewrite (bind_ok _ _ db db src Hget). rewrite Hlocal. simpl negb. cbv iota.
    apply atomic_ok.
    rewrite (bind_ok _ _ db _ b1 Hrun1).
    rewrite (bind_ok _ _ _ db2 b2 Hrun2).
    unfold Takahe.unfollow, Takahe.reject_follow_request, bind, ret.
    change (negb false) with true. cbv beta iota. rewrite Hrun3. rewrite Hrun4.
    reflexivity. }
  split.
  { simpl. apply block_filter_singleton; auto.
    apply block_between_key. rewrite Hkey2. apply block_between_key. exact Hbt1. }
  split; [exact Hst2 |].
  split.
  - intros f Hf Hfb. simpl.
    apply follow_filter_singleton; [exact Hwf4 | | exact Hfb].
    apply Hkeep4.
    + apply Hset3; assumption.
    + apply (between_swap_false a b); assumption.
  - intros g Hg Hgb _. simpl.
    apply follow_filter_singleton; [exact Hwf4 | | exact Hgb].
    apply Hset4; [| exact Hgb].
    apply Hkeep3; [exact Hg |].
    apply (between_swap_false b a); auto.
Qed.

Lemma block_tears_down_follows_witness :
  (exists db' blk,
     Takahe.block 1 2 mutual_follow_db = (db', Ok blk)
     /\ filter (block_between 1 2 false) (blocks db') = [blk]
     /\ block_state blk = "new"
     /\ (forall f, In f (follows mutual_follow_db) -> follow_between 1 2 f = true ->
           filter (follow_between 1 2) (follows db') = [Follow_set_state f "undone"])
     /\ (forall g, In g (follows mutual_follow_db) -> follow_between 2 1 g = true ->
           follow_state g = "pending_approval" ->
           filter (follow_between 2 1) (follows db') = [Follow_set_state g "rejecting"]))
  /\ (forall db0 db1 e, Takahe.block 1 2 db0 = (db1, Raise e) -> db1 = db0).
Proof.
  apply (block_tears_down_follows mutual_follow_db 1 2
           (sample_identity 1 "alice" true) (sample_identity 2 "bob" false)).
  - simpl. concrete_nodup.
  - simpl. left. reflexivity.
  - reflexivity.
  - reflexivity.
  - simpl. right. left. reflexivity.
  - reflexivity.
  - lia.
  - split; simpl; concrete_nodup.
  - split; simpl; constructor.
Defined.

Example block_on_mutual_follow :
  let db' := fst (Takahe.block 1 2 mutual_follow_db) in
  follows db'
  = [sample_follow 100 1 2 "undone"; sample_follow 101 2 1 "rejecting"]
  /\ blocks db'
     = [{| block_id := 1; block_state := "new"; block_source_id := 1;
           block_target_id := 2;
           block_uri := Some "https://neodb.example/@alice/block/1/";
           block_mute := false |}].
Proof. split; reflexivity. Qed.

(** The claim of C2 fails when A blocks itself while following itself: the
    A-to-A row is first set to "undone" by the unfollow and then to
    "rejecting" by the rejection of the reverse request, which is the same
    row. *)
Lemma block_of_self_leaves_rejecting :
  exists db' blk,
    Takahe.block 1 1 self_follow_db = (db', Ok blk)
    /\ filter (follow_between 1 1) (follows db') = [sample_follow 100 1 1 "rejecting"]
    /\ follow_state (sample_follow 100 1 1 "rejecting") <> "undone".
Proof.
  eexists. eexists. split; [reflexivity |].
  split; [reflexivity |]. simpl. discriminate.
Qed.

(** ** Likes *)

Lemma with_posts_same (db : DB) : with_posts db (posts db) = db.
Proof. destruct db; reflexivity. Qed.

Lemma with_interactions_same (db : DB) : with_interactions db (interactions db) = db.
Proof. destruct db; reflexivity. Qed.

Lemma find_post_stored (db : DB) (p : Post) :
  NoDup (map post_id (posts db)) -> In p (posts db) ->
  Takahe.find_post (post_id p) db = (db, Ok (Some p)).
Proof.
  intros Hnd Hin. unfold Takahe.find_post, gets.
  rewrite (filter_singleton (fun x => post_id x =? post_id p) (posts db) p).
  - reflexivity.
  - apply (NoDup_map_inv post_id). exact Hnd.
  - exact Hin.
  - apply Z.eqb_refl.
  - intros x Hx Hxp. apply Z.eqb_eq in Hxp.
    apply (pk_injective post_id (posts db)); auto.
Qed.

(** When the stored stats are up to date, recomputing them changes nothing. *)
Lemma calculate_stats_settled (db : DB) (self : Post) :
  NoDup (map post_id (posts db)) -> In self (posts db) ->
  post_stats self = Some (stats_of db self) ->
  calculate_stats self true db = (db, Ok self).
Proof.
  intros Hnd Hin Hstats. rewrite calculate_stats_run.
  assert (Hself : Post_set_stats self (Some (stats_of db self)) = self).
  { rewrite <- Hstats. destruct self; reflexivity. }
  rewrite Hself. rewrite (save_row_unchanged post_id (posts db) self Hnd Hin).
  rewrite with_posts_same. reflexivity.
Qed.

Lemma undo_each_run (rows : list PostInteraction) (db : DB) :
  Takahe.undo_each rows db
  = (with_interactions db (undone_rows rows (interactions db)), Ok tt).
Proof.
  revert db. induction rows as [| r rows IH]; intros db; simpl.
  - unfold ret, undone_rows. simpl. rewrite with_interactions_same. reflexivity.
  - unfold bind, PostInteraction_save. rewrite IH. reflexivity.
Qed.

(** Saving a changed copy of the last row of a table whose other keys differ. *)
Lemma save_row_last {R} (pk : R -> Z) (rows : list R) (old new : R) :
  ~ In (pk old) (map pk rows) -> pk new = pk old ->
  save_row pk new (rows ++ [old]) = (rows ++ [new])%list.
Proof.
  intros Hfresh Hpk.
  rewrite (save_row_stored pk (rows ++ [old]) old new);
    [| apply in_or_app; right; left; reflexivity | exact Hpk].
  rewrite map_app. simpl. rewrite Z.eqb_refl. f_equal.
  rewrite <- (map_id rows) at 2. apply map_ext_in. intros x Hx.
  destruct (Z.eqb_spec (pk x) (pk old)) as [E | E]; [| reflexivity].
  exfalso. apply Hfresh. rewrite <- E. apply in_map. exact Hx.
Qed.

Lemma like_first (db : DB) (n1 identity_pk : Z) (p : Post) :
  NoDup (map post_id (posts db)) -> In p (posts db) ->
  has_pk identity_id identity_pk (identities db) = true ->
  ~ In n1 (map interaction_id (interactions db)) ->
  filter (interaction_of "like" identity_pk p) (interactions db) = [] ->
  Takahe.like_post n1 (post_id p) identity_pk db
  = (let dbA := with_interactions db (interactions db ++ [like_row n1 identity_pk p]) in
     with_posts dbA (save_row post_id (Post_set_stats p (Some (stats_of dbA p))) (posts db)),
     Ok (Some (like_row n1 identity_pk p))).
Proof.
  intros Hnd Hin Hid Hfresh Hnone.
  unfold Takahe.like_post, Takahe.interact_post.
  rewrite (bind_ok _ _ db db (Some p) (find_post_stored db p Hnd Hin)).
  unfold PostInteraction_get_or_create, except_DoesNotExist, PostInteraction_create.
  unfold bind at 1. unfold bind at 1. unfold lift. rewrite Hnone. simpl.
  assert (Hnew : has_pk interaction_id n1 (interactions db) = false).
  { apply has_pk_fresh. exact Hfresh. }
  rewrite Hnew, Hid, (has_pk_stored post_id (posts db) p Hin). simpl.
  reflexivity.
Qed.

Lemma like_again (db : DB) (n2 identity_pk : Z) (p : Post) (row : PostInteraction) :
  NoDup (map post_id (posts db)) -> In p (posts db) ->
  filter (interaction_of "like" identity_pk p) (interactions db) = [row] ->
  is_active (interaction_state row) = true ->
  post_stats p = Some (stats_of db p) ->
  Takahe.like_post n2 (post_id p) identity_pk db = (db, Ok (Some row)).
Proof.
  intros Hnd Hin Hrow Hactive Hstats.
  unfold Takahe.like_post, Takahe.interact_post.
  rewrite (bind_ok _ _ db db (Some p) (find_post_stored db p Hnd Hin)).
  unfold PostInteraction_get_or_create, except_DoesNotExist.
  unfold bind at 1. unfold bind at 1. unfold lift. rewrite Hrow. simpl.
  rewrite Hactive. simpl. unfold bind.
  rewrite (calculate_stats_settled db p Hnd Hin Hstats). reflexivity.
Qed.

Lemma unlike_run (db : DB) (identity_pk : Z) (p : Post) :
  NoDup (map post_id (posts db)) -> In p (posts db) ->
  Takahe.unlike_post (post_id p) identity_pk db
  = (let dbB :=
       with_interactions db
         (undone_rows (filter (interaction_of "like" identity_pk p) (interactions db))
                      (interactions db)) in
     with_posts dbB (save_row post_id (Post_set_stats p (Some (stats_of dbB p))) (posts db)),
     Ok tt).
Proof.
  intros Hnd Hin.
  unfold Takahe.unlike_post, Takahe.uninteract_post.
  rewrite (bind_ok _ _ db db (Some p) (find_post_stored db p Hnd Hin)).
  unfold bind, gets. rewrite undo_each_run. reflexivity.
Qed.

Lemma get_post_stats_stored (db : DB) (p : Post) (entry : string * Z) (more : stats_dict) :
  NoDup (map post_id (posts db)) -> In p (posts db) ->
  post_stats p = Some (entry :: more) ->
  Takahe.get_post_stats (post_id p) db = (db, Ok (entry :: more)).
Proof.
  intros Hnd Hin Hstats. unfold Takahe.get_post_stats.
  rewrite (bind_ok _ _ db db (Some p) (find_post_stored db p Hnd Hin)).
  unfold ret. rewrite Hstats. reflexivity.
Qed.

Lemma filter_nil_inv {R} (f : R -> bool) (l : list R) (x : R) :
  filter f l = [] -> In x l -> f x = false.
Proof.
  intros Hnil Hx. destruct (f x) eqn:E; [| reflexivity].
  assert (Hmem : In x (filter f l)) by (apply filter_In; split; assumption).
  rewrite Hnil in Hmem. destruct Hmem.
Qed.

Lemma count_interactions_last (db : DB) (self : Post) (type : string)
    (l : list PostInteraction) (r : PostInteraction) :
  interactions db = (l ++ [r])%list ->
  count_interactions db self type
  = count_interactions (with_interactions db l) self type
    + (if (interaction_post_id r =? post_id self)
          && (interaction_type r =? type)%string
          && is_active (interaction_state r)
       then 1 else 0).
Proof.
  intros Hl. unfold count_interactions. rewrite Hl. simpl.
  rewrite filter_app, length_app, Nat2Z.inj_add.
  f_equal. simpl.
  destruct ((interaction_post_id r =? post_id self)
            && (interaction_type r =? type)%string
            && is_active (interaction_state r)); reflexivity.
Qed.

Lemma count_replies_after_save (db : DB) (self : Post) (stats : option stats_dict) :
  NoDup (map post_id (posts db)) -> In self (posts db) ->
  Z.of_nat (List.length
    (filter (fun p => opt_string_eqb (post_in_reply_to p) (post_object_uri self))
            (save_row post_id (Post_set_stats self stats) (posts db))))
  = count_replies db self.
Proof.
  intros Hnd Hin. unfold count_replies. f_equal.
  apply (filter_length_after_save post_id
           (fun p => opt_string_eqb (post_in_reply_to p) (post_object_uri self))
           (posts db) self (Post_set_stats self stats)); auto.
Qed.

(** The stats after a first like: one more like, the rest as before. *)
Lemma stats_after_first_like (db : DB) (n1 identity_pk : Z) (p : Post) :
  stats_of (with_interactions db (interactions db ++ [like_row n1 identity_pk p])) p
  = [("likes", count_interactions db p "like" + 1);
     ("boosts", count_interactions db p "boost");
     ("replies", count_replies db p)].
Proof.
  unfold stats_of.
  rewrite !(count_interactions_last
              (with_interactions db (interactions db ++ [like_row n1 identity_pk p]))
              p _ (interactions db) (like_row n1 identity_pk p) eq_refl).
  simpl. rewrite Z.eqb_refl. simpl.
  rewrite Z.add_0_r.
  replace (with_interactions
             (with_interactions db (interactions db ++ [like_row n1 identity_pk p]))
             (interactions db)) with db by (destruct db; reflexivity).
  reflexivity.
Qed.

(** C4 (as the code has it): for a stored post P and an identity I with no
    prior like interaction between them, calling [like_post(P, I)] twice
    leaves exactly one like row for (I, P), in an active state, and P's
    [stats["likes"]] equal to one more than the number of active likes the
    other identities have on P (identical to calling it once); a subsequent
    [unlike_post(P, I)] leaves no like row for (I, P) in an active state and
    [stats["likes"]] equal to the number of active likes of the others; and
    [unlike_post] when no interaction exists touches no interaction row and
    only stores the recomputed stats of P, so it changes nothing when these
    were up to date. *)
Theorem like_twice_then_unlike (db : DB) (n1 n2 identity_pk : Z) (p : Post) :
  NoDup (map post_id (posts db)) ->
  In p (posts db) ->
  has_pk identity_id identity_pk (identities db) = true ->
  ~ In n1 (map interaction_id (interactions db)) ->
  filter (interaction_of "like" identity_pk p) (interactions db) = [] ->
  let others := count_interactions db p "like" in
  let boosts := count_interactions db p "boost" in
  let replies := count_replies db p in
  (exists db1 row,
     Takahe.like_post n1 (post_id p) identity_pk db = (db1, Ok (Some row))
     /\ Takahe.like_post n2 (post_id p) identity_pk db1 = (db1, Ok (Some row))
     /\ filter (interaction_of "like" identity_pk p) (interactions db1) = [row]
     /\ is_active (interaction_state row) = true
     /\ Takahe.get_post_stats (post_id p) db1
        = (db1, Ok [("likes", others + 1); ("boosts", boosts); ("replies", replies)])
     /\ exists db2,
          Takahe.unlike_post (post_id p) identity_pk db1 = (db2, Ok tt)
          /\ filter (fun i => interaction_of "like" identity_pk p i
                              && is_active (interaction_state i))
                    (interactions db2) = []
          /\ Takahe.get_post_stats (post_id p) db2
             = (db2, Ok [("likes", others); ("boosts", boosts); ("replies", replies)]))
  /\ Takahe.unlike_post (post_id p) identity_pk db
     = (with_posts db
          (save_row post_id (Post_set_stats p (Some (stats_of db p))) (posts db)),
        Ok tt)
  /\ (post_stats p = Some (stats_of db p) ->
      Takahe.unlike_post (post_id p) identity_pk db = (db, Ok tt)).
Proof.
  intros Hnd Hin Hid Hfresh Hnone others boosts replies.
  set (row := like_row n1 identity_pk p).
  set (dbA := with_interactions db (interactions db ++ [row])).
  assert (HsA : stats_of dbA p
                = [("likes", others + 1); ("boosts", boosts); ("replies", replies)]).
  { apply stats_after_first_like. }
  set (p1 := Post_set_stats p (Some (stats_of dbA p))).
  set (db1 := with_posts dbA (save_row post_id p1 (posts db))).
  assert (Hin1 : In p1 (posts db1)).
  { apply (save_row_holds_new post_id (posts db) p p1 Hin). reflexivity. }
  assert (Hnd1 : NoDup (map post_id (posts db1))).
  { unfold db1. simpl.
    rewrite (save_row_keeps_keys post_id (posts db) p p1 Hin) by reflexivity. exact Hnd. }
  assert (Hrow : interaction_of "like" identity_pk p row = true).
  { unfold interaction_of, row. simpl. rewrite !Z.eqb_refl. reflexivity. }
  assert (Hrows1 : filter (interaction_of "like" identity_pk p) (interactions db1) = [row]).
  { unfold db1. simpl. rewrite filter_app, Hnone. simpl. rewrite Hrow. reflexivity. }
  assert (Hstats1 : post_stats p1 = Some (stats_of db1 p1)).
  { unfold p1 at 1. simpl. f_equal. symmetry.
    apply (stats_of_after_save dbA p (Some (stats_of dbA p))); assumption. }
  split.
  - exists db1, row.
    split; [apply like_first; assumption |].
    split.
    { apply (like_again db1 n2 identity_pk p1 row Hnd1 Hin1 Hrows1 eq_refl Hstats1). }
    split; [exact Hrows1 |].
    split; [reflexivity |].
    split.
    { apply (get_post_stats_stored db1 p1 _ _ Hnd1 Hin1).
      change (post_stats p1) with (Some (stats_of dbA p)).
      rewrite HsA. reflexivity. }
    set (row' := PostInteraction_set_state row "undone").
    set (dbB := with_interactions db1 (interactions db ++ [row'])).
    assert (Hundone : undone_rows (filter (interaction_of "like" identity_pk p1)
                                          (interactions db1)) (interactions db1)
                      = (interactions db ++ [row'])%list).
    { change (interaction_of "like" identity_pk p1)
        with (interaction_of "like" identity_pk p).
      rewrite Hrows1. unfold undone_rows. simpl.
      apply (save_row_last interaction_id (interactions db) row row' Hfresh).
      reflexivity. }
    assert (HsB : stats_of dbB p1
                  = [("likes", others); ("boosts", boosts); ("replies", replies)]).
    { unfold stats_of.
      rewrite !(count_interactions_last dbB p1 _ (interactions db) row' eq_refl).
      simpl. rewrite !Z.eqb_refl. simpl. rewrite !Z.add_0_r.
      assert (E1 : count_interactions (with_interactions dbB (interactions db)) p1 "like"
                   = others) by reflexivity.
      assert (E2 : count_interactions (with_interactions dbB (interactions db)) p1 "boost"
                   = boosts) by reflexivity.
      assert (E3 : count_replies dbB p1 = replies).
      { unfold count_replies at 1. simpl.
        apply (count_replies_after_save db p (Some (stats_of dbA p)) Hnd Hin). }
      rewrite E1, E2, E3. reflexivity. }
    set (p2 := Post_set_stats p1 (Some (stats_of dbB p1))).
    exists (with_posts dbB (save_row post_id p2 (posts db1))).
    split.
    { pose proof (unlike_run db1 identity_pk p1 Hnd1 Hin1) as Hun.
      cbv zeta in Hun. rewrite Hundone in Hun. exact Hun. }
    split.
    { assert (Hrow' : interaction_of "like" identity_pk p row' = true) by exact Hrow.
      change (interactions (with_posts dbB (save_row post_id p2 (posts db1))))
        with (interactions db ++ [row'])%list.
      rewrite filter_app.
      replace (filter (fun i => interaction_of "like" identity_pk p i
                                && is_active (interaction_state i)) [row'])
        with (@nil PostInteraction)
        by (unfold filter; rewrite Hrow'; reflexivity).
      rewrite app_nil_r. apply filter_none. intros x Hx.
      rewrite (filter_nil_inv _ _ x Hnone Hx). reflexivity. }
    apply (get_post_stats_stored _ p2).
    + change (NoDup (map post_id (save_row post_id p2 (posts db1)))).
      rewrite (save_row_keeps_keys post_id (posts db1) p1 p2 Hin1) by reflexivity.
      exact Hnd1.
    + change (In p2 (save_row post_id p2 (posts db1))).
      apply (save_row_holds_new post_id (posts db1) p1 p2 Hin1). reflexivity.
    + change (post_stats p2) with (Some (stats_of dbB p1)).
      rewrite HsB. reflexivity.
  - assert (Hrun : Takahe.unlike_post (post_id p) identity_pk db
                   = (with_posts db
                        (save_row post_id (Post_set_stats p (Some (stats_of db p)))
                           (posts db)),
                      Ok tt)).
    { rewrite (unlike_run db identity_pk p Hnd Hin). cbv zeta.
      rewrite Hnone. unfold undone_rows. simpl.
      rewrite with_interactions_same. reflexivity. }
    split; [exact Hrun |].
    intros Hstats. rewrite Hrun.
    assert (Hself : Post_set_stats p (Some (stats_of db p)) = p).
    { rewrite <- Hstats. destruct p; reflexivity. }
    rewrite Hself, (save_row_unchanged post_id (posts db) p Hnd Hin), with_posts_same.
    reflexivity.
Qed.

Lemma like_twice_then_unlike_witness :
  exists db1 row,
    Takahe.like_post 701 500 1 bob_liked_db = (db1, Ok (Some row))
    /\ Takahe.like_post 702 500 1 db1 = (db1, Ok (Some row))
    /\ filter (interaction_of "like" 1 (sample_post 500 1 None)) (interactions db1) = [row]
    /\ Takahe.get_post_stats 500 db1
       = (db1, Ok [("likes", 2); ("boosts", 0); ("replies", 0)])
    /\ exists db2,
         Takahe.unlike_post 500 1 db1 = (db2, Ok tt)
         /\ Takahe.get_post_stats 500 db2
            = (db2, Ok [("likes", 1); ("boosts", 0); ("replies", 0)]).
Proof.
  assert (Hnd : NoDup (map post_id (posts bob_liked_db))).
  { vm_compute. concrete_nodup. }
  assert (Hin : In (sample_post 500 1 (Some [("likes", 1); ("boosts", 0); ("replies", 0)]))
                   (posts bob_liked_db)).
  { vm_compute. left. reflexivity. }
  assert (Hfresh : ~ In 701 (map interaction_id (interactions bob_liked_db))).
  { vm_compute. intros [H | []]. discriminate H. }
  destruct (like_twice_then_unlike bob_liked_db 701 702 1 _ Hnd Hin eq_refl Hfresh eq_refl)
    as [[db1 [row [H1 [H2 [H3 [_ [H5 [db2 [H6 [_ H8]]]]]]]]]] _].
  exists db1, row.
  split; [exact H1 |]. split; [exact H2 |]. split; [exact H3 |]. split; [exact H5 |].
  exists db2. split; [exact H6 | exact H8].
Defined.

(** The claim of C4 fails on a post another identity has liked: after alice
    likes it twice the stats count two likes, not one; and on a post whose
    stats were never computed, [unlike_post] with no interaction stores
    them, so the database changes. *)
Lemma like_counts_the_likes_of_others :
  filter (interaction_of "like" 1 (sample_post 500 1 None)) (interactions bob_liked_db) = []
  /\ (let db1 := fst (Takahe.like_post 701 500 1 bob_liked_db) in
      let db2 := fst (Takahe.like_post 702 500 1 db1) in
      snd (Takahe.get_post_stats 500 db2)
      = Ok [("likes", 2); ("boosts", 0); ("replies", 0)])
  /\ filter (interaction_of "like" 1 (sample_post 500 1 None))
            (interactions fresh_post_db) = []
  /\ fst (Takahe.unlike_post 500 1 fresh_post_db) <> fresh_post_db.
Proof.
  split; [reflexivity |].
  split; [reflexivity |].
  split; [reflexivity |].
  intros H. apply (f_equal posts) in H. vm_compute in H. discriminate H.
Qed.

(** ** Resolving a handle *)

Lemma with_domains_same (db : DB) : with_domains db (domains db) = db.
Proof. destruct db; reflexivity. Qed.

Lemma NoDup_map_filter {R K} (key : R -> K) (f : R -> bool) (l : list R) :
  NoDup (map key l) -> NoDup (map key (filter f l)).
Proof.
  induction l as [| a l IH]; simpl; intros Hnd; [constructor |].
  inversion Hnd as [| ? ? Hnotin Hnd']; subst.
  destruct (f a); simpl; [| apply IH; exact Hnd'].
  constructor; [| apply IH; exact Hnd'].
  intros Hin. apply Hnotin. apply in_map_iff in Hin. destruct Hin as [x [Hk Hx]].
  apply filter_In in Hx. destruct Hx as [Hx _].
  rewrite <- Hk. apply in_map. exact Hx.
Qed.

(** [get_remote_domain] on a table with unique keys and no local domain of
    that name returns the remote domain of the lower-cased name, creating it
    when it is missing. *)
Lemma get_remote_domain_run (env : Env) (d : string) (db : DB) :
  NoDup (map domain_domain (domains db)) ->
  (forall x, In x (domains db) -> domain_domain x = str_lower env d ->
             domain_local x = false) ->
  exists rows' row,
    get_remote_domain env d db = (with_domains db rows', Ok row)
    /\ domain_domain row = str_lower env d
    /\ existsb (fun x => domain_domain x =? str_lower env d)%string rows' = true.
Proof.
  intros Hnd Hremote.
  unfold get_remote_domain, except_DoesNotExist, lift, Domain_create.
  set (n := str_lower env d) in *.
  set (f := fun x : Domain => ((domain_domain x =? n)%string && negb (domain_local x))%bool).
  destruct (filter f (domains db)) as [| r [| r2 rest]] eqn:F.
  - simpl.
    assert (Habsent : existsb (fun x => (domain_domain x =? n)%string) (domains db) = false).
    { destruct (existsb (fun x => (domain_domain x =? n)%string) (domains db)) eqn:E;
        [| reflexivity].
      apply existsb_exists in E. destruct E as [x [Hx Hn]].
      apply String.eqb_eq in Hn.
      assert (Hfx : f x = false) by (apply (filter_nil_inv f _ x F Hx)).
      unfold f in Hfx. rewrite (Hremote x Hx Hn) in Hfx.
      rewrite Hn, String.eqb_refl in Hfx. discriminate Hfx. }
    rewrite Habsent.
    eexists. eexists. split; [reflexivity |]. split; [reflexivity |].
    rewrite existsb_app. simpl. rewrite String.eqb_refl.
    rewrite orb_true_r. reflexivity.
  - simpl. exists (domains db), r. rewrite with_domains_same.
    assert (Hr : In r (filter f (domains db))) by (rewrite F; left; reflexivity).
    apply filter_In in Hr. destruct Hr as [Hr Hfr].
    unfold f in Hfr. apply andb_true_iff in Hfr. destruct Hfr as [Hname _].
    split; [reflexivity |]. split.
    + apply String.eqb_eq. exact Hname.
    + apply existsb_exists. exists r. split; assumption.
  - exfalso.
    pose proof (NoDup_map_filter domain_domain f (domains db) Hnd) as Hnd'.
    rewrite F in Hnd'. simpl in Hnd'.
    assert (Hname : forall x, In x (filter f (domains db)) -> domain_domain x = n).
    { intros x Hx. apply filter_In in Hx. destruct Hx as [_ Hfx].
      unfold f in Hfx. apply andb_true_iff in Hfx. destruct Hfx as [Hn _].
      apply String.eqb_eq. exact Hn. }
    rewrite F in Hname.
    inversion Hnd' as [| ? ? Hnotin _]; subst. apply Hnotin. left.
    rewrite (Hname r (or_introl eq_refl)).
    apply (Hname r2). right. left. reflexivity.
Qed.

Lemma Identity_create_run (db : DB) (new_id : Z) (uri u dom : string) :
  ~ In new_id (map identity_id (identities db)) ->
  filter (fun i => opt_string_eqb (Some (identity_actor_uri i)) (Some uri))
         (identities db) = [] ->
  existsb (fun i => opt_string_eqb (identity_username i) (Some u)
                    && opt_string_eqb (identity_domain_id i) (Some dom))
          (identities db) = false ->
  existsb (fun d => domain_domain d =? dom)%string (domains db) = true ->
  Identity_create new_id (Some uri) u dom false db
  = (let i := {| identity_id := new_id; identity_actor_uri := uri;
                 identity_local := false; identity_username := Some u;
                 identity_domain_id := Some dom |} in
     (with_identities db (identities db ++ [i]), Ok i)).
Proof.
  intros Hfresh Hactor Hpair Hdom. unfold Identity_create.
  assert (Hid : has_pk identity_id new_id (identities db) = false).
  { apply has_pk_fresh. exact Hfresh. }
  assert (Huri : existsb (fun i => (identity_actor_uri i =? uri)%string) (identities db)
                 = false).
  { destruct (existsb (fun i => (identity_actor_uri i =? uri)%string) (identities db))
      eqn:E; [| reflexivity].
    apply existsb_exists in E. destruct E as [x [Hx Hu]].
    pose proof (filter_nil_inv _ _ x Hactor Hx) as Hno. simpl in Hno. congruence. }
  rewrite Hid, Huri, Hpair, Hdom. reflexivity.
Qed.

Lemma unmatched_lookup (env : Env) (username dom : string) (local' : bool) (db : DB) :
  (forall i, In i (identities db) ->
     match identity_username i with
     | Some u0 => iexact env u0 username
     | None => false
     end && opt_string_eqb (identity_domain_id i) (Some dom) = false) ->
  Identity_get MIdentity
    (fun i => match identity_username i with
              | Some u0 => iexact env u0 username
              | None => false
              end
              && opt_string_eqb (identity_domain_id i) (Some dom)
              && (if local' then identity_local i else true)) db
  = (db, Raise (DoesNotExist MIdentity)).
Proof.
  intros Hmiss. unfold Identity_get, lift.
  rewrite filter_none; [reflexivity |].
  intros i Hi. rewrite (Hmiss i Hi). reflexivity.
Qed.

(** After a missed lookup and a successful discovery, what remains of
    [by_username_and_domain] is the lookup by actor uri and the creation. *)
Lemma resolve_after_discovery (env : Env) (new_id : Z) (username : string)
    (domain : domain_arg) (local : bool) (db : DB) (uri subject : string) :
  prefix "@" username = false ->
  looks_remote domain local ->
  (forall i, In i (identities db) ->
     match identity_username i with
     | Some u0 => iexact env u0 username
     | None => false
     end && opt_string_eqb (identity_domain_id i) (Some (looked_up_domain env domain))
     = false) ->
  fetch_webfinger env (username ++ "@" ++ looked_up_domain env domain)
  = Ok (Some (JStr uri, subject)) ->
  by_username_and_domain env new_id username domain true local db
  = except_DoesNotExist MIdentity
      (i <- Identity_get MIdentity
              (fun i => opt_string_eqb (Some (identity_actor_uri i)) (Some uri)) ;;
       ret (Some i))
      (match unpack_handle subject with
       | Raise e => raise e
       | Ok (u, d) =>
           domain_instance <-
             match domain with
             | DomainInstance dd => ret dd
             | DomainName _ => get_remote_domain env d
             end ;;
           i <- Identity_create new_id (Some uri) u (domain_domain domain_instance) false ;;
           ret (Some i)
       end) db.
Proof.
  intros Hat Hremote Hmiss Hwf.
  unfold by_username_and_domain. rewrite Hat.
  destruct domain as [name | dinst];
    unfold looks_remote in Hremote; unfold looked_up_domain in Hmiss, Hwf; cbv zeta.
  - subst local.
    unfold except_DoesNotExist at 1. unfold bind at 1.
    rewrite (unmatched_lookup env username (str_lower env name) false db Hmiss).
    cbv iota beta. change (model_eqb MIdentity MIdentity) with true. cbv iota.
    change (true && negb false) with true. cbv iota.
    rewrite Hwf. reflexivity.
  - rewrite Hremote.
    unfold except_DoesNotExist at 1. unfold bind at 1.
    rewrite (unmatched_lookup env username (domain_domain dinst) false db Hmiss).
    cbv iota beta. change (model_eqb MIdentity MIdentity) with true. cbv iota.
    change (true && negb false) with true. cbv iota.
    rewrite Hwf. reflexivity.
Qed.

(** C7 (as the code has it): when [by_username_and_domain(username, domain,
    fetch=True)] finds no identity under (username, domain) and discovery
    yields an actor URI and a canonical subject handle, an identity that
    already has that actor URI is returned, the database unchanged; otherwise
    a remote identity is created whose username is the subject's username and
    whose domain is, for a [domain] given as a host name, the subject's domain
    in lower case, and, for a [domain] given as a Domain record, that
    record's domain. *)
Theorem by_username_and_domain_after_discovery (env : Env) (new_id : Z)
    (username : string) (domain : domain_arg) (local : bool) (db : DB)
    (uri subject : string) :
  prefix "@" username = false ->
  looks_remote domain local ->
  (forall i, In i (identities db) ->
     match identity_username i with
     | Some u0 => iexact env u0 username
     | None => false
     end && opt_string_eqb (identity_domain_id i) (Some (looked_up_domain env domain))
     = false) ->
  fetch_webfinger env (username ++ "@" ++ looked_up_domain env domain)
  = Ok (Some (JStr uri, subject)) ->
  (forall existing,
     filter (fun i => opt_string_eqb (Some (identity_actor_uri i)) (Some uri))
            (identities db) = [existing] ->
     by_username_and_domain env new_id username domain true local db
     = (db, Ok (Some existing)))
  /\ (forall u d,
        filter (fun i => opt_string_eqb (Some (identity_actor_uri i)) (Some uri))
               (identities db) = [] ->
        unpack_handle subject = Ok (u, d) ->
        domain_ready env domain d db ->
        ~ In new_id (map identity_id (identities db)) ->
        existsb (fun i => opt_string_eqb (identity_username i) (Some u)
                          && opt_string_eqb (identity_domain_id i)
                               (Some (bound_domain env domain d)))
                (identities db) = false ->
        let created :=
          {| identity_id := new_id; identity_actor_uri := uri;
             identity_local := false; identity_username := Some u;
             identity_domain_id := Some (bound_domain env domain d) |} in
        exists db',
          by_username_and_domain env new_id username domain true local db
          = (db', Ok (Some created))
          /\ identities db' = (identities db ++ [created])%list).
Proof.
  intros Hat Hremote Hmiss Hwf. split.
  - intros existing Hfound.
    rewrite (resolve_after_discovery env new_id username domain local db uri subject
               Hat Hremote Hmiss Hwf).
    unfold except_DoesNotExist, bind, Identity_get, lift. rewrite Hfound. reflexivity.
  - intros u d Hnone Hunpack Hready Hfresh Hpair created.
    rewrite (resolve_after_discovery env new_id username domain local db uri subject
               Hat Hremote Hmiss Hwf).
    unfold except_DoesNotExist at 1. unfold bind at 1.
    unfold Identity_get, lift. rewrite Hnone.
    cbv iota beta. change (qs_get MIdentity (@nil Identity))
      with (@Raise Identity (DoesNotExist MIdentity)).
    cbv iota. change (model_eqb MIdentity MIdentity) with true. cbv iota.
    rewrite Hunpack. cbv iota beta.
    destruct domain as [name | dinst]; unfold domain_ready in Hready;
      unfold bound_domain in Hpair, created.
    + destruct Hready as [Hnd Hnolocal].
      destruct (get_remote_domain_run env d db Hnd Hnolocal)
        as [rows' [row [Hrun [Hname Hexists]]]].
      rewrite (bind_ok _ _ db _ row Hrun). rewrite Hname.
      rewrite (bind_ok _ _ _ _ created
                 (Identity_create_run (with_domains db rows') new_id uri u
                    (str_lower env d) Hfresh Hnone Hpair Hexists)).
      eexists. split; reflexivity.
    + unfold bind at 1, ret at 1.
      rewrite (bind_ok _ _ _ _ created
                 (Identity_create_run db new_id uri u (domain_domain dinst)
                    Hfresh Hnone Hpair Hready)).
      eexists. split; reflexivity.
Qed.

Example discovery_sample :
  fetch_webfinger (discovering "bob@Main.Example" "https://main.example/users/bob")
    "bob@alias.example"
  = Ok (Some (JStr "https://main.example/users/bob", "bob@Main.Example")).
Proof. reflexivity. Qed.

Lemma by_username_and_domain_after_discovery_witness :
  exists db',
    by_username_and_domain
      (discovering "bob@Main.Example" "https://main.example/users/bob")
      900 "bob" (DomainName "Alias.example") true false two_identities
    = (db',
       Ok (Some {| identity_id := 900;
                   identity_actor_uri := "https://main.example/users/bob";
                   identity_local := false;
                   identity_username := Some "bob";
                   identity_domain_id := Some "main.example" |}))
    /\ identities db'
       = (identities two_identities
          ++ [{| identity_id := 900;
                 identity_actor_uri := "https://main.example/users/bob";
                 identity_local := false;
                 identity_username := Some "bob";
                 identity_domain_id := Some "main.example" |}])%list.
Proof.
  refine (proj2
    (by_username_and_domain_after_discovery
       (discovering "bob@Main.Example" "https://main.example/users/bob")
       900 "bob" (DomainName "Alias.example") false two_identities
       "https://main.example/users/bob" "bob@Main.Example"
       eq_refl eq_refl _ eq_refl)
    "bob" "Main.Example" eq_refl eq_refl _ _ eq_refl).
  - intros i Hi. simpl in Hi.
    destruct Hi as [<- | [<- | []]]; reflexivity.
  - simpl. split; [constructor | intros x []].
  - simpl. intros [H | [H | []]]; discriminate H.
Defined.

(** The claim of C7 fails when [domain] is a Domain record: the new identity
    is bound to that record's domain, not to the subject's; and for a host
    name the subject's domain is stored in lower case. *)
Lemma created_identity_domain_differs :
  unpack_handle "bob@main.example" = Ok ("bob", "main.example")
  /\ snd (by_username_and_domain
            (discovering "bob@main.example" "https://main.example/users/bob")
            900 "bob" (DomainInstance alias_domain) true false alias_known_db)
     = Ok (Some {| identity_id := 900;
                   identity_actor_uri := "https://main.example/users/bob";
                   identity_local := false;
                   identity_username := Some "bob";
                   identity_domain_id := Some "alias.example" |})
  /\ "alias.example" <> "main.example"
  /\ snd (by_username_and_domain
            (discovering "bob@Main.Example" "https://main.example/users/bob")
            900 "bob" (DomainName "alias.example") true false two_identities)
     = Ok (Some {| identity_id := 900;
                   identity_actor_uri := "https://main.example/users/bob";
                   identity_local := false;
                   identity_username := Some "bob";
                   identity_domain_id := Some "main.example" |})
  /\ "main.example" <> "Main.Example".
Proof.
  split; [reflexivity |].
  split; [reflexivity |].
  split; [discriminate |].
  split; [reflexivity | discriminate].
Qed.

(** * Further properties of the code *)

(** ** Snowflake: ids follow the clock *)

(** X1: two ids generated at clock readings 1.001 milliseconds or more
    apart, both within the 41-bit range of the timestamp, compare as the
    readings do, whatever the random draws and the type tags. *)
Theorem snowflake_ids_follow_the_clock (t1 t2 : Snowflake.float) (r1 r2 y1 y2 : Z) :
  0 <= r1 < 2 ^ 19 -> 0 <= r2 < 2 ^ 19 ->
  0 <= y1 <= 7 -> 0 <= y2 <= 7 ->
  valid_binary Snowflake.prec Snowflake.emax t1 = true ->
  valid_binary Snowflake.prec Snowflake.emax t2 = true ->
  (inject_Z Snowflake.EPOCH + (1 # 1000) <= Snowflake.F2Q t1)%Q ->
  (Snowflake.F2Q t1 + (1001 # 1000000) <= Snowflake.F2Q t2)%Q ->
  (Snowflake.F2Q t2 < inject_Z Snowflake.EPOCH + inject_Z (2 ^ 41) / inject_Z 1000)%Q ->
  exists id1 id2,
    Snowflake.generate t1 r1 y1 = Ok id1
    /\ Snowflake.generate t2 r2 y2 = Ok id2
    /\ id1 < id2.
Proof.
  intros Hr1 Hr2 Hy1 Hy2 Hv1 Hv2 Hlo Hgap Hhi.
  assert (Hhi1 : (Snowflake.F2Q t1
                  < inject_Z Snowflake.EPOCH + inject_Z (2 ^ 41) / inject_Z 1000)%Q) by lra.
  assert (Hlo2 : (inject_Z Snowflake.EPOCH + (1 # 1000) <= Snowflake.F2Q t2)%Q) by lra.
  destruct (clock_shape t1 Hv1 Hlo Hhi1) as [m1 [e1 [Ht1 [He1 [Hm1 [Hz1lo Hz1hi]]]]]].
  destruct (clock_shape t2 Hv2 Hlo2 Hhi) as [m2 [e2 [Ht2 [He2 [Hm2 [Hz2lo Hz2hi]]]]]].
  subst t1 t2.
  destruct (roundtrip_scaled m1 e1 He1 Hm1 Hz1lo Hz1hi)
    as [n1 [_ [_ [_ [Hn1 [Hrg1 [Hup1 [_ _]]]]]]]].
  destruct (roundtrip_scaled m2 e2 He2 Hm2 Hz2lo Hz2hi)
    as [n2 [_ [_ [_ [Hn2 [Hrg2 [_ [Hnext2 _]]]]]]]].
  assert (Hz : 1000000 * scaled 128 m1 e1 + 1001 * 2 ^ 128
               <= 1000000 * scaled 128 m2 e2).
  { pose proof (F2Q_scaled m1 e1 ltac:(lia)) as Ea.
    pose proof (F2Q_scaled m2 e2 ltac:(lia)) as Eb.
    set (a := Snowflake.F2Q (S754_finite false m1 e1)) in *.
    set (b := Snowflake.F2Q (S754_finite false m2 e2)) in *.
    rewrite Zle_Qle.
    rewrite inject_Z_plus, !inject_Z_mult.
    change (inject_Z (2 ^ 128)) with (340282366920938463463374607431768211456 # 1) in *.
    change (inject_Z 1000000) with (1000000 # 1).
    change (inject_Z 1001) with (1001 # 1).
    set (va := inject_Z (scaled 128 m1 e1)) in *.
    set (vb := inject_Z (scaled 128 m2 e2)) in *.
    lra. }
  exists (Snowflake.pack n1 r1 y1), (Snowflake.pack n2 r2 y2).
  split; [unfold Snowflake.generate; rewrite Hn1; reflexivity |].
  split; [unfold Snowflake.generate; rewrite Hn2; reflexivity |].
  rewrite !pack_sum by lia.
  assert (n1 + 1 <= n2) by (unfold Snowflake.EPOCH in *; lia).
  lia.
Qed.

Lemma snowflake_ids_follow_the_clock_witness :
  exists id1 id2,
    Snowflake.generate (S754_finite false 7512084028229419 (-22)) 524287 7 = Ok id1
    /\ Snowflake.generate (S754_finite false 7512084028233619 (-22)) 0 0 = Ok id2
    /\ id1 < id2.
Proof.
  apply (snowflake_ids_follow_the_clock
           (S754_finite false 7512084028229419 (-22))
           (S754_finite false 7512084028233619 (-22)) 524287 0 7 0).
  - lia.
  - lia.
  - lia.
  - lia.
  - vm_compute. reflexivity.
  - vm_compute. reflexivity.
  - vm_compute. discriminate.
  - vm_compute. discriminate.
  - vm_compute. reflexivity.
Defined.

(** ** Follow state transitions, continued *)

Lemma update_follow_state_no_row (db : DB) (a b : Z) (from : list string) (to : string) :
  filter (follow_between a b) (follows db) = [] ->
  Takahe.update_follow_state a b from to db = (db, Ok None).
Proof.
  intros Hnone. unfold Takahe.update_follow_state, bind, gets. rewrite Hnone.
  reflexivity.
Qed.

Lemma update_follow_state_on_row (db : DB) (a b : Z) (from : list string) (to : string)
    (r : Follow) :
  wf_follows (follows db) -> In r (follows db) -> follow_between a b r = true ->
  Takahe.update_follow_state a b from to db
  = if (match from with [] => true | _ => false end
        || existsb (String.eqb (follow_state r)) from)
       && negb (follow_state r =? to)%string
    then (with_follows db (save_row follow_id (Follow_set_state r to) (follows db)),
          Ok (Some (Follow_set_state r to)))
    else (db, Ok (Some r)).
Proof.
  intros Hwf Hin Hr. unfold Takahe.update_follow_state, bind, gets.
  rewrite (follow_filter_singleton (follows db) a b r Hwf Hin Hr).
  rewrite qs_first_singleton.
  destruct ((match from with [] => true | _ => false end
             || existsb (String.eqb (follow_state r)) from)
            && negb (follow_state r =? to)%string); reflexivity.
Qed.

(** X2: on a Follow table that satisfies its constraints,
    [update_follow_state] never raises, and a second call with the same
    arguments changes nothing and returns what the first returned. *)
Theorem update_follow_state_idempotent
    (db : DB) (a b : Z) (from : list string) (to : string) :
  wf_follows (follows db) ->
  exists db1 out,
    Takahe.update_follow_state a b from to db = (db1, Ok out)
    /\ Takahe.update_follow_state a b from to db1 = (db1, Ok out).
Proof.
  intros Hwf.
  destruct (filter (follow_between a b) (follows db)) as [| r rest] eqn:F.
  - exists db, None.
    rewrite (update_follow_state_no_row db a b from to F). split; reflexivity.
  - assert (Hin : In r (filter (follow_between a b) (follows db))).
    { rewrite F. left. reflexivity. }
    apply filter_In in Hin. destruct Hin as [Hin Hr].
    rewrite (update_follow_state_on_row db a b from to r Hwf Hin Hr).
    destruct ((match from with [] => true | _ => false end
               || existsb (String.eqb (follow_state r)) from)
              && negb (follow_state r =? to)%string) eqn:Hcond.
    + set (r' := Follow_set_state r to).
      set (db1 := with_follows db (save_row follow_id r' (follows db))).
      exists db1, (Some r'). split; [reflexivity |].
      assert (Hwf1 : wf_follows (follows db1)).
      { apply (wf_follows_after_save (follows db) r r'); auto. }
      assert (Hin1 : In r' (follows db1)).
      { apply (save_row_holds_new follow_id (follows db) r r' Hin). reflexivity. }
      rewrite (update_follow_state_on_row db1 a b from to r' Hwf1 Hin1 Hr).
      change (follow_state r') with to. rewrite String.eqb_refl.
      rewrite andb_false_r. reflexivity.
    + exists db, (Some r). split; [reflexivity |].
      rewrite (update_follow_state_on_row db a b from to r Hwf Hin Hr).
      rewrite Hcond. reflexivity.
Qed.

Lemma update_follow_state_idempotent_witness :
  exists db1 out,
    Takahe.update_follow_state 2 1 ["pending_approval"] "accepted" mutual_follow_db
    = (db1, Ok out)
    /\ Takahe.update_follow_state 2 1 ["pending_approval"] "accepted" db1 = (db1, Ok out).
Proof.
  apply (update_follow_state_idempotent mutual_follow_db 2 1
           ["pending_approval"] "accepted").
  split; simpl; concrete_nodup.
Defined.

(** X3: [update_follow_state] never adds or removes a Follow row and never
    changes a row's key, endpoints, boosts preference or uri; the other
    tables stay as they are. *)
Theorem update_follow_state_only_changes_state
    (db : DB) (a b : Z) (from : list string) (to : string) :
  wf_follows (follows db) ->
  let db1 := fst (Takahe.update_follow_state a b from to db) in
  map follow_id (follows db1) = map follow_id (follows db)
  /\ map follow_pair (follows db1) = map follow_pair (follows db)
  /\ map follow_boosts (follows db1) = map follow_boosts (follows db)
  /\ map follow_uri (follows db1) = map follow_uri (follows db)
  /\ with_follows db1 (follows db) = db.
Proof.
  intros Hwf.
  assert (Hsame : with_follows db (follows db) = db) by (destruct db; reflexivity).
  destruct (filter (follow_between a b) (follows db)) as [| r rest] eqn:F.
  - rewrite (update_follow_state_no_row db a b from to F). simpl.
    repeat split; auto.
  - assert (Hin : In r (filter (follow_between a b) (follows db))).
    { rewrite F. left. reflexivity. }
    apply filter_In in Hin. destruct Hin as [Hin Hr].
    rewrite (update_follow_state_on_row db a b from to r Hwf Hin Hr).
    destruct ((match from with [] => true | _ => false end
               || existsb (String.eqb (follow_state r)) from)
              && negb (follow_state r =? to)%string); simpl.
    + destruct Hwf as [Hpk Hpair].
      split; [apply (save_row_keeps_keys follow_id (follows db) r _ Hin); reflexivity |].
      split; [apply (save_row_keeps_column follow_id follow_pair (follows db) r _ Hpk Hin);
              reflexivity |].
      split; [apply (save_row_keeps_column follow_id follow_boosts (follows db) r _ Hpk Hin);
              reflexivity |].
      split; [apply (save_row_keeps_column follow_id follow_uri (follows db) r _ Hpk Hin);
              reflexivity |].
      exact Hsame.
    + repeat split; auto.
Qed.

Lemma update_follow_state_only_changes_state_witness :
  let db1 := fst (Takahe.update_follow_state 1 2 [] "undone" mutual_follow_db) in
  map follow_id (follows db1) = map follow_id (follows mutual_follow_db)
  /\ map follow_pair (follows db1) = map follow_pair (follows mutual_follow_db)
  /\ map follow_boosts (follows db1) = map follow_boosts (follows mutual_follow_db)
  /\ map follow_uri (follows db1) = map follow_uri (follows mutual_follow_db)
  /\ with_follows db1 (follows mutual_follow_db) = mutual_follow_db.
Proof.
  apply (update_follow_state_only_changes_state mutual_follow_db 1 2 [] "undone").
  split; simpl; concrete_nodup.
Defined.

(** ** Following *)

(** X4: when no Follow row exists for (A, B), [follow(A, B)] raises
    [Identity.DoesNotExist] if A is no identity, and [IntegrityError] if A
    is one but B is not; in both cases nothing is written. *)
Theorem follow_needs_both_identities (db : DB) (new_id a b : Z) :
  filter (follow_between a b) (follows db) = [] ->
  (filter (fun i => identity_id i =? a) (identities db) = [] ->
   Takahe.follow new_id a b db = (db, Raise (DoesNotExist MIdentity)))
  /\ (forall src,
        filter (fun i => identity_id i =? a) (identities db) = [src] ->
        has_pk identity_id b (identities db) = false ->
        Takahe.follow new_id a b db = (db, Raise IntegrityError)).
Proof.
  intros Hnone. split.
  - intros Hsrc.
    unfold Takahe.follow, except_DoesNotExist, bind, lift, Identity_get.
    rewrite Hnone. simpl. rewrite Hsrc. reflexivity.
  - intros src Hsrc Htgt.
    unfold Takahe.follow, except_DoesNotExist, bind, lift, Identity_get, Follow_create.
    rewrite Hnone. simpl. rewrite Hsrc. simpl. rewrite Htgt.
    rewrite !orb_true_r. reflexivity.
Qed.

Lemma follow_needs_both_identities_witness :
  Takahe.follow 101 7 1 two_identities = (two_identities, Raise (DoesNotExist MIdentity))
  /\ Takahe.follow 101 1 7 two_identities = (two_identities, Raise IntegrityError).
Proof.
  split.
  - apply (proj1 (follow_needs_both_identities two_identities 101 7 1 eq_refl)).
    reflexivity.
  - apply (proj2 (follow_needs_both_identities two_identities 101 1 7 eq_refl)
             (sample_identity 1 "alice" true)).
    + reflexivity.
    + reflexivity.
Defined.

Lemma filter_snoc_false {R} (f : R -> bool) (l : list R) (x : R) :
  f x = false -> filter f (l ++ [x]) = filter f l.
Proof.
  intros Hx. rewrite filter_app. simpl. rewrite Hx. apply app_nil_r.
Qed.

(** A save that replaces a row the filter rejects by a row it rejects too
    is not seen by the filter. *)
Lemma filter_blind_to_save {R} (pk : R -> Z) (f : R -> bool) (rows : list R)
    (old new : R) :
  NoDup (map pk rows) -> In old rows -> pk new = pk old ->
  f old = false -> f new = false ->
  filter f (save_row pk new rows) = filter f rows.
Proof.
  intros Hnd Hin Hpk Hold Hnew.
  rewrite (save_row_stored pk rows old new Hin Hpk).
  assert (Hall : forall x, In x rows -> pk x = pk old -> x = old).
  { intros x Hx Hk. apply (pk_injective pk rows); auto. }
  clear Hin Hnd. induction rows as [| a rows IH]; simpl; [reflexivity |].
  assert (IH' := IH (fun x Hx => Hall x (or_intror Hx))).
  destruct (Z.eqb_spec (pk a) (pk old)) as [E | E].
  - rewrite Hnew. rewrite (Hall a (or_introl eq_refl) E), Hold. exact IH'.
  - destruct (f a); rewrite IH'; reflexivity.
Qed.

(** The Follow table after a [follow] call, case by case. *)
Lemma follow_outcomes (db : DB) (new_id a b : Z) :
  wf_follows (follows db) ->
  follows (fst (Takahe.follow new_id a b db)) = follows db
  \/ (exists r, In r (follows db) /\ follow_state r <> "accepted"
                /\ follows (fst (Takahe.follow new_id a b db))
                   = save_row follow_id (Follow_set_state r "unrequested") (follows db))
  \/ (exists uri,
        follows (fst (Takahe.follow new_id a b db))
        = (follows db
           ++ [{| follow_id := new_id; follow_source_id := a; follow_target_id := b;
                  follow_boosts := true; follow_uri := uri;
                  follow_state := "unrequested" |}])%list).
Proof.
  intros Hwf.
  destruct (filter (follow_between a b) (follows db)) as [| r [| r2 rest]] eqn:F.
  - unfold Takahe.follow, except_DoesNotExist, bind, lift, Identity_get.
    rewrite F. simpl.
    destruct (qs_get MIdentity (filter (fun i => identity_id i =? a) (identities db)))
      as [source | e]; simpl; [| left; reflexivity].
    unfold Follow_create. simpl.
    destruct (has_pk follow_id new_id (follows db)) eqn:Hid; simpl; [left; reflexivity |].
    destruct (existsb _ (follows db)) eqn:Hpair; simpl; [left; reflexivity |].
    destruct (negb (has_pk identity_id a (identities db))); simpl; [left; reflexivity |].
    destruct (negb (has_pk identity_id b (identities db))); simpl; [left; reflexivity |].
    right. right. eexists.
    apply (save_row_last follow_id (follows db)
             {| follow_id := new_id; follow_source_id := a; follow_target_id := b;
                follow_boosts := true; follow_uri := Some "";
                follow_state := "unrequested" |}).
    + apply key_absent. exact Hid.
    + reflexivity.
  - assert (Hin : In r (filter (follow_between a b) (follows db))).
    { rewrite F. left. reflexivity. }
    apply filter_In in Hin. destruct Hin as [Hin Hr].
    rewrite (follow_on_stored_row db new_id a b r Hwf Hin Hr).
    destruct (follow_state r =? "accepted")%string eqn:Hacc; simpl; [left; reflexivity |].
    right. left. exists r. split; [exact Hin |]. split; [| reflexivity].
    intros Habs. rewrite Habs in Hacc. discriminate Hacc.
  - unfold Takahe.follow, except_DoesNotExist, bind, lift.
    rewrite F. simpl. left. reflexivity.
Qed.

(** X5: [follow] changes nobody's following list and nobody's follower
    list: the row it creates or resets is "unrequested", and the lists show
    accepted follows only. *)
Theorem follow_leaves_the_accepted_lists (db : DB) (new_id a b : Z) :
  wf_follows (follows db) ->
  forall identity_pk,
    Takahe.get_following_ids identity_pk (fst (Takahe.follow new_id a b db))
    = Takahe.get_following_ids identity_pk db
    /\ Takahe.get_follower_ids identity_pk (fst (Takahe.follow new_id a b db))
       = Takahe.get_follower_ids identity_pk db.
Proof.
  intros Hwf identity_pk.
  unfold Takahe.get_following_ids, Takahe.get_follower_ids.
  destruct (follow_outcomes db new_id a b Hwf) as [Hsame | [[r [Hin [Hna Hsave]]] | [uri Hnew]]].
  - rewrite Hsame. split; reflexivity.
  - rewrite Hsave. destruct Hwf as [Hpk _].
    assert (Hnot : (follow_state r =? "accepted")%string = false).
    { apply String.eqb_neq. exact Hna. }
    split; f_equal;
      apply (filter_blind_to_save follow_id _ (follows db) r
               (Follow_set_state r "unrequested") Hpk Hin eq_refl);
      simpl; try rewrite Hnot; apply andb_false_r.
  - rewrite Hnew. split; f_equal; apply filter_snoc_false; simpl; apply andb_false_r.
Qed.

Lemma follow_leaves_the_accepted_lists_witness :
  Takahe.get_following_ids 1 (fst (Takahe.follow 102 1 2 mutual_follow_db))
  = Takahe.get_following_ids 1 mutual_follow_db
  /\ Takahe.get_follower_ids 1 (fst (Takahe.follow 102 1 2 mutual_follow_db))
     = Takahe.get_follower_ids 1 mutual_follow_db.
Proof.
  apply (follow_leaves_the_accepted_lists mutual_follow_db 102 1 2).
  split; simpl; concrete_nodup.
Defined.

Lemma existsb_of_empty_filter {R} (f : R -> bool) (l : list R) :
  filter f l = [] -> existsb f l = false.
Proof.
  intros Hnil. destruct (existsb f l) eqn:E; [| reflexivity].
  apply existsb_exists in E. destruct E as [x [Hx Hf]].
  rewrite (filter_nil_inv f l x Hnil Hx) in Hf. discriminate Hf.
Qed.

Lemma has_pk_of_filter {R} (pk : R -> Z) (k : Z) (rows : list R) (r : R) :
  filter (fun x => pk x =? k) rows = [r] -> has_pk pk k rows = true.
Proof.
  intros Hf.
  assert (Hin : In r (filter (fun x => pk x =? k) rows)) by (rewrite Hf; left; reflexivity).
  apply filter_In in Hin. destruct Hin as [Hin Hk].
  apply existsb_exists. exists r. split; assumption.
Qed.

(** A first [follow]: the row it inserts. *)
Lemma follow_creates (db : DB) (n1 a b : Z) (src : Identity) :
  filter (follow_between a b) (follows db) = [] ->
  filter (fun i => identity_id i =? a) (identities db) = [src] ->
  has_pk identity_id b (identities db) = true ->
  ~ In n1 (map follow_id (follows db)) ->
  Takahe.follow n1 a b db
  = (with_follows db
       (follows db
        ++ [{| follow_id := n1; follow_source_id := a; follow_target_id := b;
               follow_boosts := true;
               follow_uri := Some (identity_actor_uri src ++ "follow/"
                                   ++ str_of_Z n1 ++ "/");
               follow_state := "unrequested" |}]),
     Ok tt).
Proof.
  intros Hnone Hsrc Htgt Hfresh.
  unfold Takahe.follow, except_DoesNotExist, bind, lift, Identity_get, Follow_create.
  rewrite Hnone. simpl. rewrite Hsrc. simpl.
  assert (Hid : has_pk follow_id n1 (follows db) = false).
  { apply has_pk_fresh. exact Hfresh. }
  rewrite Hid, (has_pk_of_filter identity_id a (identities db) src Hsrc), Htgt.
  change (existsb (fun f => (follow_source_id f =? a) && (follow_target_id f =? b))
            (follows db))
    with (existsb (follow_between a b) (follows db)).
  rewrite (existsb_of_empty_filter _ _ Hnone). simpl.
  unfold Follow_save. simpl.
  erewrite (save_row_last follow_id (follows db)
              {| follow_id := n1; follow_source_id := a; follow_target_id := b;
                 follow_boosts := true; follow_uri := Some "";
                 follow_state := "unrequested" |});
    [reflexivity | exact Hfresh | reflexivity].
Qed.

Lemma unfollow_on_row (db : DB) (a b : Z) (r : Follow) :
  wf_follows (follows db) -> In r (follows db) -> follow_between a b r = true ->
  follow_state r <> "undone" ->
  Takahe.unfollow a b db
  = (with_follows db (save_row follow_id (Follow_set_state r "undone") (follows db)),
     Ok tt).
Proof.
  intros Hwf Hin Hr Hst. unfold Takahe.unfollow, bind.
  rewrite (update_follow_state_on_row db a b [] "undone" r Hwf Hin Hr).
  apply String.eqb_neq in Hst. rewrite Hst. reflexivity.
Qed.

Lemma follow_resets_row (db : DB) (new_id a b : Z) (r : Follow) :
  wf_follows (follows db) -> In r (follows db) -> follow_between a b r = true ->
  follow_state r <> "accepted" ->
  Takahe.follow new_id a b db
  = (with_follows db (save_row follow_id (Follow_set_state r "unrequested") (follows db)),
     Ok tt).
Proof.
  intros Hwf Hin Hr Hst.
  rewrite (follow_on_stored_row db new_id a b r Hwf Hin Hr).
  apply String.eqb_neq in Hst. rewrite Hst. reflexivity.
Qed.

(** X6: starting without a row for (A, B), [follow] inserts one; [unfollow]
    then leaves that row "undone"; and a further [follow] puts the same row
    (same key, same uri) back to "unrequested" instead of inserting another. *)
Theorem follow_unfollow_follow_reuses_the_row
    (db : DB) (n1 n2 a b : Z) (src : Identity) :
  wf_follows (follows db) ->
  filter (follow_between a b) (follows db) = [] ->
  filter (fun i => identity_id i =? a) (identities db) = [src] ->
  has_pk identity_id b (identities db) = true ->
  ~ In n1 (map follow_id (follows db)) ->
  let row := fun state =>
    {| follow_id := n1; follow_source_id := a; follow_target_id := b;
       follow_boosts := true;
       follow_uri := Some (identity_actor_uri src ++ "follow/" ++ str_of_Z n1 ++ "/");
       follow_state := state |} in
  exists db2,
    (Takahe.follow n1 a b ;;; Takahe.unfollow a b) db = (db2, Ok tt)
    /\ follows db2 = (follows db ++ [row "undone"])%list
    /\ follow_unfollow_follow n1 n2 a b db
       = (with_follows db (follows db ++ [row "unrequested"]), Ok tt).
Proof.
  intros Hwf Hnone Hsrc Htgt Hfresh row.
  pose proof (follow_creates db n1 a b src Hnone Hsrc Htgt Hfresh) as H1.
  fold (row "unrequested") in H1.
  set (db1 := with_follows db (follows db ++ [row "unrequested"])) in *.
  assert (Hwf1 : wf_follows (follows db1)).
  { pose proof (follow_preserves_wf db n1 a b Hwf) as Hp. rewrite H1 in Hp. exact Hp. }
  assert (Hbetween : forall state, follow_between a b (row state) = true).
  { intros state. unfold follow_between. simpl. rewrite !Z.eqb_refl. reflexivity. }
  assert (Hlast : forall state, In (row state) (follows db ++ [row state])).
  { intros state. apply in_or_app. right. left. reflexivity. }
  assert (Hswap : forall s1 s2,
            save_row follow_id (row s2) (follows db ++ [row s1])
            = (follows db ++ [row s2])%list).
  { intros s1 s2.
    apply (save_row_last follow_id (follows db) (row s1) (row s2) Hfresh). reflexivity. }
  assert (H2 : Takahe.unfollow a b db1
               = (with_follows db (follows db ++ [row "undone"]), Ok tt)).
  { rewrite (unfollow_on_row db1 a b (row "unrequested") Hwf1 (Hlast "unrequested")
               (Hbetween "unrequested")) by (simpl; discriminate).
    change (Follow_set_state (row "unrequested") "undone") with (row "undone").
    change (follows db1) with (follows db ++ [row "unrequested"])%list.
    rewrite Hswap. reflexivity. }
  set (db2 := with_follows db (follows db ++ [row "undone"])) in *.
  assert (Hwf2 : wf_follows (follows db2)).
  { pose proof (wf_follows_after_save (follows db ++ [row "unrequested"])
                  (row "unrequested") (row "undone") Hwf1 (Hlast "unrequested")
                  eq_refl eq_refl) as Hw.
    rewrite Hswap in Hw. exact Hw. }
  assert (H3 : Takahe.follow n2 a b db2
               = (with_follows db (follows db ++ [row "unrequested"]), Ok tt)).
  { rewrite (follow_resets_row db2 n2 a b (row "undone") Hwf2 (Hlast "undone")
               (Hbetween "undone")) by (simpl; discriminate).
    change (Follow_set_state (row "undone") "unrequested") with (row "unrequested").
    change (follows db2) with (follows db ++ [row "undone"])%list.
    rewrite Hswap. reflexivity. }
  assert (H12 : (Takahe.follow n1 a b ;;; Takahe.unfollow a b) db = (db2, Ok tt)).
  { rewrite (bind_ok _ _ db db1 tt H1). exact H2. }
  exists db2. split; [exact H12 |]. split; [reflexivity |].
  unfold follow_unfollow_follow.
  rewrite (bind_ok _ _ db db1 tt H1). rewrite (bind_ok _ _ db1 db2 tt H2). exact H3.
Qed.

Lemma follow_unfollow_follow_reuses_the_row_witness :
  follow_unfollow_follow 101 102 1 2 two_identities
  = (with_follows two_identities
       [{| follow_id := 101; follow_source_id := 1; follow_target_id := 2;
           follow_boosts := true;
           follow_uri := Some "https://neodb.example/@alice/follow/101/";
           follow_state := "unrequested" |}],
     Ok tt).
Proof.
  destruct (follow_unfollow_follow_reuses_the_row two_identities 101 102 1 2
              (sample_identity 1 "alice" true))
    as [db2 [_ [_ H]]].
  - split; simpl; constructor.
  - reflexivity.
  - reflexivity.
  - reflexivity.
  - simpl. intros [].
  - exact H.
Defined.

(** ** Blocks and mutes *)

(** The rows of other (source, target, mute) triples are not touched by
    [update_or_create] and by the uri stamp, so a filter that rejects the
    rows of this triple selects the same rows afterwards. *)
Lemma Block_update_or_create_full (db : DB) (a b : Z) (m : bool) :
  wf_blocks (blocks db) ->
  has_pk identity_id a (identities db) = true ->
  has_pk identity_id b (identities db) = true ->
  exists rows1 b1,
    Block_update_or_create a b m db = (with_blocks db rows1, Ok b1)
    /\ wf_blocks rows1 /\ In b1 rows1
    /\ block_between a b m b1 = true /\ block_state b1 = "new"
    /\ (forall f : Block -> bool,
          (forall x, block_between a b m x = true -> f x = false) ->
          filter f rows1 = filter f (blocks db)).
Proof.
  intros Hwf Ha Hb.
  unfold Block_update_or_create, atomic, except_DoesNotExist, bind, lift, Block_save, ret.
  destruct (filter (block_between a b m) (blocks db)) as [| r rest] eqn:F.
  - simpl. unfold Block_create. rewrite Ha, Hb. simpl.
    set (b0 := {| block_id := next_block_id (blocks db); block_state := "new";
                  block_source_id := a; block_target_id := b;
                  block_uri := None; block_mute := m |}).
    assert (Hb0 : block_between a b m b0 = true).
    { unfold block_between. simpl. rewrite !Z.eqb_refl, eqb_reflx. reflexivity. }
    exists (blocks db ++ [b0])%list, b0. split; [reflexivity |].
    assert (Hkey : ~ In (a, b, m) (map block_key (blocks db))).
    { intros Hin. apply in_map_iff in Hin. destruct Hin as [x [Hk Hx]].
      assert (Hmem : In x (filter (block_between a b m) (blocks db))).
      { apply filter_In. split; [exact Hx | apply block_between_key; exact Hk]. }
      rewrite F in Hmem. destruct Hmem. }
    destruct Hwf as [Hpk Hkeys].
    split.
    { split; rewrite map_app; simpl; apply NoDup_snoc; auto.
      apply next_block_id_fresh. }
    split; [apply in_or_app; right; left; reflexivity |].
    split; [exact Hb0 |]. split; [reflexivity |].
    intros f Hf. apply filter_snoc_false. apply Hf. exact Hb0.
  - assert (Hin : In r (filter (block_between a b m) (blocks db))).
    { rewrite F. left. reflexivity. }
    apply filter_In in Hin. destruct Hin as [Hin Hr].
    assert (Hone := block_filter_singleton (blocks db) a b m r Hwf Hin Hr).
    rewrite F in Hone. inversion Hone; subst rest. clear Hone. simpl.
    set (b1 := Block_set r "new" (block_uri r)).
    exists (save_row block_id b1 (blocks db)), b1. split; [reflexivity |].
    split; [apply (wf_blocks_after_save (blocks db) r); auto |].
    split; [apply (save_row_holds_new block_id (blocks db) r b1 Hin); reflexivity |].
    split; [exact Hr |]. split; [reflexivity |].
    intros f Hf. destruct Hwf as [Hpk _].
    apply (filter_blind_to_save block_id f (blocks db) r b1 Hpk Hin eq_refl).
    + apply Hf. exact Hr.
    + apply Hf. exact Hr.
Qed.

Lemma block_uri_step_full (db1 : DB) (source : Identity) (b1 : Block) :
  wf_blocks (blocks db1) -> In b1 (blocks db1) -> block_state b1 = "new" ->
  exists rows2 b2,
    (if negb (block_state b1 =? "new")%string || negb (truthy (block_uri b1))
     then
       let block :=
         Block_set b1 "new"
           (Some (identity_actor_uri source ++ "block/"
                  ++ str_of_Z (block_id b1) ++ "/")) in
       Block_save block ;;; ret block
     else ret b1) db1
    = (with_blocks db1 rows2, Ok b2)
    /\ In b2 rows2
    /\ block_key b2 = block_key b1 /\ block_state b2 = "new"
    /\ truthy (block_uri b2) = true
    /\ (forall f : Block -> bool,
          (forall x, block_key x = block_key b1 -> f x = false) ->
          filter f rows2 = filter f (blocks db1)).
Proof.
  intros Hwf Hin Hst. rewrite Hst. simpl.
  destruct (truthy (block_uri b1)) eqn:Huri; simpl.
  - exists (blocks db1), b1. unfold ret.
    replace (with_blocks db1 (blocks db1)) with db1 by (destruct db1; reflexivity).
    split; [reflexivity |]. split; [exact Hin |]. split; [reflexivity |].
    split; [exact Hst |]. split; [exact Huri |]. intros f _. reflexivity.
  - eexists. eexists. split; [reflexivity |].
    split.
    { apply (save_row_holds_new block_id (blocks db1) b1 _ Hin). reflexivity. }
    split; [reflexivity |]. split; [reflexivity |].
    split.
    { simpl. destruct (identity_actor_uri source); reflexivity. }
    intros f Hf. destruct Hwf as [Hpk _].
    apply (filter_blind_to_save block_id f (blocks db1) b1);
      [exact Hpk | exact Hin | reflexivity | apply Hf; reflexivity
      | apply Hf; reflexivity].
Qed.

(** A successful [block_or_mute], for either value of the mute flag. *)
Lemma block_or_mute_run (db : DB) (a b : Z) (m : bool) (src tgt : Identity) :
  NoDup (map identity_id (identities db)) ->
  In src (identities db) -> identity_id src = a -> identity_local src = true ->
  In tgt (identities db) -> identity_id tgt = b ->
  wf_follows (follows db) -> wf_blocks (blocks db) ->
  exists db' blk,
    Takahe.block_or_mute a b m db = (db', Ok blk)
    /\ In blk (blocks db')
    /\ block_key blk = (a, b, m) /\ block_state blk = "new"
    /\ truthy (block_uri blk) = true
    /\ (forall f : Block -> bool,
          (forall x, block_between a b m x = true -> f x = false) ->
          filter f (blocks db') = filter f (blocks db))
    /\ (m = true -> follows db' = follows db).
Proof.
  intros Hids Hsrc Ha Hlocal Htgt Hb Hwf Hwb.
  assert (Hget : Identity_get MIdentity (fun i => identity_id i =? a) db = (db, Ok src)).
  { unfold Identity_get, lift.
    rewrite (filter_singleton (fun i => identity_id i =? a) (identities db) src).
    - reflexivity.
    - apply (NoDup_map_inv identity_id). exact Hids.
    - exact Hsrc.
    - apply Z.eqb_eq. exact Ha.
    - intros x Hx Hxa. apply Z.eqb_eq in Hxa.
      apply (pk_injective identity_id (identities db)); auto. congruence. }
  assert (Hhas_a : has_pk identity_id a (identities db) = true).
  { rewrite <- Ha. apply has_pk_stored. exact Hsrc. }
  assert (Hhas_b : has_pk identity_id b (identities db) = true).
  { rewrite <- Hb. apply has_pk_stored. exact Htgt. }
  destruct (Block_update_or_create_full db a b m Hwb Hhas_a Hhas_b)
    as [rows1 [b1 [Hrun1 [Hwf1 [Hin1 [Hbt1 [Hst1 Hblind1]]]]]]].
  destruct (block_uri_step_full (with_blocks db rows1) src b1 Hwf1 Hin1 Hst1)
    as [rows2 [b2 [Hrun2 [Hin2 [Hkey2 [Hst2 [Huri2 Hblind2]]]]]]].
  set (db2 := with_blocks db rows2).
  change (with_blocks (with_blocks db rows1) rows2) with db2 in Hrun2.
  assert (Hkey : block_key b2 = (a, b, m)).
  { rewrite Hkey2. apply block_between_key. exact Hbt1. }
  assert (Hblind : forall f : Block -> bool,
            (forall x, block_between a b m x = true -> f x = false) ->
            filter f rows2 = filter f (blocks db)).
  { intros f Hf. rewrite <- (Hblind1 f Hf). apply Hblind2.
    intros x Hx. apply Hf. apply block_between_key.
    rewrite Hx. apply block_between_key. exact Hbt1. }
  destruct m.
  - exists db2, b2.
    split.
    { unfold Takahe.block_or_mute.
      rewrite (bind_ok _ _ db db src Hget). rewrite Hlocal. simpl negb. cbv iota.
      apply atomic_ok.
      rewrite (bind_ok _ _ db _ b1 Hrun1).
      rewrite (bind_ok _ _ _ db2 b2 Hrun2).
      reflexivity. }
    split; [exact Hin2 |]. split; [exact Hkey |]. split; [exact Hst2 |].
    split; [exact Huri2 |]. split; [exact Hblind |]. intros _. reflexivity.
  - destruct (update_follow_state_any db2 a b "undone" Hwf)
      as [f1 [out1 [Hrun3 [Hwf3 _]]]].
    destruct (update_follow_state_any (with_follows db2 f1) b a "rejecting" Hwf3)
      as [f2 [out2 [Hrun4 _]]].
    exists (with_follows db2 f2), b2.
    split.
    { unfold Takahe.block_or_mute.
      rewrite (bind_ok _ _ db db src Hget). rewrite Hlocal. simpl negb. cbv iota.
      apply atomic_ok.
      rewrite (bind_ok _ _ db _ b1 Hrun1).
      rewrite (bind_ok _ _ _ db2 b2 Hrun2).
      unfold Takahe.unfollow, Takahe.reject_follow_request, bind, ret.
      change (negb false) with true. cbv beta iota. rewrite Hrun3. rewrite Hrun4.
      reflexivity. }
    split; [exact Hin2 |]. split; [exact Hkey |]. split; [exact Hst2 |].
    split; [exact Huri2 |]. split; [exact Hblind |]. intros Habs. discriminate Habs.
Qed.

Lemma in_rejecting_ids (db : DB) (a b : Z) :
  In b (Takahe.get_rejecting_ids a db)
  <-> exists x, In x (blocks db) /\ block_mute x = false
                /\ Takahe.is_active_block x = true
                /\ ((block_source_id x = a /\ block_target_id x = b)
                    \/ (block_target_id x = a /\ block_source_id x = b)).
Proof.
  unfold Takahe.get_rejecting_ids. rewrite nodup_In, in_app_iff, !in_map_iff.
  split.
  - intros [[x [Hb Hx]] | [x [Hb Hx]]]; apply filter_In in Hx; destruct Hx as [Hx Hc];
      apply andb_true_iff in Hc; destruct Hc as [Hc Hact];
      apply andb_true_iff in Hc; destruct Hc as [Hk Hm];
      apply Z.eqb_eq in Hk; apply eqb_prop in Hm;
      exists x; repeat split; auto.
  - intros [x [Hx [Hm [Hact [[Hs Ht] | [Ht Hs]]]]]]; [left | right]; exists x;
      (split; [assumption |]); apply filter_In; (split; [exact Hx |]);
      rewrite Hm, Hact; simpl; rewrite !andb_true_r; apply Z.eqb_eq; assumption.
Qed.

(** X7: the rejecting list is symmetric, B is in the list of A exactly when
    A is in the list of B, and it names no identity twice. *)
Theorem get_rejecting_ids_symmetric (db : DB) (a b : Z) :
  (In b (Takahe.get_rejecting_ids a db) <-> In a (Takahe.get_rejecting_ids b db))
  /\ NoDup (Takahe.get_rejecting_ids a db).
Proof.
  split.
  - rewrite !in_rejecting_ids.
    split; intros [x [Hx [Hm [Hact Hends]]]]; exists x; repeat split; auto; tauto.
  - unfold Takahe.get_rejecting_ids. apply NoDup_nodup.
Qed.

Lemma in_blocking_ids (db : DB) (a b : Z) (blk : Block) :
  In blk (blocks db) -> block_key blk = (a, b, false) -> block_state blk = "new" ->
  In b (Takahe.get_blocking_ids a db).
Proof.
  intros Hin Hkey Hst. unfold Takahe.get_blocking_ids.
  unfold block_key in Hkey. injection Hkey as Hs Ht Hm.
  apply in_map_iff. exists blk. split; [exact Ht |].
  apply filter_In. split; [exact Hin |].
  unfold Takahe.is_active_block. rewrite Hs, Hm, Hst, Z.eqb_refl. reflexivity.
Qed.

Lemma in_muting_ids (db : DB) (a b : Z) (blk : Block) :
  In blk (blocks db) -> block_key blk = (a, b, true) -> block_state blk = "new" ->
  In b (Takahe.get_muting_ids a db).
Proof.
  intros Hin Hkey Hst. unfold Takahe.get_muting_ids.
  unfold block_key in Hkey. injection Hkey as Hs Ht Hm.
  apply in_map_iff. exists blk. split; [exact Ht |].
  apply filter_In. split; [exact Hin |].
  unfold Takahe.is_active_block. rewrite Hs, Hm, Hst, Z.eqb_refl. reflexivity.
Qed.

(** X8: after a successful [block(A, B)], B is in A's blocking list and each
    of the two is in the other's rejecting list; after a successful
    [mute(A, B)], B is in A's muting list. In both cases the stored row has
    a uri. *)
Theorem block_or_mute_is_listed (db : DB) (a b : Z) (m : bool) (src tgt : Identity) :
  NoDup (map identity_id (identities db)) ->
  In src (identities db) -> identity_id src = a -> identity_local src = true ->
  In tgt (identities db) -> identity_id tgt = b ->
  wf_follows (follows db) -> wf_blocks (blocks db) ->
  exists db' blk,
    Takahe.block_or_mute a b m db = (db', Ok blk)
    /\ truthy (block_uri blk) = true
    /\ if m
       then In b (Takahe.get_muting_ids a db')
       else In b (Takahe.get_blocking_ids a db')
            /\ In b (Takahe.get_rejecting_ids a db')
            /\ In a (Takahe.get_rejecting_ids b db').
Proof.
  intros Hids Hsrc Ha Hlocal Htgt Hb Hwf Hwb.
  destruct (block_or_mute_run db a b m src tgt Hids Hsrc Ha Hlocal Htgt Hb Hwf Hwb)
    as [db' [blk [Hrun [Hin [Hkey [Hst [Huri _]]]]]]].
  exists db', blk. split; [exact Hrun |]. split; [exact Huri |].
  destruct m.
  - apply (in_muting_ids db' a b blk Hin Hkey Hst).
  - split; [apply (in_blocking_ids db' a b blk Hin Hkey Hst) |].
    unfold block_key in Hkey. injection Hkey as Hs Ht Hm.
    assert (Hact : Takahe.is_active_block blk = true).
    { unfold Takahe.is_active_block. rewrite Hst. reflexivity. }
    split; apply in_rejecting_ids; exists blk;
      (split; [exact Hin |]); (split; [exact Hm |]); (split; [exact Hact |]).
    + left. split; assumption.
    + right. split; assumption.
Qed.

Lemma block_or_mute_is_listed_witness :
  exists db' blk,
    Takahe.block_or_mute 1 2 false mutual_follow_db = (db', Ok blk)
    /\ truthy (block_uri blk) = true
    /\ In 2 (Takahe.get_blocking_ids 1 db')
    /\ In 2 (Takahe.get_rejecting_ids 1 db')
    /\ In 1 (Takahe.get_rejecting_ids 2 db').
Proof.
  apply (block_or_mute_is_listed mutual_follow_db 1 2 false
           (sample_identity 1 "alice" true) (sample_identity 2 "bob" false)).
  - simpl. concrete_nodup.
  - simpl. left. reflexivity.
  - reflexivity.
  - reflexivity.
  - simpl. right. left. reflexivity.
  - reflexivity.
  - split; simpl; concrete_nodup.
  - split; simpl; constructor.
Defined.

(** X9: a mute and a full block of the same pair are separate records: a
    successful [mute(A, B)] changes no Follow row, nobody's blocking list
    and nobody's rejecting list; a successful [block(A, B)] changes nobody's
    muting list. *)
Theorem mute_and_block_are_independent (db : DB) (a b : Z) (src tgt : Identity) :
  NoDup (map identity_id (identities db)) ->
  In src (identities db) -> identity_id src = a -> identity_local src = true ->
  In tgt (identities db) -> identity_id tgt = b ->
  wf_follows (follows db) -> wf_blocks (blocks db) ->
  (exists db' blk,
     Takahe.mute a b db = (db', Ok blk)
     /\ follows db' = follows db
     /\ forall x, Takahe.get_blocking_ids x db' = Takahe.get_blocking_ids x db
                  /\ Takahe.get_rejecting_ids x db' = Takahe.get_rejecting_ids x db)
  /\ (exists db' blk,
        Takahe.block a b db = (db', Ok blk)
        /\ forall x, Takahe.get_muting_ids x db' = Takahe.get_muting_ids x db).
Proof.
  intros Hids Hsrc Ha Hlocal Htgt Hb Hwf Hwb.
  assert (Hmute_row : forall x, block_between a b true x = true -> block_mute x = true).
  { intros x Hx. apply block_between_key in Hx. unfold block_key in Hx.
    injection Hx as _ _ Hm. exact Hm. }
  assert (Hblock_row : forall x, block_between a b false x = true -> block_mute x = false).
  { intros x Hx. apply block_between_key in Hx. unfold block_key in Hx.
    injection Hx as _ _ Hm. exact Hm. }
  split.
  - destruct (block_or_mute_run db a b true src tgt Hids Hsrc Ha Hlocal Htgt Hb Hwf Hwb)
      as [db' [blk [Hrun [_ [_ [_ [_ [Hblind Hfollows]]]]]]]].
    exists db', blk. split; [exact Hrun |]. split; [exact (Hfollows eq_refl) |].
    intros x.
    unfold Takahe.get_blocking_ids, Takahe.get_rejecting_ids.
    rewrite !Hblind; [split; reflexivity | |];
      intros y Hy; rewrite (Hmute_row y Hy); simpl; rewrite andb_false_r; reflexivity.
  - destruct (block_or_mute_run db a b false src tgt Hids Hsrc Ha Hlocal Htgt Hb Hwf Hwb)
      as [db' [blk [Hrun [_ [_ [_ [_ [Hblind _]]]]]]]].
    exists db', blk. split; [exact Hrun |].
    intros x. unfold Takahe.get_muting_ids.
    rewrite Hblind; [reflexivity |].
    intros y Hy. rewrite (Hblock_row y Hy). simpl. rewrite andb_false_r. reflexivity.
Qed.

Lemma mute_and_block_are_independent_witness :
  exists db' blk,
    Takahe.mute 1 2 mutual_follow_db = (db', Ok blk)
    /\ follows db' = follows mutual_follow_db
    /\ forall x, Takahe.get_blocking_ids x db' = Takahe.get_blocking_ids x mutual_follow_db
                 /\ Takahe.get_rejecting_ids x db'
                    = Takahe.get_rejecting_ids x mutual_follow_db.
Proof.
  apply (mute_and_block_are_independent mutual_follow_db 1 2
           (sample_identity 1 "alice" true) (sample_identity 2 "bob" false)).
  - simpl. concrete_nodup.
  - simpl. left. reflexivity.
  - reflexivity.
  - reflexivity.
  - simpl. right. left. reflexivity.
  - reflexivity.
  - split; simpl; concrete_nodup.
  - split; simpl; constructor.
Defined.

Lemma filter_map_blind {R} (f : R -> bool) (g : R -> R) (l : list R) :
  (forall x, In x l -> g x = x \/ (f x = false /\ f (g x) = false)) ->
  filter f (map g l) = filter f l.
Proof.
  induction l as [| a l IH]; simpl; intros H; [reflexivity |].
  rewrite (IH (fun x Hx => H x (or_intror Hx))).
  destruct (H a (or_introl eq_refl)) as [E | [E1 E2]].
  - rewrite E. reflexivity.
  - rewrite E1, E2. reflexivity.
Qed.

(** X10: on every database [unblock(A, B)] returns normally, after it B is
    not in A's blocking list, and it deletes no Block row, changes nobody's
    muting list and touches no Follow row. *)
Theorem unblock_clears_the_blocking_list (db : DB) (a b : Z) :
  exists db',
    Takahe.unblock a b db = (db', Ok tt)
    /\ ~ In b (Takahe.get_blocking_ids a db')
    /\ map block_id (blocks db') = map block_id (blocks db)
    /\ (forall x, Takahe.get_muting_ids x db' = Takahe.get_muting_ids x db)
    /\ follows db' = follows db.
Proof.
  eexists. split; [reflexivity |]. simpl.
  set (g := fun x => if block_between a b false x
                     then Block_set x "undone" (block_uri x) else x).
  split.
  - unfold Takahe.get_blocking_ids. simpl. fold g.
    intros Hin. apply in_map_iff in Hin. destruct Hin as [y [Hb Hy]].
    apply filter_In in Hy. destruct Hy as [Hy Hc].
    apply in_map_iff in Hy. destruct Hy as [x [Hg Hx]].
    apply andb_true_iff in Hc. destruct Hc as [Hc Hact].
    apply andb_true_iff in Hc. destruct Hc as [Hs Hm].
    apply Z.eqb_eq in Hs. apply eqb_prop in Hm.
    unfold g in Hg. destruct (block_between a b false x) eqn:Hbt.
    + subst y. unfold Takahe.is_active_block in Hact. simpl in Hact. discriminate Hact.
    + subst y. unfold block_between in Hbt.
      rewrite Hs, Hb, Hm, !Z.eqb_refl in Hbt. discriminate Hbt.
  - split.
    + fold g. rewrite map_map. apply map_ext. intros x. unfold g.
      destruct (block_between a b false x); reflexivity.
    + split; [| reflexivity].
      intros x. unfold Takahe.get_muting_ids. simpl. fold g. f_equal.
      apply filter_map_blind. intros y _. unfold g.
      destruct (block_between a b false y) eqn:Hbt; [right | left; reflexivity].
      apply block_between_key in Hbt. unfold block_key in Hbt.
      injection Hbt as _ _ Hm. simpl. rewrite Hm. simpl.
      rewrite !andb_false_r. split; reflexivity.
Qed.

(** X11: [block_or_mute] from an identity that does not exist raises
    [Identity.DoesNotExist]; from an identity that is not local it raises the
    ValueError naming that identity; neither writes anything. *)
Theorem block_or_mute_refuses (db : DB) (a b : Z) (m : bool) :
  (filter (fun i => identity_id i =? a) (identities db) = [] ->
   Takahe.block_or_mute a b m db = (db, Raise (DoesNotExist MIdentity)))
  /\ (forall src,
        filter (fun i => identity_id i =? a) (identities db) = [src] ->
        identity_local src = false ->
        Takahe.block_or_mute a b m db
        = (db, Raise (ValueError
                        ("Cannot block/mute from remote identity " ++ Identity_str src)
                        None))).
Proof.
  split.
  - intros Hnone. unfold Takahe.block_or_mute, bind, Identity_get, lift.
    rewrite Hnone. reflexivity.
  - intros src Hsrc Hremote. unfold Takahe.block_or_mute, bind, Identity_get, lift.
    rewrite Hsrc. simpl. rewrite Hremote. reflexivity.
Qed.

Lemma block_or_mute_refuses_witness :
  Takahe.block_or_mute 7 1 false two_identities
  = (two_identities, Raise (DoesNotExist MIdentity))
  /\ Takahe.block_or_mute 2 1 true two_identities
     = (two_identities,
        Raise (ValueError "Cannot block/mute from remote identity bob@neodb.example" None)).
Proof.
  split.
  - apply (proj1 (block_or_mute_refuses two_identities 7 1 false)). reflexivity.
  - apply (proj2 (block_or_mute_refuses two_identities 2 1 true)
             (sample_identity 2 "bob" false)); reflexivity.
Defined.

Lemma filter_all {R} (f : R -> bool) (l : list R) :
  (forall x, In x l -> f x = true) -> filter f l = l.
Proof.
  induction l as [| a l IH]; simpl; intros H; [reflexivity |].
  rewrite (H a (or_introl eq_refl)). f_equal. apply IH.
  intros x Hx. apply H. right. exact Hx.
Qed.

Lemma map_fixed {R} (g : R -> R) (l : list R) :
  (forall x, In x l -> g x = x) -> map g l = l.
Proof.
  intros H. rewrite <- (map_id l) at 2. apply map_ext_in. exact H.
Qed.

(** X12: after [_force_state_cycle] every remaining Follow row is
    "accepted" and every remaining Block row is "sent", no Follow row that
    was "rejecting", "undone" or "pending_removal" remains, and running it
    again changes nothing. *)
Theorem force_state_cycle_settles (db : DB) :
  exists db',
    Takahe._force_state_cycle db = (db', Ok tt)
    /\ (forall f, In f (follows db') -> follow_state f = "accepted")
    /\ (forall b, In b (blocks db') -> block_state b = "sent")
    /\ map follow_id (follows db')
       = map follow_id
           (filter (fun f => negb (existsb (String.eqb (follow_state f))
                                     ["rejecting"; "undone"; "pending_removal"]))
                   (follows db))
    /\ Takahe._force_state_cycle db' = (db', Ok tt).
Proof.
  eexists. split; [reflexivity |].
  set (keep := fun f => negb (existsb (String.eqb (follow_state f))
                            ["rejecting"; "undone"; "pending_removal"])).
  set (F := map (fun f => Follow_set_state f "accepted") (filter keep (follows db))).
  set (B := filter (fun b => (block_state b =? "sent")%string)
              (map (fun b => if (block_state b =? "new")%string
                             then Block_set b "sent" (block_uri b) else b)
                   (blocks db))).
  change (blocks (with_blocks (with_follows db F) B)) with B.
  change (follows (with_blocks (with_follows db F) B)) with F.
  assert (HF : forall f, In f F -> follow_state f = "accepted").
  { intros f Hf. apply in_map_iff in Hf. destruct Hf as [x [Hx _]]. subst f. reflexivity. }
  assert (HB : forall b, In b B -> block_state b = "sent").
  { intros b Hb. apply filter_In in Hb. destruct Hb as [_ Hb].
    apply String.eqb_eq. exact Hb. }
  split; [exact HF |]. split; [exact HB |].
  split.
  { unfold F. rewrite map_map. reflexivity. }
  unfold Takahe._force_state_cycle.
  change (blocks (with_blocks (with_follows db F) B)) with B.
  change (follows (with_blocks (with_follows db F) B)) with F.
  fold keep.
  assert (HF1 : filter keep F = F).
  { apply filter_all. intros f Hf. unfold keep. rewrite (HF f Hf). reflexivity. }
  assert (HF2 : map (fun f => Follow_set_state f "accepted") F = F).
  { apply map_fixed. intros f Hf. rewrite <- (HF f Hf). apply Follow_set_state_same. }
  assert (HB1 : map (fun b => if (block_state b =? "new")%string
                              then Block_set b "sent" (block_uri b) else b) B = B).
  { apply map_fixed. intros b Hb. rewrite (HB b Hb). reflexivity. }
  assert (HB2 : filter (fun b => (block_state b =? "sent")%string) B = B).
  { apply filter_all. intros b Hb. rewrite (HB b Hb). reflexivity. }
  rewrite HF1, HF2, HB1, HB2. reflexivity.
Qed.

(** ** Likes, continued *)

Lemma post_liked_by_run (db : DB) (identity_pk : Z) (p : Post)
    (rows : list PostInteraction) :
  NoDup (map post_id (posts db)) -> In p (posts db) ->
  filter (interaction_of "like" identity_pk p) (interactions db) = rows ->
  Takahe.post_liked_by (post_id p) identity_pk db
  = (db, Ok match qs_first interaction_id rows with
            | Some i => is_active (interaction_state i)
            | None => false
            end).
Proof.
  intros Hnd Hin Hrows.
  unfold Takahe.post_liked_by, Takahe.get_user_interaction.
  unfold bind at 1.
  rewrite (bind_ok _ _ db db (Some p) (find_post_stored db p Hnd Hin)).
  unfold gets, ret. rewrite Hrows. reflexivity.
Qed.

(** Saving twice under one key keeps the second row only. *)
Lemma save_row_overwrite {R} (pk : R -> Z) (rows : list R) (old first second : R) :
  In old rows -> pk first = pk old -> pk second = pk old ->
  save_row pk second (save_row pk first rows) = save_row pk second rows.
Proof.
  intros Hin H1 H2.
  rewrite (save_row_stored pk (save_row pk first rows) first second
             (save_row_holds_new pk rows old first Hin H1)) by congruence.
  rewrite (save_row_stored pk rows old first Hin H1).
  rewrite (save_row_stored pk rows old second Hin H2).
  rewrite map_map. apply map_ext. intros x.
  destruct (Z.eqb_spec (pk x) (pk old)) as [E | E].
  - rewrite Z.eqb_refl. reflexivity.
  - destruct (Z.eqb_spec (pk x) (pk first)) as [E' | E']; [congruence | reflexivity].
Qed.

Section AfterFirstLike.

Variables (db : DB) (n1 identity_pk : Z) (p : Post).
Hypothesis Hnd : NoDup (map post_id (posts db)).
Hypothesis Hin : In p (posts db).
Hypothesis Hid : has_pk identity_id identity_pk (identities db) = true.
Hypothesis Hfresh : ~ In n1 (map interaction_id (interactions db)).
Hypothesis Hnone : filter (interaction_of "like" identity_pk p) (interactions db) = [].

Let row := like_row n1 identity_pk p.
Let dbA := with_interactions db (interactions db ++ [row]).
Let p1 := Post_set_stats p (Some (stats_of dbA p)).
Let db1 := with_posts dbA (save_row post_id p1 (posts db)).
Let row' := PostInteraction_set_state row "undone".
Let dbB := with_interactions db1 (interactions db ++ [row']).
Let p2 := Post_set_stats p1 (Some (stats_of dbB p1)).
Let db2 := with_posts dbB (save_row post_id p2 (posts db1)).

Lemma first_like_run :
  Takahe.like_post n1 (post_id p) identity_pk db = (db1, Ok (Some row)).
Proof. apply like_first; assumption. Qed.

Lemma first_like_stored : In p1 (posts db1) /\ NoDup (map post_id (posts db1)).
Proof.
  split.
  - apply (save_row_holds_new post_id (posts db) p p1 Hin). reflexivity.
  - unfold db1. simpl.
    rewrite (save_row_keeps_keys post_id (posts db) p p1 Hin) by reflexivity. exact Hnd.
Qed.

Lemma first_like_rows :
  filter (interaction_of "like" identity_pk p) (interactions db1) = [row].
Proof.
  assert (Hrow : interaction_of "like" identity_pk p row = true).
  { unfold interaction_of, row. simpl. rewrite !Z.eqb_refl. reflexivity. }
  unfold db1. simpl. rewrite filter_app, Hnone. simpl. rewrite Hrow. reflexivity.
Qed.

Lemma unlike_after_like_run :
  Takahe.unlike_post (post_id p) identity_pk db1 = (db2, Ok tt).
Proof.
  destruct first_like_stored as [Hin1 Hnd1].
  pose proof (unlike_run db1 identity_pk p1 Hnd1 Hin1) as Hun. cbv zeta in Hun.
  change (interaction_of "like" identity_pk p1)
    with (interaction_of "like" identity_pk p) in Hun.
  rewrite first_like_rows in Hun. unfold undone_rows in Hun. simpl fold_left in Hun.
  change (interactions db1) with (interactions db ++ [row])%list in Hun.
  change (PostInteraction_set_state row "undone") with row' in Hun.
  rewrite (save_row_last interaction_id (interactions db) row row' Hfresh eq_refl) in Hun.
  exact Hun.
Qed.

Lemma unlike_after_like_stored : In p2 (posts db2) /\ NoDup (map post_id (posts db2)).
Proof.
  destruct first_like_stored as [Hin1 Hnd1]. split.
  - apply (save_row_holds_new post_id (posts db1) p1 p2 Hin1). reflexivity.
  - change (NoDup (map post_id (save_row post_id p2 (posts db1)))).
    rewrite (save_row_keeps_keys post_id (posts db1) p1 p2 Hin1) by reflexivity.
    exact Hnd1.
Qed.

Lemma unlike_after_like_rows :
  filter (interaction_of "like" identity_pk p) (interactions db2) = [row'].
Proof.
  assert (Hrow : interaction_of "like" identity_pk p row' = true).
  { unfold interaction_of, row', row. simpl. rewrite !Z.eqb_refl. reflexivity. }
  change (interactions db2) with (interactions db ++ [row'])%list.
  rewrite filter_app, Hnone. unfold filter. rewrite Hrow. reflexivity.
Qed.

(** The third call finds the undone row, revives it and stores the stats
    of the first like again. *)
Lemma like_after_unlike_run (n2 : Z) :
  Takahe.like_post n2 (post_id p) identity_pk db2 = (db1, Ok (Some row)).
Proof.
  destruct unlike_after_like_stored as [Hin2 Hnd2].
  destruct first_like_stored as [Hin1 Hnd1].
  unfold Takahe.like_post, Takahe.interact_post.
  change (post_id p) with (post_id p2) at 1.
  rewrite (bind_ok _ _ db2 db2 (Some p2) (find_post_stored db2 p2 Hnd2 Hin2)).
  unfold PostInteraction_get_or_create, except_DoesNotExist.
  unfold bind at 1. unfold bind at 1. unfold lift.
  change (interaction_of "like" identity_pk p2)
    with (interaction_of "like" identity_pk p).
  rewrite unlike_after_like_rows.
  change (qs_get MPostInteraction [row']) with (Ok row').
  cbv iota beta.
  change (negb (is_active (interaction_state row'))) with true. cbv iota.
  change (PostInteraction_set_state row' "new") with row.
  unfold bind at 1. unfold bind at 1. unfold PostInteraction_save, ret.
  change (interactions db2) with (interactions db ++ [row'])%list.
  rewrite (save_row_last interaction_id (interactions db) row' row Hfresh eq_refl).
  unfold bind. rewrite calculate_stats_run.
  set (dbC := with_interactions db2 (interactions db ++ [row])).
  assert (Hstats : stats_of dbC p2 = stats_of dbA p).
  { assert (E1 : count_interactions dbC p2 "like" = count_interactions dbA p "like")
      by reflexivity.
    assert (E2 : count_interactions dbC p2 "boost" = count_interactions dbA p "boost")
      by reflexivity.
    assert (E3 : count_replies dbC p2 = count_replies dbA p).
    { transitivity (count_replies db1 p1).
      { exact (count_replies_after_save db1 p1 (Some (stats_of dbB p1)) Hnd1 Hin1). }
      transitivity (count_replies db p).
      { exact (count_replies_after_save db p (Some (stats_of dbA p)) Hnd Hin). }
      reflexivity. }
    unfold stats_of. rewrite E1, E2, E3. reflexivity. }
  rewrite Hstats.
  change (Post_set_stats p2 (Some (stats_of dbA p))) with p1.
  change (posts dbC) with (save_row post_id p2 (posts db1)).
  rewrite (save_row_overwrite post_id (posts db1) p1 p2 p1 Hin1 eq_refl eq_refl).
  change (posts db1) with (save_row post_id p1 (posts db)).
  rewrite (save_row_overwrite post_id (posts db) p p1 p1 Hin eq_refl eq_refl).
  reflexivity.
Qed.

(** X13: [post_liked_by] follows the toggle: false before the first like,
    true after [like_post], false again after [unlike_post]. *)
Theorem post_liked_by_follows_the_toggle :
  Takahe.post_liked_by (post_id p) identity_pk db = (db, Ok false)
  /\ exists dbL liked,
       Takahe.like_post n1 (post_id p) identity_pk db = (dbL, Ok (Some liked))
       /\ Takahe.post_liked_by (post_id p) identity_pk dbL = (dbL, Ok true)
       /\ exists dbU,
            Takahe.unlike_post (post_id p) identity_pk dbL = (dbU, Ok tt)
            /\ Takahe.post_liked_by (post_id p) identity_pk dbU = (dbU, Ok false).
Proof.
  destruct first_like_stored as [Hin1 Hnd1].
  destruct unlike_after_like_stored as [Hin2 Hnd2].
  split.
  - exact (post_liked_by_run db identity_pk p [] Hnd Hin Hnone).
  - exists db1, row. split; [exact first_like_run |].
    split.
    { exact (post_liked_by_run db1 identity_pk p1 [row] Hnd1 Hin1 first_like_rows). }
    exists db2. split; [exact unlike_after_like_run |].
    exact (post_liked_by_run db2 identity_pk p2 [row'] Hnd2 Hin2 unlike_after_like_rows).
Qed.

(** X14: liking, unliking and liking again gives what liking once gives:
    the same database, with the one interaction row of the first like
    revived (no second row is inserted), and the same returned row. *)
Theorem like_unlike_like_is_like (n2 : Z) :
  like_unlike_like n1 n2 (post_id p) identity_pk db
  = Takahe.like_post n1 (post_id p) identity_pk db.
Proof.
  unfold like_unlike_like.
  rewrite (bind_ok _ _ db db1 (Some row) first_like_run).
  rewrite (bind_ok _ _ db1 db2 tt unlike_after_like_run).
  rewrite (like_after_unlike_run n2). symmetry. exact first_like_run.
Qed.

End AfterFirstLike.

Lemma post_liked_by_follows_the_toggle_witness :
  Takahe.post_liked_by 500 1 bob_liked_db = (bob_liked_db, Ok false)
  /\ exists dbL liked,
       Takahe.like_post 701 500 1 bob_liked_db = (dbL, Ok (Some liked))
       /\ Takahe.post_liked_by 500 1 dbL = (dbL, Ok true)
       /\ exists dbU,
            Takahe.unlike_post 500 1 dbL = (dbU, Ok tt)
            /\ Takahe.post_liked_by 500 1 dbU = (dbU, Ok false).
Proof.
  assert (Hnd : NoDup (map post_id (posts bob_liked_db))).
  { vm_compute. concrete_nodup. }
  assert (Hin : In (sample_post 500 1 (Some [("likes", 1); ("boosts", 0); ("replies", 0)]))
                   (posts bob_liked_db)).
  { vm_compute. left. reflexivity. }
  assert (Hfresh : ~ In 701 (map interaction_id (interactions bob_liked_db))).
  { vm_compute. intros [H | []]. discriminate H. }
  exact (post_liked_by_follows_the_toggle bob_liked_db 701 1 _ Hnd Hin eq_refl Hfresh
           eq_refl).
Defined.

Lemma like_unlike_like_is_like_witness :
  like_unlike_like 701 702 500 1 bob_liked_db = Takahe.like_post 701 500 1 bob_liked_db.
Proof.
  assert (Hnd : NoDup (map post_id (posts bob_liked_db))).
  { vm_compute. concrete_nodup. }
  assert (Hin : In (sample_post 500 1 (Some [("likes", 1); ("boosts", 0); ("replies", 0)]))
                   (posts bob_liked_db)).
  { vm_compute. left. reflexivity. }
  assert (Hfresh : ~ In 701 (map interaction_id (interactions bob_liked_db))).
  { vm_compute. intros [H | []]. discriminate H. }
  exact (like_unlike_like_is_like bob_liked_db 701 1 _ Hnd Hin eq_refl Hfresh eq_refl 702).
Defined.

(** ** Domains *)

(** X15: on a Domain table with unique names and no local domain of that
    name, [get_remote_domain] returns a domain that is not local and is named
    by the lower-cased argument, and calling it again returns the same row
    and writes nothing: the second of two calls in a row changes nothing. *)
Theorem get_remote_domain_is_an_upsert (env : Env) (d : string) (db : DB) :
  NoDup (map domain_domain (domains db)) ->
  (forall x, In x (domains db) -> domain_domain x = str_lower env d ->
             domain_local x = false) ->
  exists db1 row,
    get_remote_domain env d db = (db1, Ok row)
    /\ domain_domain row = str_lower env d
    /\ domain_local row = false
    /\ get_remote_domain env d db1 = (db1, Ok row)
    /\ get_remote_domain_twice env d db = (db1, Ok (row, row)).
Proof.
  intros Hnd Hremote.
  unfold get_remote_domain_twice, bind, ret.
  unfold get_remote_domain, except_DoesNotExist, lift, Domain_create.
  set (n := str_lower env d) in *.
  set (f := fun x : Domain => ((domain_domain x =? n)%string && negb (domain_local x))%bool).
  destruct (filter f (domains db)) as [| r [| r2 rest]] eqn:F.
  - simpl.
    assert (Habsent : existsb (fun x => (domain_domain x =? n)%string) (domains db) = false).
    { destruct (existsb (fun x => (domain_domain x =? n)%string) (domains db)) eqn:E;
        [| reflexivity].
      apply existsb_exists in E. destruct E as [x [Hx Hn]].
      apply String.eqb_eq in Hn.
      assert (Hfx : f x = false) by (apply (filter_nil_inv f _ x F Hx)).
      unfold f in Hfx. rewrite (Hremote x Hx Hn) in Hfx.
      rewrite Hn, String.eqb_refl in Hfx. discriminate Hfx. }
    rewrite Habsent.
    set (new := {| domain_domain := n; domain_service_domain := None;
                   domain_local := false |}).
    assert (Hnew : f new = true).
    { unfold f, new. simpl. rewrite String.eqb_refl. reflexivity. }
    assert (Hagain : filter f (domains db ++ [new]) = [new]).
    { rewrite filter_app, F. simpl. rewrite Hnew. reflexivity. }
    exists (with_domains db (domains db ++ [new])), new.
    simpl. rewrite Hagain. simpl.
    repeat split; reflexivity.
  - simpl. exists db, r.
    assert (Hr : In r (filter f (domains db))) by (rewrite F; left; reflexivity).
    apply filter_In in Hr. destruct Hr as [Hr Hfr].
    unfold f in Hfr. apply andb_true_iff in Hfr. destruct Hfr as [Hname Hloc].
    rewrite F. simpl.
    split; [reflexivity |]. split; [apply String.eqb_eq; exact Hname |].
    split; [apply negb_true_iff; exact Hloc |]. split; reflexivity.
  - exfalso.
    pose proof (NoDup_map_filter domain_domain f (domains db) Hnd) as Hnd'.
    rewrite F in Hnd'. simpl in Hnd'.
    assert (Hname : forall x, In x (filter f (domains db)) -> domain_domain x = n).
    { intros x Hx. apply filter_In in Hx. destruct Hx as [_ Hfx].
      unfold f in Hfx. apply andb_true_iff in Hfx. destruct Hfx as [Hn _].
      apply String.eqb_eq. exact Hn. }
    rewrite F in Hname.
    inversion Hnd' as [| ? ? Hnotin _]; subst. apply Hnotin. left.
    rewrite (Hname r (or_introl eq_refl)).
    apply (Hname r2). right. left. reflexivity.
Qed.

Lemma get_remote_domain_is_an_upsert_witness :
  exists db1 row,
    get_remote_domain (answering 200 "") "Main.Example" alias_known_db = (db1, Ok row)
    /\ domain_domain row = "main.example"
    /\ domain_local row = false
    /\ get_remote_domain (answering 200 "") "Main.Example" db1 = (db1, Ok row)
    /\ get_remote_domain_twice (answering 200 "") "Main.Example" alias_known_db
       = (db1, Ok (row, row)).
Proof.
  apply (get_remote_domain_is_an_upsert (answering 200 "") "Main.Example" alias_known_db).
  - simpl. concrete_nodup.
  - simpl. intros x [<- | []] H. reflexivity.
Defined.

Lemma two_members {R} (l : list R) (a b : R) :
  In a l -> In b l -> a <> b -> exists x y rest, l = x :: y :: rest.
Proof.
  destruct l as [| x [| y rest]]; simpl; intros Ha Hb Hab.
  - contradiction.
  - destruct Ha as [Ha | []], Hb as [Hb | []]. congruence.
  - exists x, y, rest. reflexivity.
Qed.

(** X16: [Domain.get_domain] returns None, writing nothing, when no row
    has the lower-cased name as its domain or as its service domain; when one
    row has it as its domain and another as its service domain, it does not
    choose between them: [MultipleObjectsReturned] is raised. *)
Theorem get_domain_does_not_choose (env : Env) (name : string) (db : DB) :
  ((forall x, In x (domains db) ->
      domain_domain x <> str_lower env name
      /\ domain_service_domain x <> Some (str_lower env name)) ->
   Domain_get_domain env name db = (db, Ok None))
  /\ (forall r1 r2,
        In r1 (domains db) -> In r2 (domains db) -> r1 <> r2 ->
        domain_domain r1 = str_lower env name ->
        domain_service_domain r2 = Some (str_lower env name) ->
        Domain_get_domain env name db = (db, Raise (MultipleObjectsReturned MDomain))).
Proof.
  unfold Domain_get_domain, lift. set (n := str_lower env name).
  split.
  - intros Hnone. rewrite filter_none; [reflexivity |].
    intros x Hx. destruct (Hnone x Hx) as [Hd Hs].
    apply orb_false_iff. split.
    + apply String.eqb_neq. exact Hd.
    + destruct (opt_string_eqb (domain_service_domain x) (Some n)) eqn:E; [| reflexivity].
      apply opt_string_eqb_eq in E. contradiction.
  - intros r1 r2 H1 H2 Hneq Hd Hs.
    set (f := fun d : Domain => ((domain_domain d =? n)%string
                                 || opt_string_eqb (domain_service_domain d) (Some n))%bool).
    assert (Hf1 : In r1 (filter f (domains db))).
    { apply filter_In. split; [exact H1 |]. unfold f. rewrite Hd, String.eqb_refl.
      reflexivity. }
    assert (Hf2 : In r2 (filter f (domains db))).
    { apply filter_In. split; [exact H2 |]. unfold f.
      rewrite (proj2 (opt_string_eqb_eq _ _) Hs). apply orb_true_r. }
    destruct (two_members (filter f (domains db)) r1 r2 Hf1 Hf2 Hneq)
      as [x [y [rest Hl]]].
    rewrite Hl. reflexivity.
Qed.

Lemma get_domain_does_not_choose_witness :
  Domain_get_domain (answering 200 "") "Alias.Example"
    (with_domains two_identities
       [alias_domain;
        {| domain_domain := "fedi.alias.example";
           domain_service_domain := Some "alias.example"; domain_local := false |}])
  = (with_domains two_identities
       [alias_domain;
        {| domain_domain := "fedi.alias.example";
           domain_service_domain := Some "alias.example"; domain_local := false |}],
     Raise (MultipleObjectsReturned MDomain)).
Proof.
  apply (proj2 (get_domain_does_not_choose (answering 200 "") "Alias.Example" _)
           alias_domain
           {| domain_domain := "fedi.alias.example";
              domain_service_domain := Some "alias.example"; domain_local := false |}).
  - simpl. left. reflexivity.
  - simpl. right. left. reflexivity.
  - discriminate.
  - reflexivity.
  - reflexivity.
Defined.

(** ** Discovery *)

(** X17: [fetch_webfinger_url] returns the template of host-meta whenever
    host-meta answered 200 with a body that is not blank and names a template
    that is not empty; it raises on a TLS certificate error; in every other
    case it returns the domain's default webfinger URL; and the URL it
    returns is never empty. *)
Theorem fetch_webfinger_url_falls_back (env : Env) (domain : string) :
  let outcome := http_get env ("https://" ++ domain ++ "/.well-known/host-meta") in
  (forall content template,
      outcome = Response 200 content ->
      has_non_space content = true ->
      xpath_lrdd_template env content = XmlTemplate template ->
      template <> "" ->
      fetch_webfinger_url env domain = Ok template)
  /\ (outcome = CertError ->
      fetch_webfinger_url env domain = Raise SSLCertVerificationError)
  /\ (outcome <> CertError ->
      (forall content template,
          outcome = Response 200 content ->
          has_non_space content = true ->
          xpath_lrdd_template env content = XmlTemplate template ->
          template = "") ->
      fetch_webfinger_url env domain = Ok (default_webfinger_url domain))
  /\ (forall url, fetch_webfinger_url env domain = Ok url -> url <> "").
Proof.
  assert (Hdefault : default_webfinger_url domain <> "").
  { unfold default_webfinger_url. simpl. discriminate. }
  cbv zeta. unfold fetch_webfinger_url.
  destruct (http_get env ("https://" ++ domain ++ "/.well-known/host-meta"))
    as [| | status content].
  - split; [intros content template H; discriminate H |].
    split; [intros H; discriminate H |].
    split; [reflexivity |].
    intros url H. injection H as H. subst url. exact Hdefault.
  - split; [intros content template H; discriminate H |].
    split; [reflexivity |].
    split; [intros H; exfalso; apply H; reflexivity |].
    intros url H. discriminate H.
  - split.
    { intros content' template H Hns Hx Hne. injection H as Hs Hc. subst status content'.
      change (200 =? 200) with true. rewrite Hns, Hx. cbn [andb].
      destruct template as [| c rest]; [exfalso; apply Hne; reflexivity | reflexivity]. }
    split; [intros H; discriminate H |].
    split.
    { intros _ Hnone.
      destruct (Z.eqb_spec status 200) as [E | E]; cbn [andb]; [| reflexivity].
      subst status.
      destruct (has_non_space content) eqn:Hns; [| reflexivity].
      destruct (xpath_lrdd_template env content) as [| template] eqn:Hx; [reflexivity |].
      rewrite (Hnone content template eq_refl Hns Hx). reflexivity. }
    intros url H.
    destruct ((status =? 200) && has_non_space content).
    + destruct (xpath_lrdd_template env content) as [| template].
      * injection H as H. subst url. exact Hdefault.
      * destruct template as [| c rest].
        -- injection H as H. subst url. exact Hdefault.
        -- injection H as H. subst url. discriminate.
    + injection H as H. subst url. exact Hdefault.
Qed.

Lemma fetch_webfinger_url_falls_back_witness :
  fetch_webfinger_url (templating "https://fedi.example/finger?resource={uri}")
                      "main.example"
  = Ok "https://fedi.example/finger?resource={uri}".
Proof.
  apply (proj1 (fetch_webfinger_url_falls_back
                  (templating "https://fedi.example/finger?resource={uri}")
                  "main.example") "<XRD/>").
  - reflexivity.
  - reflexivity.
  - reflexivity.
  - discriminate.
Defined.

(** X18: in a webfinger document, an object with a string subject and an
    array of links, the first link object whose type is
    "application/activity+json" and whose rel is "self" decides: the result
    is its href with the subject, one leading "acct:" removed; the links
    after it are not looked at. *)
Theorem first_self_link_wins (env : Env) (content subject : string)
    (fields link : list (string * json)) (before after : list json) (href : json) :
  json_loads env content = Some (JObj fields) ->
  assoc "subject" fields = Some (JStr subject) ->
  assoc "links" fields = Some (JArr (before ++ JObj link :: after)) ->
  (forall x, In x before ->
     exists other, x = JObj other
                   /\ get_equals other "type" "application/activity+json"
                      && get_equals other "rel" "self" = false) ->
  get_equals link "type" "application/activity+json" = true ->
  get_equals link "rel" "self" = true ->
  assoc "href" link = Some href ->
  read_webfinger env content
  = Ok (Some (href, if prefix "acct:" subject then drop_chars 5 subject else subject)).
Proof.
  intros Hjson Hsubject Hlinks Hbefore Htype Hrel Hhref.
  unfold read_webfinger. rewrite Hjson, Hsubject, Hlinks. simpl json_iter. cbv iota.
  set (s := if prefix "acct:" subject then drop_chars 5 subject else subject).
  clear Hlinks. induction before as [| x before IH]; simpl.
  - rewrite Htype, Hrel, Hhref. reflexivity.
  - destruct (Hbefore x (or_introl eq_refl)) as [other [-> Hno]].
    rewrite Hno. apply IH. intros y Hy. apply Hbefore. right. exact Hy.
Qed.

Lemma first_self_link_wins_witness :
  read_webfinger (discovering "bob@Main.Example" "https://main.example/users/bob") "{}"
  = Ok (Some (JStr "https://main.example/users/bob", "bob@Main.Example")).
Proof.
  apply (first_self_link_wins
           (discovering "bob@Main.Example" "https://main.example/users/bob")
           "{}" "acct:bob@Main.Example"
           [("subject", JStr "acct:bob@Main.Example");
            ("links",
             JArr [JObj [("rel", JStr "http://webfinger.net/rel/profile-page");
                         ("type", JStr "text/html");
                         ("href", JStr "https://main.example/@bob")];
                   JObj [("rel", JStr "self");
                         ("type", JStr "application/activity+json");
                         ("href", JStr "https://main.example/users/bob")]])]
           [("rel", JStr "self"); ("type", JStr "application/activity+json");
            ("href", JStr "https://main.example/users/bob")]
           [JObj [("rel", JStr "http://webfinger.net/rel/profile-page");
                  ("type", JStr "text/html");
                  ("href", JStr "https://main.example/@bob")]]
           []).
  - reflexivity.
  - reflexivity.
  - reflexivity.
  - intros x [<- | []]. eexists. split; reflexivity.
  - reflexivity.
  - reflexivity.
  - reflexivity.
Defined.

(** ** Resolving a handle, continued *)

(** X19: a handle that matches exactly one stored identity resolves to it
    whatever the [fetch] flag, with nothing written and nothing asked of the
    network: the result is the same in any world with the same string
    comparison. *)
Theorem known_handle_needs_no_network (env env' : Env) (new_id : Z) (username : string)
    (domain : domain_arg) (fetch local : bool) (db : DB) (i : Identity) :
  str_lower env' = str_lower env ->
  iexact env' = iexact env ->
  prefix "@" username = false ->
  filter (handle_matches env username domain local) (identities db) = [i] ->
  by_username_and_domain env' new_id username domain fetch local db = (db, Ok (Some i)).
Proof.
  intros Hlower Hiexact Hat Hfound.
  unfold by_username_and_domain. rewrite Hat, Hlower, Hiexact.
  unfold handle_matches, looked_up_domain, runs_local in Hfound.
  destruct domain as [name | dinst]; cbv zeta;
    unfold except_DoesNotExist, bind, Identity_get, lift;
    rewrite Hfound; reflexivity.
Qed.

Lemma known_handle_needs_no_network_witness :
  by_username_and_domain (answering 500 "") 900 "BOB" (DomainName "NeoDB.example")
    true false two_identities
  = (two_identities, Ok (Some (sample_identity 2 "bob" false))).
Proof.
  apply (known_handle_needs_no_network
           (discovering "bob@main.example" "https://main.example/users/bob")
           (answering 500 "") 900 "BOB" (DomainName "NeoDB.example") true false
           two_identities (sample_identity 2 "bob" false)); reflexivity.
Defined.

(** X20: [by_username_and_domain] raises the ValueError on a username that
    starts with "@"; and when the handle matches no stored identity and
    either [fetch] is off or the lookup is local, it returns None; in both
    cases nothing is written and no identity is created. *)
Theorem unresolved_handle_is_left_alone (env : Env) (new_id : Z) (username : string)
    (domain : domain_arg) (fetch local : bool) (db : DB) :
  (prefix "@" username = true ->
   by_username_and_domain env new_id username domain fetch local db
   = (db, Raise (ValueError "Username must not start with @" None)))
  /\ (prefix "@" username = false ->
      filter (handle_matches env username domain local) (identities db) = [] ->
      fetch = false \/ runs_local domain local = true ->
      by_username_and_domain env new_id username domain fetch local db = (db, Ok None)).
Proof.
  split.
  - intros Hat. unfold by_username_and_domain. rewrite Hat. reflexivity.
  - intros Hat Hnone Hquiet.
    unfold by_username_and_domain. rewrite Hat.
    unfold handle_matches, looked_up_domain, runs_local in Hnone.
    unfold runs_local in Hquiet.
    destruct domain as [name | dinst]; cbv zeta;
      unfold except_DoesNotExist, bind, Identity_get, lift;
      rewrite Hnone; simpl;
      destruct Hquiet as [-> | ->]; simpl; try reflexivity;
      rewrite andb_false_r; reflexivity.
Qed.

Lemma unresolved_handle_is_left_alone_witness :
  by_username_and_domain
    (discovering "carol@main.example" "https://main.example/users/carol")
    900 "@carol" (DomainName "main.example") true false two_identities
  = (two_identities, Raise (ValueError "Username must not start with @" None))
  /\ by_username_and_domain
       (discovering "carol@main.example" "https://main.example/users/carol")
       900 "carol" (DomainName "main.example") false false two_identities
     = (two_identities, Ok None).
Proof.
  split.
  - apply (proj1 (unresolved_handle_is_left_alone
                    (discovering "carol@main.example" "https://main.example/users/carol")
                    900 "@carol" (DomainName "main.example") true false two_identities)).
    reflexivity.
  - apply (proj2 (unresolved_handle_is_left_alone
                    (discovering "carol@main.example" "https://main.example/users/carol")
                    900 "carol" (DomainName "main.example") false false two_identities)).
    + reflexivity.
    + reflexivity.
    + left. reflexivity.
Defined.

(** The creation through discovery, for a [domain] given as a host name. *)
Lemma resolve_creates (env : Env) (new_id : Z) (username name : string) (db : DB)
    (uri subject u d : string) :
  prefix "@" username = false ->
  (forall i, In i (identities db) ->
     match identity_username i with
     | Some u0 => iexact env u0 username
     | None => false
     end && opt_string_eqb (identity_domain_id i) (Some (str_lower env name)) = false) ->
  fetch_webfinger env (username ++ "@" ++ str_lower env name)
  = Ok (Some (JStr uri, subject)) ->
  filter (fun i => opt_string_eqb (Some (identity_actor_uri i)) (Some uri))
         (identities db) = [] ->
  unpack_handle subject = Ok (u, d) ->
  NoDup (map domain_domain (domains db)) ->
  (forall x, In x (domains db) -> domain_domain x = str_lower env d ->
             domain_local x = false) ->
  ~ In new_id (map identity_id (identities db)) ->
  existsb (fun i => opt_string_eqb (identity_username i) (Some u)
                    && opt_string_eqb (identity_domain_id i) (Some (str_lower env d)))
          (identities db) = false ->
  exists rows',
    by_username_and_domain env new_id username (DomainName name) true false db
    = (let created :=
         {| identity_id := new_id; identity_actor_uri := uri;
            identity_local := false; identity_username := Some u;
            identity_domain_id := Some (str_lower env d) |} in
       (with_identities (with_domains db rows') (identities db ++ [created]),
        Ok (Some created))).
Proof.
  intros Hat Hmiss Hwf Hnone Hunpack Hnd Hnolocal Hfresh Hpair.
  rewrite (resolve_after_discovery env new_id username (DomainName name) false db
             uri subject Hat eq_refl Hmiss Hwf).
  unfold except_DoesNotExist at 1. unfold bind at 1.
  unfold Identity_get, lift. rewrite Hnone.
  cbv iota beta. change (qs_get MIdentity (@nil Identity))
    with (@Raise Identity (DoesNotExist MIdentity)).
  cbv iota. change (model_eqb MIdentity MIdentity) with true. cbv iota.
  rewrite Hunpack. cbv iota beta.
  destruct (get_remote_domain_run env d db Hnd Hnolocal)
    as [rows' [row [Hrun [Hname Hexists]]]].
  exists rows'.
  rewrite (bind_ok _ _ db _ row Hrun). rewrite Hname.
  rewrite (bind_ok _ _ _ _ _
             (Identity_create_run (with_domains db rows') new_id uri u
                (str_lower env d) Hfresh Hnone Hpair Hexists)).
  reflexivity.
Qed.

(** X21: an identity created through discovery is found again under its
    canonical handle: resolving the subject's username and domain afterwards,
    with or without [fetch], returns the created identity and writes
    nothing. *)
Theorem created_identity_resolves_again (env : Env) (n1 n2 : Z)
    (username name : string) (db : DB) (uri subject u d : string) (fetch : bool) :
  prefix "@" username = false ->
  (forall i, In i (identities db) ->
     match identity_username i with
     | Some u0 => iexact env u0 username
     | None => false
     end && opt_string_eqb (identity_domain_id i) (Some (str_lower env name)) = false) ->
  fetch_webfinger env (username ++ "@" ++ str_lower env name)
  = Ok (Some (JStr uri, subject)) ->
  filter (fun i => opt_string_eqb (Some (identity_actor_uri i)) (Some uri))
         (identities db) = [] ->
  unpack_handle subject = Ok (u, d) ->
  NoDup (map domain_domain (domains db)) ->
  (forall x, In x (domains db) -> domain_domain x = str_lower env d ->
             domain_local x = false) ->
  ~ In n1 (map identity_id (identities db)) ->
  prefix "@" u = false ->
  iexact env u u = true ->
  (forall i, In i (identities db) ->
     match identity_username i with
     | Some u0 => iexact env u0 u
     | None => false
     end && opt_string_eqb (identity_domain_id i) (Some (str_lower env d)) = false) ->
  exists db' created,
    by_username_and_domain env n1 username (DomainName name) true false db
    = (db', Ok (Some created))
    /\ identity_username created = Some u
    /\ identity_domain_id created = Some (str_lower env d)
    /\ by_username_and_domain env n2 u (DomainName d) fetch false db'
       = (db', Ok (Some created)).
Proof.
  intros Hat Hmiss Hwf Hnone Hunpack Hnd Hnolocal Hfresh Hat' Hrefl Hunique.
  assert (Hpair : existsb (fun i => opt_string_eqb (identity_username i) (Some u)
                            && opt_string_eqb (identity_domain_id i)
                                 (Some (str_lower env d)))
                    (identities db) = false).
  { apply existsb_of_empty_filter. apply filter_none. intros i Hi.
    destruct (opt_string_eqb (identity_username i) (Some u)) eqn:Hu; [| reflexivity].
    apply opt_string_eqb_eq in Hu. pose proof (Hunique i Hi) as Hno.
    rewrite Hu, Hrefl in Hno. exact Hno. }
  destruct (resolve_creates env n1 username name db uri subject u d
              Hat Hmiss Hwf Hnone Hunpack Hnd Hnolocal Hfresh Hpair) as [rows' Hrun].
  cbv zeta in Hrun.
  set (created := {| identity_id := n1; identity_actor_uri := uri;
                     identity_local := false; identity_username := Some u;
                     identity_domain_id := Some (str_lower env d) |}) in *.
  set (db' := with_identities (with_domains db rows') (identities db ++ [created])) in *.
  exists db', created.
  split; [exact Hrun |]. split; [reflexivity |]. split; [reflexivity |].
  unfold by_username_and_domain. rewrite Hat'. cbv zeta.
  unfold except_DoesNotExist, bind, Identity_get, lift.
  change (identities db') with (identities db ++ [created])%list.
  rewrite filter_app.
  rewrite (filter_none _ (identities db)).
  - simpl. rewrite Hrefl, String.eqb_refl. reflexivity.
  - intros i Hi. rewrite (Hunique i Hi). reflexivity.
Qed.

Lemma created_identity_resolves_again_witness :
  exists db' created,
    by_username_and_domain
      (discovering "bob@Main.Example" "https://main.example/users/bob")
      900 "bob" (DomainName "Alias.example") true false two_identities
    = (db', Ok (Some created))
    /\ identity_username created = Some "bob"
    /\ identity_domain_id created = Some "main.example"
    /\ by_username_and_domain
         (discovering "bob@Main.Example" "https://main.example/users/bob")
         901 "bob" (DomainName "Main.Example") true false db'
       = (db', Ok (Some created)).
Proof.
  apply (created_identity_resolves_again
           (discovering "bob@Main.Example" "https://main.example/users/bob")
           900 901 "bob" "Alias.example" two_identities
           "https://main.example/users/bob" "bob@Main.Example" "bob" "Main.Example" true).
  - reflexivity.
  - intros i Hi. simpl in Hi. destruct Hi as [<- | [<- | []]]; reflexivity.
  - reflexivity.
  - reflexivity.
  - reflexivity.
  - simpl. constructor.
  - simpl. intros x [].
  - simpl. intros [H | [H | []]]; discriminate H.
  - reflexivity.
  - reflexivity.
  - intros i Hi. simpl in Hi. destruct Hi as [<- | [<- | []]]; reflexivity.
Defined.

(** ** Star ratings *)

Lemma str_app_assoc (a b c : string) : ((a ++ b) ++ c = a ++ (b ++ c))%string.
Proof. induction a as [| x a IH]; simpl; [reflexivity | rewrite IH; reflexivity]. Qed.

Lemma str_app_nil_r (a : string) : (a ++ "" = a)%string.
Proof. induction a as [| x a IH]; simpl; [reflexivity | rewrite IH; reflexivity]. Qed.

Lemma concat_cons (x : string) (l : list string) :
  String.concat "" (x :: l) = (x ++ String.concat "" l)%string.
Proof.
  destruct l as [| y l]; simpl; [symmetry; apply str_app_nil_r | reflexivity].
Qed.

Lemma concat_app (l1 l2 : list string) :
  String.concat "" (l1 ++ l2) = (String.concat "" l1 ++ String.concat "" l2)%string.
Proof.
  induction l1 as [| x l1 IH].
  - reflexivity.
  - change ((x :: l1) ++ l2)%list with (x :: (l1 ++ l2))%list.
    rewrite !concat_cons, IH, str_app_assoc. reflexivity.
Qed.

Lemma replace_colons_other (c : ascii) (r : string) :
  Ascii.eqb c ":" = false ->
  replace_colons (String c r) = String c (replace_colons r).
Proof.
  intros Hc. destruct r as [| c2 r]; simpl; [reflexivity |].
  rewrite Hc. reflexivity.
Qed.

Lemma replace_colons_name (name t : string) :
  colon_free name = true ->
  replace_colons (name ++ t) = (name ++ replace_colons t)%string.
Proof.
  induction name as [| c name IH]; intros Hfree; [reflexivity |].
  simpl in Hfree. apply andb_true_iff in Hfree. destruct Hfree as [Hc Hfree].
  apply negb_true_iff in Hc.
  change (String c name ++ t)%string with (String c (name ++ t)).
  rewrite (replace_colons_other c (name ++ t) Hc), (IH Hfree). reflexivity.
Qed.

(** A colon followed by a name and the rest. *)
Lemma replace_colons_open (name t : string) :
  is_name name ->
  replace_colons (":" ++ name ++ t) = (":" ++ name ++ replace_colons t)%string.
Proof.
  intros [Hne Hfree]. destruct name as [| c name]; [contradiction |].
  pose proof Hfree as Hfree'. simpl in Hfree'.
  apply andb_true_iff in Hfree'. destruct Hfree' as [Hc _].
  apply negb_true_iff in Hc.
  change (":" ++ String c name ++ t)%string with (String ":" (String c (name ++ t))).
  assert (Hstep : replace_colons (String ":" (String c (name ++ t)))
                  = String ":" (replace_colons (String c (name ++ t)))).
  { simpl. rewrite Hc. reflexivity. }
  rewrite Hstep.
  change (String c (name ++ t)) with (String c name ++ t)%string.
  rewrite (replace_colons_name (String c name) t Hfree). reflexivity.
Qed.

Lemma replace_colons_after_code (names : list string) :
  Forall is_name names ->
  replace_colons (":" ++ String.concat "" (map shortcode names))
  = match names with
    | [] => ":"
    | _ => (": " ++ spaced names)%string
    end.
Proof.
  induction names as [| n rest IH]; intros Hall; [reflexivity |].
  inversion Hall as [| ? ? Hn Hrest]; subst.
  rewrite map_cons, concat_cons. unfold shortcode at 1.
  change (":" ++ (":" ++ n ++ ":") ++ String.concat "" (map shortcode rest))%string
    with (String ":" (String ":"
            ((n ++ ":") ++ String.concat "" (map shortcode rest)))%string).
  assert (Hstep : forall r,
            replace_colons (String ":" (String ":" r)) = (": :" ++ replace_colons r)%string).
  { intros r. reflexivity. }
  rewrite Hstep, str_app_assoc.
  rewrite (replace_colons_name n _ (proj2 Hn)), (IH Hrest).
  destruct rest as [| m rest]; simpl; unfold shortcode;
    rewrite ?str_app_assoc; reflexivity.
Qed.

Lemma replace_colons_codes (names : list string) :
  Forall is_name names ->
  replace_colons (String.concat "" (map shortcode names)) = spaced names.
Proof.
  destruct names as [| n rest]; intros Hall; [reflexivity |].
  inversion Hall as [| ? ? Hn Hrest]; subst.
  rewrite map_cons, concat_cons. unfold shortcode at 1.
  rewrite !str_app_assoc.
  rewrite (replace_colons_open n _ Hn), (replace_colons_after_code rest Hrest).
  destruct rest as [| m rest]; simpl; unfold shortcode;
    rewrite ?str_app_assoc; reflexivity.
Qed.

Lemma repeat_str_codes (name : string) (n : Z) :
  repeat_str (shortcode name) n
  = String.concat "" (map shortcode (repeat name (Z.to_nat n))).
Proof. unfold repeat_str. rewrite map_repeat. reflexivity. Qed.

(** X22: with the three star codes of the settings being shortcodes
    [:name:], a score from 1 to 10 is rendered, in any star mode but 1, as
    exactly five shortcodes (score // 2 solid, score % 2 half, the rest
    empty) with one space between neighbours and one space at each end: no
    two shortcodes touch. *)
Theorem rating_is_five_spaced_codes (settings : StarSettings)
    (solid half empty : string) (score star_mode : Z) :
  STAR_SOLID settings = shortcode solid ->
  STAR_HALF settings = shortcode half ->
  STAR_EMPTY settings = shortcode empty ->
  is_name solid -> is_name half -> is_name empty ->
  1 <= score <= 10 ->
  star_mode <> 1 ->
  _rating_to_emoji settings (Some score) star_mode
  = (" " ++ spaced (five_stars solid half empty score) ++ " ")%string
  /\ List.length (five_stars solid half empty score) = 5%nat.
Proof.
  intros Hs Hh He Nsolid Nhalf Nempty Hscore Hmode.
  assert (Hmod : score mod 2 = 0 \/ score mod 2 = 1).
  { pose proof (Z.mod_pos_bound score 2). lia. }
  assert (Hdiv : 0 <= score / 2 <= 5).
  { split; [apply Z.div_pos; lia |].
    apply Z.div_le_upper_bound; lia. }
  assert (Hsum : 0 <= 5 - score / 2 - score mod 2).
  { pose proof (Z.div_mod score 2). lia. }
  split.
  - unfold _rating_to_emoji.
    destruct (Z.eqb_spec score 0) as [E | _]; [lia |].
    destruct (Z.eqb_spec star_mode 1) as [E | _]; [contradiction |].
    cbv zeta.
    assert (Hhalf : (if score mod 2 =? 0 then 0 else 1) = score mod 2).
    { destruct Hmod as [-> | ->]; reflexivity. }
    rewrite Hhalf.
    assert (Hempty : (if score mod 2 =? 0 then 5 - score / 2 else 5 - score / 2 - 1)
                     = 5 - score / 2 - score mod 2).
    { destruct Hmod as [-> | ->]; simpl; lia. }
    rewrite Hempty, Hs, Hh, He, !repeat_str_codes, <- !concat_app, <- !map_app.
    fold (five_stars solid half empty score).
    rewrite replace_colons_codes; [reflexivity |].
    unfold five_stars. rewrite !Forall_app.
    repeat split; apply Forall_forall; intros x Hx; apply repeat_spec in Hx;
      subst x; assumption.
  - unfold five_stars. rewrite !length_app, !repeat_length. lia.
Qed.

Lemma rating_is_five_spaced_codes_witness :
  _rating_to_emoji
    {| STAR_SOLID := ":star_solid:"; STAR_HALF := ":star_half:";
       STAR_EMPTY := ":star_empty:" |} (Some 7) 0
  = " :star_solid: :star_solid: :star_solid: :star_half: :star_empty: ".
Proof.
  refine (proj1 (rating_is_five_spaced_codes
                   {| STAR_SOLID := ":star_solid:"; STAR_HALF := ":star_half:";
                      STAR_EMPTY := ":star_empty:" |}
                   "star_solid" "star_half" "star_empty" 7 0
                   eq_refl eq_refl eq_refl _ _ _ _ _));
    try (split; [discriminate | reflexivity]); lia.
Defined.
